(** * Sales Insights (lib/insights.js): a shallow embedding and its properties

    The engine is a pure function from an array of sales rows to three lists
    of sentences.  The embedding follows the source function by function:

    - JavaScript numbers are IEEE-754 binary64 values: Rocq's primitive
      [float], whose operations are the same round-to-nearest-even ones;
    - JavaScript strings are [string]s, one character per code unit (the
      model covers code units below 256);
    - a row is a record of property values (undefined, null, booleans,
      numbers and strings), an absent property reading as [VUndefined];
    - [Map] and [Set] are insertion-ordered association lists and lists;
    - a loop that pushes to [findings], [actions] and [warnings] is the
      triple of what it pushes, and [generateInsights] appends the triples
      of its steps in the order of the source before the final dedupe;
    - a [Date] made from a year, a month and a day is a calendar day
      ([JsDate]); for the validation of [parseDate], which goes through the
      local time of the host, it is a time value in a time zone
      ([LocalDate]);
    - locale formatting, case mapping and collation, which depend on the
      host, and two conversions that no property below looks into (the
      text of a number that is not a small integer, the number a string
      denotes) are the interface [Host].

    The file has three parts: the model, the vocabulary of the statements,
    and the properties, the tests of insights.test.js among them.  The
    vocabulary ends with the functions of the two components
    that make the rows the engine is given: the date field of the entry
    form (components/FormCard.jsx) and the CSV import
    (components/ImportCard.jsx). *)

From Stdlib Require Import ZArith List String Ascii Bool Lia.
From Stdlib Require Import Floats DecimalString.
From Stdlib Require Import Sorted Permutation DecimalZ.
Import ListNotations.

Set Implicit Arguments.
Local Open Scope Z_scope.

(* ================================================================== *)
(** * Numbers *)

Module Num.

(** [Number.isFinite] on a value that is a number. *)
Definition isFinite (x : float) : bool := PrimFloat.is_finite x.

Definition NaN : float := PrimFloat.nan.

(** The Number for an integer (exact for |z| <= 2^53). *)
Definition of_Z (z : Z) : float := SF2Prim (binary_normalize prec emax z 0 false).

(** ToBoolean on a number: [NaN], [+0] and [-0] are falsy. *)
Definition truthy (x : float) : bool :=
  negb (PrimFloat.is_nan x || PrimFloat.is_zero x).

(** [x || 0] on numbers. *)
Definition orZero (x : float) : float := if truthy x then x else 0%float.

(** The mathematical value of an integral Number, [None] for the others. *)
Definition to_integer (x : float) : option Z :=
  match Prim2SF x with
  | S754_zero _ => Some 0
  | S754_finite s m e =>
      if 0 <=? e then Some (cond_Zopp s (Zpos m * 2 ^ e))
      else if Zpos m mod 2 ^ (- e) =? 0
           then Some (cond_Zopp s (Zpos m / 2 ^ (- e)))
           else None
  | _ => None
  end.

(** [Math.round]: a non-finite or integral argument is returned as it is;
    otherwise the closest integer, the one nearer to +Infinity on a tie,
    i.e. floor(x + 1/2) computed exactly; a zero result keeps the sign of
    the argument. *)
Definition round (x : float) : float :=
  match Prim2SF x with
  | S754_finite s m e =>
      if 0 <=? e then x
      else
        let d := 2 ^ (- e) in
        if Zpos m mod d =? 0 then x
        else
          let n := (2 * cond_Zopp s (Zpos m) + d) / (2 * d) in
          if n =? 0 then (if s then (-0)%float else 0%float) else of_Z n
  | _ => x
  end.

(** [x ** 2]. *)
Definition square (x : float) : float := (x * x)%float.

(** [Math.sqrt]. *)
Definition sqrt (x : float) : float := PrimFloat.sqrt x.

End Num.

(* ================================================================== *)
(** * Strings *)

Module Str.

Local Open Scope string_scope.

(** White space and line terminators (ECMAScript [TrimString]) among the
    code units below 256: TAB, LF, VT, FF, CR, SP and NBSP. *)
Definition is_space (c : ascii) : bool :=
  let n := nat_of_ascii c in
  ((9 <=? n)%nat && (n <=? 13)%nat) || (n =? 32)%nat || (n =? 160)%nat.

Fixpoint trimStart (s : string) : string :=
  match s with
  | String c s' => if is_space c then trimStart s' else s
  | EmptyString => EmptyString
  end.

Fixpoint trimEnd (s : string) : string :=
  match s with
  | String c s' =>
      match trimEnd s' with
      | EmptyString => if is_space c then EmptyString else String c EmptyString
      | t => String c t
      end
  | EmptyString => EmptyString
  end.

(** [s.trim()]. *)
Definition trim (s : string) : string := trimEnd (trimStart s).

Definition is_digit (c : ascii) : bool :=
  let n := nat_of_ascii c in (48 <=? n)%nat && (n <=? 57)%nat.

Definition digit_value (c : ascii) : Z := Z.of_nat (nat_of_ascii c) - 48.

(** The value of a string of decimal digits ([parseInt(s, 10)] on it). *)
Fixpoint digits_value (acc : Z) (s : string) : Z :=
  match s with
  | String c s' => digits_value (10 * acc + digit_value c) s'
  | EmptyString => acc
  end.

(** The text of an integer: [String(n)] for an integral Number n. *)
Definition of_Z (z : Z) : string := NilZero.string_of_int (Z.to_int z).

Fixpoint repeat0 (n : nat) : string :=
  match n with O => "" | S n' => String "0" (repeat0 n') end.

(** [s.padStart(n, "0")]. *)
Definition padStart0 (n : nat) (s : string) : string :=
  repeat0 (n - String.length s) ++ s.

(** [s.charAt(0)] and [s.slice(1)]. *)
Definition charAt0 (s : string) : string :=
  match s with String c _ => String c "" | EmptyString => "" end.

Definition slice1 (s : string) : string :=
  match s with String _ s' => s' | EmptyString => "" end.

(** [parts.join(", ")]. *)
Fixpoint join (sep : string) (l : list string) : string :=
  match l with
  | [] => ""
  | [x] => x
  | x :: l' => x ++ sep ++ join sep l'
  end.

(** [s.split("-")]. *)
Fixpoint split_dash_aux (cur : string) (s : string) : list string :=
  match s with
  | EmptyString => [cur]
  | String c s' =>
      if Ascii.eqb c "-" then cur :: split_dash_aux "" s'
      else split_dash_aux (cur ++ String c "") s'
  end.

Definition split_dash (s : string) : list string := split_dash_aux "" s.

(** [parseInt(s, 10)]: leading white space, an optional sign, then the
    longest run of digits; [None] stands for [NaN]. *)
Fixpoint leading_digits (s : string) : string :=
  match s with
  | String c s' => if is_digit c then String c (leading_digits s') else ""
  | EmptyString => ""
  end.

Definition parseInt10 (s : string) : option Z :=
  let t := trimStart s in
  let '(neg, body) :=
    match t with
    | String c r =>
        if Ascii.eqb c "-" then (true, r)
        else if Ascii.eqb c "+" then (false, r) else (false, t)
    | EmptyString => (false, t)
    end in
  match leading_digits body with
  | EmptyString => None
  | ds => Some (if neg then - digits_value 0 ds else digits_value 0 ds)
  end.

(** The one-character string made of a double quote. *)
Definition dquote : string := String (ascii_of_nat 34) "".

(** The em dash of the sentences (U+2014), as its UTF-8 bytes. *)
Definition emdash : string :=
  String (ascii_of_nat 226) (String (ascii_of_nat 128) (String (ascii_of_nat 148) "")).

(** Code-unit order, the order of the default [Array.prototype.sort]. *)
Definition ltb (a b : string) : bool := String.ltb a b.

End Str.

(* ================================================================== *)
(** * Property values, rows and the host *)

(** The values a property of a row can hold.  Objects, arrays and symbols
    are left out: the engine's callers store none in a row. *)
Inductive value :=
| VUndefined
| VNull
| VBool (b : bool)
| VNumber (n : float)
| VString (s : string).

(** A sales row.  A property the object does not have reads [VUndefined]. *)
Record Row := {
  date : value;
  product : value;
  category : value;
  units : value;
  quantity : value;
  price : value;
  revenue : value
}.

(** What the engine takes from its host environment. *)
Class Host := {
  (** [Number(s)] on a string: StringToNumber. *)
  StringToNumber : string -> float;
  (** [String(x)] on a finite Number that is not an integer of magnitude
      below 2^53. *)
  NumberToStringHost : float -> string;
  (** [x.toLocaleString(undefined, {minimumFractionDigits: 0,
      maximumFractionDigits: 0})]. *)
  toLocaleString0 : float -> string;
  toUpperCase : string -> string;
  toLowerCase : string -> string;
  (** the sign of [a.localeCompare(b)] *)
  localeCompare : string -> string -> Z
}.

Module Js.
Section WithHost.
Context {host : Host}.

Local Open Scope string_scope.

(** [String(x)] on a Number. *)
Definition NumberToString (x : float) : string :=
  if PrimFloat.is_nan x then "NaN"
  else if (x =? PrimFloat.infinity)%float then "Infinity"
  else if (x =? PrimFloat.neg_infinity)%float then "-Infinity"
  else
    match Num.to_integer x with
    | Some z => if (Z.abs z <? 2 ^ 53)%Z then Str.of_Z z else NumberToStringHost x
    | None => NumberToStringHost x
    end.

(** [Number(v)]. *)
Definition ToNumber (v : value) : float :=
  match v with
  | VUndefined => Num.NaN
  | VNull => 0%float
  | VBool b => if b then 1%float else 0%float
  | VNumber n => n
  | VString s => StringToNumber s
  end.

(** [String(v)], also the text of [v] in a template literal. *)
Definition ToString (v : value) : string :=
  match v with
  | VUndefined => "undefined"
  | VNull => "null"
  | VBool b => if b then "true" else "false"
  | VNumber n => NumberToString n
  | VString s => s
  end.

(** ToBoolean. *)
Definition truthy (v : value) : bool :=
  match v with
  | VUndefined | VNull => false
  | VBool b => b
  | VNumber n => Num.truthy n
  | VString s => negb (String.eqb s "")
  end.

(** [a ?? b]. *)
Definition nullish (a b : value) : value :=
  match a with
  | VUndefined | VNull => b
  | _ => a
  end.

(** [Number.isFinite(v)], which does not coerce: only a finite Number
    passes, and then [v] is that number. *)
Definition asFiniteNumber (v : value) : option float :=
  match v with
  | VNumber n => if Num.isFinite n then Some n else None
  | _ => None
  end.

(** [v !== undefined]. *)
Definition is_defined (v : value) : bool :=
  match v with VUndefined => false | _ => true end.

End WithHost.
End Js.

(* ================================================================== *)
(** * Dates

    A [Date] built by [new Date(year, monthIndex, day)] is a local calendar
    day at midnight; it is modelled by its day number (days since
    1970-01-01), with the day arithmetic of ECMAScript (Day, DayFromYear,
    YearFromTime, MonthFromTime, DateFromTime, WeekDay, MakeDay).  Time
    zones do not enter: the model takes every local midnight to exist.
    [LocalDate], after the vocabulary, has the time value and the zone of
    the host; the two agree in a zone that moves no local time to another
    day ([parseDate_zone_agrees]). *)

Module JsDate.

Definition t := Z.

Definition isLeap (y : Z) : bool :=
  (y mod 4 =? 0) && (negb (y mod 100 =? 0) || (y mod 400 =? 0)).

Definition DaysInYear (y : Z) : Z := if isLeap y then 366 else 365.

Definition DayFromYear (y : Z) : Z :=
  365 * (y - 1970) + (y - 1969) / 4 - (y - 1901) / 100 + (y - 1601) / 400.

(** The largest year whose first day is not after [d]. *)
Definition YearFromDay (d : Z) : Z :=
  let y := 1970 + (400 * d) / 146097 in
  if d <? DayFromYear y then y - 1
  else if DayFromYear (y + 1) <=? d then y + 1
  else y.

(** Days of the year before month [m] (0 = January): the bounds of the
    table of MonthFromTime. *)
Definition daysBeforeMonth (leap : bool) (m : Z) : Z :=
  let l := if leap then 1 else 0 in
  match m with
  | 0 => 0
  | 1 => 31
  | 2 => 59 + l
  | 3 => 90 + l
  | 4 => 120 + l
  | 5 => 151 + l
  | 6 => 181 + l
  | 7 => 212 + l
  | 8 => 243 + l
  | 9 => 273 + l
  | 10 => 304 + l
  | _ => 334 + l
  end.

(** MonthFromTime, on the day within the year (0-365). *)
Definition MonthFromDay (leap : bool) (k : Z) : Z :=
  let l := if leap then 1 else 0 in
  if k <? 31 then 0
  else if k <? 59 + l then 1
  else if k <? 90 + l then 2
  else if k <? 120 + l then 3
  else if k <? 151 + l then 4
  else if k <? 181 + l then 5
  else if k <? 212 + l then 6
  else if k <? 243 + l then 7
  else if k <? 273 + l then 8
  else if k <? 304 + l then 9
  else if k <? 334 + l then 10
  else 11.

Definition getFullYear (d : t) : Z := YearFromDay d.

Definition getMonth (d : t) : Z :=
  let y := YearFromDay d in
  MonthFromDay (isLeap y) (d - DayFromYear y).

(** DateFromTime: the day within the year, less the days before its month,
    plus one. *)
Definition getDate (d : t) : Z :=
  let y := YearFromDay d in
  let k := d - DayFromYear y in
  k - daysBeforeMonth (isLeap y) (MonthFromDay (isLeap y) k) + 1.

(** [getDay()]: 0 = Sunday; day 0 (1970-01-01) was a Thursday. *)
Definition getDay (d : t) : Z := (d + 4) mod 7.

(** MakeDay(year, month, date). *)
Definition MakeDay (year month date : Z) : Z :=
  let ym := year + month / 12 in
  let mn := month mod 12 in
  DayFromYear ym + daysBeforeMonth (isLeap ym) mn + date - 1.

(** [new Date(year, monthIndex, day)]: a year from 0 to 99 means 1900 + year. *)
Definition make (year monthIndex day : Z) : t :=
  let yr := if (0 <=? year) && (year <=? 99) then 1900 + year else year in
  MakeDay yr monthIndex day.

(** [d.setDate(n)]. *)
Definition setDate (d : t) (n : Z) : t :=
  MakeDay (getFullYear d) (getMonth d) n.

End JsDate.

(* ================================================================== *)
(** * The helpers of insights.js *)

Definition MONTH_NAMES : list string :=
  ["January"; "February"; "March"; "April"; "May"; "June";
   "July"; "August"; "September"; "October"; "November"; "December"]%string.

Definition DAY_NAMES : list string :=
  ["Sunday"; "Monday"; "Tuesday"; "Wednesday"; "Thursday"; "Friday";
   "Saturday"]%string.

Definition MIN_ROWS_FOR_INSIGHTS : nat := 3.
Definition CONCENTRATION_WARN_PCT : float := 60%float.
Definition ANOMALY_CHANGE_THRESHOLD : float := 0.5%float.
Definition ANOMALY_STD_THRESHOLD : float := 2%float.

(** The object [parseDate] returns ([dateObj] is its [date] property). *)
Record ParsedDate := {
  year : Z;
  month : Z;
  day : Z;
  dateObj : JsDate.t;
  dayOfWeek : Z;
  weekKey : string
}.

Definition getISOWeekKey (d : JsDate.t) : string :=
  let d2 := d in
  let d2 := JsDate.setDate d2 (JsDate.getDate d2 - JsDate.getDay d2 + 1) in
  let y := JsDate.getFullYear d2 in
  let m := Str.padStart0 2 (Str.of_Z (JsDate.getMonth d2 + 1)) in
  let day := Str.padStart0 2 (Str.of_Z (JsDate.getDate d2)) in
  (Str.of_Z y ++ "-" ++ m ++ "-" ++ day)%string.

(** The groups of [/^(\d{2})-(\d{2})-(\d{4})$/] on [s]. *)
Definition match_2_2_4 (s : string) : option (string * string * string) :=
  match s with
  | String a1 (String a2 (String h1 (String b1 (String b2 (String h2
      (String c1 (String c2 (String c3 (String c4 EmptyString))))))))) =>
      if forallb Str.is_digit [a1; a2; b1; b2; c1; c2; c3; c4]
         && Ascii.eqb h1 "-" && Ascii.eqb h2 "-"
      then Some (String a1 (String a2 ""), String b1 (String b2 ""),
                 String c1 (String c2 (String c3 (String c4 ""))))%string
      else None
  | _ => None
  end.

(** The groups of [/^(\d{4})-(\d{2})-(\d{2})$/] on [s]. *)
Definition match_4_2_2 (s : string) : option (string * string * string) :=
  match s with
  | String a1 (String a2 (String a3 (String a4 (String h1 (String b1
      (String b2 (String h2 (String c1 (String c2 EmptyString))))))))) =>
      if forallb Str.is_digit [a1; a2; a3; a4; b1; b2; c1; c2]
         && Ascii.eqb h1 "-" && Ascii.eqb h2 "-"
      then Some (String a1 (String a2 (String a3 (String a4 ""))),
                 String b1 (String b2 ""), String c1 (String c2 ""))%string
      else None
  | _ => None
  end.

(** The part the two branches of [parseDate] share: from the three parsed
    integers to the result ([None] is [null]). *)
Definition parseDate_ymd (year month day : Z) : option ParsedDate :=
  if (month <? 1) || (month >? 12) || (day <? 1) || (day >? 31) then None
  else
    let d := JsDate.make year (month - 1) day in
    if negb (JsDate.getDate d =? day) || negb (JsDate.getMonth d =? month - 1)
    then None
    else Some {| year := year; month := month; day := day; dateObj := d;
                 dayOfWeek := JsDate.getDay d; weekKey := getISOWeekKey d |}.

Definition parseDate (dateStr : value) : option ParsedDate :=
  match dateStr with
  | VString str =>
      if String.eqb str "" then None
      else
        let s := Str.trim str in
        match match_2_2_4 s with
        | Some (g1, g2, g3) =>
            match Str.parseInt10 g1, Str.parseInt10 g2, Str.parseInt10 g3 with
            | Some day, Some month, Some year => parseDate_ymd year month day
            | _, _, _ => None
            end
        | None =>
            match match_4_2_2 s with
            | Some (g1, g2, g3) =>
                match Str.parseInt10 g1, Str.parseInt10 g2, Str.parseInt10 g3 with
                | Some year, Some month, Some day => parseDate_ymd year month day
                | _, _, _ => None
                end
            | None => None
            end
        end
  | _ => None
  end.

Section Helpers.
Context {host : Host}.

(** Get quantity from row (supports both "units" and "quantity"). *)
Definition getQuantity (row : Row) : float :=
  let q := Js.nullish (units row) (quantity row) in
  let n := Js.ToNumber q in
  if Num.isFinite n then n else 0%float.

(** Get revenue from row; compute from quantity * price if not present. *)
Definition getRevenue (row : Row) : float :=
  match Js.asFiniteNumber (revenue row) with
  | Some r => r
  | None =>
      let q := getQuantity row in
      let p := Js.ToNumber (price row) in
      if Num.isFinite p then (q * p)%float else 0%float
  end.

(** Normalize category for grouping (trim, title case). *)
Definition normCat (c : value) : string :=
  let s := Str.trim (Js.ToString (Js.nullish c (VString ""))) in
  if String.eqb s "" then ""%string
  else (toUpperCase (Str.charAt0 s) ++ toLowerCase (Str.slice1 s))%string.

(** [String(row.product ?? "").trim() || "Unknown"]. *)
Definition productName (row : Row) : string :=
  let s := Str.trim (Js.ToString (Js.nullish (product row) (VString ""))) in
  if String.eqb s "" then "Unknown"%string else s.

End Helpers.

(* ================================================================== *)
(** * Containers: [Map], [Set] and [Array.prototype.sort] *)

Module JsMap.
Section M.
Variables (K V : Type) (eqb : K -> K -> bool).

(** A [Map] in insertion order. *)
Definition t := list (K * V).

Fixpoint get (k : K) (m : t) : option V :=
  match m with
  | [] => None
  | (k', v) :: m' => if eqb k k' then Some v else get k m'
  end.

(** [m.set(k, v)]: a present key keeps its place. *)
Fixpoint set (k : K) (v : V) (m : t) : t :=
  match m with
  | [] => [(k, v)]
  | (k', v') :: m' => if eqb k k' then (k', v) :: m' else (k', v') :: set k v m'
  end.

Definition keys (m : t) : list K := map fst m.
Definition values (m : t) : list V := map snd m.
Definition size (m : t) : nat := List.length m.

End M.
End JsMap.

Module JsSet.
Section S.
Variables (A : Type) (eqb : A -> A -> bool).

(** A [Set] in insertion order. *)
Definition t := list A.

Definition has (x : A) (s : t) : bool := existsb (eqb x) s.
Definition add (x : A) (s : t) : t := if has x s then s else s ++ [x].

(** [new Set(arr)]. *)
Definition of_list (l : list A) : t := fold_left (fun s x => add x s) l [].

Definition size (s : t) : nat := List.length s.

End S.
End JsSet.

Module JsArray.
Section A.
Variable A : Type.

(** [arr.sort(cmp)], a stable sort; [after y x] says that the comparator
    puts [y] after [x] ([cmp(y, x) > 0], a [NaN] counting as 0). *)
Variable after : A -> A -> bool.

Fixpoint insert (x : A) (l : list A) : list A :=
  match l with
  | [] => [x]
  | y :: l' => if after y x then x :: l else y :: insert x l'
  end.

Definition sort (l : list A) : list A :=
  fold_left (fun acc x => insert x acc) l [].

End A.

(** [arr[arr.length - k]] for a string array, [""] when there is none. *)
Definition fromEnd (l : list string) (k : nat) : string :=
  nth (List.length l - k) l ""%string.

End JsArray.

(** [keys.sort()] on strings: code-unit order. *)
Definition sortStrings (l : list string) : list string :=
  JsArray.sort (fun y x => Str.ltb x y) l.

Definition smap_get {V} := @JsMap.get string V String.eqb.
Definition smap_set {V} := @JsMap.set string V String.eqb.

(* ================================================================== *)
(** * Aggregation *)

Module Agg.
Record t := { revenue : float; quantity : float }.
End Agg.

Module ProductAgg.
Record t := { product : string; revenue : float; quantity : float;
              category : string }.
End ProductAgg.

Module CategoryAgg.
Record t := { category : string; revenue : float; quantity : float }.
End CategoryAgg.

(** The month key ["YYYY-MM"] of a parsed date. *)
Definition monthKey (parsed : ParsedDate) : string :=
  (Str.of_Z (year parsed) ++ "-" ++ Str.padStart0 2 (Str.of_Z (month parsed)))%string.

Section Aggregation.
Context {host : Host}.

(** One turn of the loop of [aggregateByMonth] and [aggregateByWeek]. *)
Definition accumulate (key : string) (row : Row) (m : JsMap.t string Agg.t)
  : JsMap.t string Agg.t :=
  let rev := getRevenue row in
  let qty := getQuantity row in
  let cur := match smap_get key m with
             | Some c => c
             | None => {| Agg.revenue := 0; Agg.quantity := 0 |}
             end in
  smap_set key {| Agg.revenue := Agg.revenue cur + rev;
                  Agg.quantity := Agg.quantity cur + qty |} m.

Definition aggregateByMonth (rows : list Row) : JsMap.t string Agg.t :=
  fold_left (fun byMonth row =>
               match parseDate (date row) with
               | None => byMonth
               | Some parsed => accumulate (monthKey parsed) row byMonth
               end) rows [].

Definition aggregateByWeek (rows : list Row) : JsMap.t string Agg.t :=
  fold_left (fun byWeek row =>
               match parseDate (date row) with
               | None => byWeek
               | Some parsed => accumulate (weekKey parsed) row byWeek
               end) rows [].

Definition groupByProduct (rows : list Row) : list ProductAgg.t :=
  JsMap.values
    (fold_left (fun byProduct row =>
       let name := productName row in
       let rev := getRevenue row in
       let qty := getQuantity row in
       let cat := normCat (category row) in
       let cur := match smap_get name byProduct with
                  | Some c => c
                  | None => {| ProductAgg.product := name; ProductAgg.revenue := 0;
                               ProductAgg.quantity := 0; ProductAgg.category := cat |}
                  end in
       smap_set name
         {| ProductAgg.product := ProductAgg.product cur;
            ProductAgg.revenue := ProductAgg.revenue cur + rev;
            ProductAgg.quantity := ProductAgg.quantity cur + qty;
            ProductAgg.category := ProductAgg.category cur |} byProduct)
       rows []).

Definition groupByCategory (rows : list Row) : list CategoryAgg.t :=
  JsMap.values
    (fold_left (fun byCat row =>
       let cat := let c := normCat (category row) in
                  if String.eqb c "" then "Uncategorized"%string else c in
       let rev := getRevenue row in
       let qty := getQuantity row in
       let cur := match smap_get cat byCat with
                  | Some c => c
                  | None => {| CategoryAgg.category := cat; CategoryAgg.revenue := 0;
                               CategoryAgg.quantity := 0 |}
                  end in
       smap_set cat
         {| CategoryAgg.category := CategoryAgg.category cur;
            CategoryAgg.revenue := CategoryAgg.revenue cur + rev;
            CategoryAgg.quantity := CategoryAgg.quantity cur + qty |} byCat)
       rows []).

End Aggregation.

(* ================================================================== *)
(** * Growth and anomalies *)

Inductive Direction := Up | Down | Flat.

Record GrowthResult := { pct : float; direction : Direction; text : string }.

Module PeriodValue.
Record t := { period : string; value : float }.
End PeriodValue.

Inductive AnomalyType := Spike | Drop.

Module Anomaly.
Record t := { period : string; value : float; average : float;
              type : AnomalyType; message : string }.
End Anomaly.

Section Growth.
Context {host : Host}.

(** Compute growth between two values. *)
Definition computeGrowth (current previous : float) : GrowthResult :=
  if negb (Num.isFinite previous) || (previous =? 0)%float then
    if (0 <? current)%float
    then {| pct := 100; direction := Up; text := "up from no prior sales" |}
    else {| pct := 0; direction := Flat; text := "no change" |}
  else
    let pct := Num.round (((current - previous) / previous) * 100)%float in
    if (0 <? pct)%float then
      {| pct := pct; direction := Up;
         text := ("up " ++ Js.NumberToString pct ++ "%")%string |}
    else if (pct <? 0)%float then
      {| pct := pct; direction := Down;
         text := ("down " ++ Js.NumberToString (PrimFloat.abs pct) ++ "%")%string |}
    else {| pct := 0; direction := Flat; text := "flat" |}.

End Growth.

(** The statistics of [detectAnomalies]. *)
Definition validValues (periodValues : list PeriodValue.t) : list float :=
  filter (fun v => Num.isFinite v && (0 <=? v)%float)
         (map PeriodValue.value periodValues).

Definition count (values : list float) : float :=
  Num.of_Z (Z.of_nat (List.length values)).

Definition mean (values : list float) : float :=
  let sum := fold_left (fun a b => a + b)%float values 0%float in
  (sum / count values)%float.

Definition stdDev (values : list float) : float :=
  let avg := mean values in
  let variance :=
    (fold_left (fun acc v => acc + Num.square (v - avg))%float values 0%float
     / count values)%float in
  Num.orZero (Num.sqrt variance).

Definition pctChangeOf (avg value : float) : float :=
  if negb (avg =? 0)%float then PrimFloat.abs ((value - avg) / avg)%float
  else 0%float.

Definition zScoreOf (avg std value : float) : float :=
  if (0 <? std)%float then ((value - avg) / std)%float else 0%float.

Definition isSpike (avg std value : float) : bool :=
  (avg <? value)%float
  && ((ANOMALY_CHANGE_THRESHOLD <=? pctChangeOf avg value)%float
      || (ANOMALY_STD_THRESHOLD <=? zScoreOf avg std value)%float).

Definition isDrop (avg std value : float) : bool :=
  (value <? avg)%float
  && ((ANOMALY_CHANGE_THRESHOLD <=? pctChangeOf avg value)%float
      || (zScoreOf avg std value <=? - ANOMALY_STD_THRESHOLD)%float).

(** What one turn of the loop of [detectAnomalies] pushes. *)
Definition anomaliesOf (avg std : float) (pv : PeriodValue.t) : list Anomaly.t :=
  let period := PeriodValue.period pv in
  let value := PeriodValue.value pv in
  if negb (Num.isFinite value) then []
  else
    (if isSpike avg std value
     then [{| Anomaly.period := period; Anomaly.value := value;
              Anomaly.average := avg; Anomaly.type := Spike;
              Anomaly.message := ("Unusual spike in " ++ period)%string |}]
     else [])
    ++
    (if isDrop avg std value
     then [{| Anomaly.period := period; Anomaly.value := value;
              Anomaly.average := avg; Anomaly.type := Drop;
              Anomaly.message := ("Unusual drop in " ++ period)%string |}]
     else []).

(** Detect anomalies: periods with revenue > 50% change vs average or
    > 2 std dev. *)
Definition detectAnomalies (periodValues : list PeriodValue.t) : list Anomaly.t :=
  let values := validValues periodValues in
  if (List.length values <? 2)%nat then []
  else
    let avg := mean values in
    let std := stdDev values in
    flat_map (anomaliesOf avg std) periodValues.

(* ================================================================== *)
(** * Main insight generation *)

Record InsightResult := {
  findings : list string;
  actions : list string;
  warnings : list string
}.

(** The three arrays a step of [generateInsights] pushes to, and pushing
    the output of one step after another. *)
Definition noInsights : InsightResult :=
  {| findings := []; actions := []; warnings := [] |}.

Definition pushAll (a b : InsightResult) : InsightResult :=
  {| findings := findings a ++ findings b;
     actions := actions a ++ actions b;
     warnings := warnings a ++ warnings b |}.

(** The argument of [generateInsights]: an array of rows, or anything else. *)
Inductive Argument :=
| NotAnArray
| RowArray (rows : list Row).

(** [names[i]] in a template literal (a missing entry prints "undefined"). *)
Definition nameAt (names : list string) (i : Z) : string :=
  if i <? 0 then "undefined"%string
  else nth (Z.to_nat i) names "undefined"%string.

(** [MONTH_NAMES[parseInt(m, 10) - 1]] for [[y, m] = key.split("-")]. *)
Definition monthLabel (key : string) : string :=
  match Str.split_dash key with
  | _ :: m :: _ =>
      match Str.parseInt10 m with
      | Some n => nameAt MONTH_NAMES (n - 1)
      | None => "undefined"%string
      end
  | _ => "undefined"%string
  end.

Section Insights.
Context {host : Host}.

Local Open Scope string_scope.

Definition formatCurrency (n : float) : string := toLocaleString0 n.

Definition natToString (n : nat) : string := Str.of_Z (Z.of_nat n).

(** [m.get(key).revenue] for a key of [m]. *)
Definition revenueAt (key : string) (m : JsMap.t string Agg.t) : float :=
  match smap_get key m with
  | Some a => Agg.revenue a
  | None => Num.NaN
  end.

(** [m.get(key) || 0]. *)
Definition getOrZero {K} (eqb : K -> K -> bool) (key : K) (m : JsMap.t K float)
  : float :=
  match JsMap.get eqb key m with
  | Some v => Num.orZero v
  | None => 0%float
  end.

(** ** Data quality checks (warnings) *)

Record Quality := {
  missingDates : nat;
  invalidQty : nat;
  invalidPrice : nat;
  seenKeys : JsSet.t string;
  duplicateCount : nat
}.

Definition qualityScan (rows : list Row) : Quality :=
  fold_left
    (fun st r =>
       let q := getQuantity r in
       let p := Js.ToNumber (price r) in
       let key := Js.ToString (date r) ++ "-" ++ Js.ToString (product r) ++ "-"
                  ++ Js.ToString (category r) ++ "-" ++ Js.NumberToString q
                  ++ "-" ++ Js.NumberToString p in
       {| missingDates :=
            if negb (Js.truthy (date r))
               || match parseDate (date r) with None => true | Some _ => false end
            then S (missingDates st) else missingDates st;
          invalidQty :=
            if (q <=? 0)%float
               && (Js.is_defined (units r) || Js.is_defined (quantity r))
            then S (invalidQty st) else invalidQty st;
          invalidPrice :=
            if Num.isFinite p && (p <? 0)%float
            then S (invalidPrice st) else invalidPrice st;
          seenKeys := JsSet.add String.eqb key (seenKeys st);
          duplicateCount :=
            if JsSet.has String.eqb key (seenKeys st)
            then S (duplicateCount st) else duplicateCount st |})
    rows
    {| missingDates := 0; invalidQty := 0; invalidPrice := 0; seenKeys := [];
       duplicateCount := 0 |}.

Definition qualityWarnings (rows : list Row) : InsightResult :=
  let st := qualityScan rows in
  {| findings := [];
     actions := [];
     warnings :=
       (if (0 <? missingDates st)%nat
        then [natToString (missingDates st)
              ++ " row(s) have missing or invalid dates. Check your data."]
        else [])
       ++ (if (0 <? invalidQty st)%nat
           then [natToString (invalidQty st)
                 ++ " row(s) have zero or invalid quantity."]
           else [])
       ++ (if (0 <? invalidPrice st)%nat
           then [natToString (invalidPrice st) ++ " row(s) have negative price."]
           else [])
       ++ (if (0 <? duplicateCount st)%nat
           then [natToString (duplicateCount st)
                 ++ " possible duplicate row(s). Review for data entry errors."]
           else []) |}.

(** ** Trend: revenue last period vs previous period (monthly or weekly) *)

(** Which branch produced the trend sentence. *)
Inductive TrendKind := WeeklyTrend | MonthlyTrend.

Record Trend := {
  trendKind : TrendKind;
  trendFinding : string;
  trendAction : option string
}.

Definition weeklyTrendFinding (growth : GrowthResult) (lastRev prevRev : float)
  : string :=
  "Revenue is " ++ text growth ++ " this week vs last week ($"
  ++ formatCurrency lastRev ++ " vs $" ++ formatCurrency prevRev ++ ").".

Definition monthlyTrendFinding (growth : GrowthResult)
  (lastLabel prevLabel : string) (lastRev prevRev : float) : string :=
  "Revenue is " ++ text growth ++ " in " ++ lastLabel ++ " vs " ++ prevLabel
  ++ " ($" ++ formatCurrency lastRev ++ " vs $" ++ formatCurrency prevRev ++ ").".

Definition trend (rows : list Row) (byMonth : JsMap.t string Agg.t)
  (monthKeys : list string) : option Trend :=
  let useWeekly := (List.length monthKeys <? 2)%nat in
  if useWeekly && (List.length monthKeys =? 0)%nat then
    let byWeek := aggregateByWeek rows in
    let weekKeys := sortStrings (JsMap.keys byWeek) in
    if (2 <=? List.length weekKeys)%nat then
      let lastKey := JsArray.fromEnd weekKeys 1 in
      let prevKey := JsArray.fromEnd weekKeys 2 in
      let lastRev := revenueAt lastKey byWeek in
      let prevRev := revenueAt prevKey byWeek in
      let growth := computeGrowth lastRev prevRev in
      Some {| trendKind := WeeklyTrend;
              trendFinding := weeklyTrendFinding growth lastRev prevRev;
              trendAction :=
                match direction growth with
                | Up => Some "Keep up the momentum; consider restocking best sellers."
                | Down => Some "Check if stock ran out or demand dipped; promote top products."
                | Flat => None
                end |}
    else None
  else if (2 <=? List.length monthKeys)%nat then
    let lastKey := JsArray.fromEnd monthKeys 1 in
    let prevKey := JsArray.fromEnd monthKeys 2 in
    let lastRev := revenueAt lastKey byMonth in
    let prevRev := revenueAt prevKey byMonth in
    let growth := computeGrowth lastRev prevRev in
    let lastLabel := monthLabel lastKey in
    let prevLabel := monthLabel prevKey in
    Some {| trendKind := MonthlyTrend;
            trendFinding :=
              monthlyTrendFinding growth lastLabel prevLabel lastRev prevRev;
            trendAction :=
              match direction growth with
              | Up => Some "Keep stock levels healthy for your best sellers."
              | Down => Some "Focus on promoting your top 3 products or run a small promotion."
              | Flat => None
              end |}
  else None.

(** [if (trendFinding) findings.push(trendFinding);
     if (trendAction) actions.push(trendAction)]. *)
Definition trendInsights (t : option Trend) : InsightResult :=
  match t with
  | Some t =>
      {| findings := if String.eqb (trendFinding t) "" then [] else [trendFinding t];
         actions := match trendAction t with Some a => [a] | None => [] end;
         warnings := [] |}
  | None => noInsights
  end.

(** ** Top products by revenue and by quantity *)

Definition sortByRevenue (l : list ProductAgg.t) : list ProductAgg.t :=
  JsArray.sort
    (fun y x => (0 <? ProductAgg.revenue x - ProductAgg.revenue y)%float) l.

Definition sortByQuantity (l : list ProductAgg.t) : list ProductAgg.t :=
  JsArray.sort
    (fun y x => (0 <? ProductAgg.quantity x - ProductAgg.quantity y)%float) l.

Definition topProducts (totalRevenue : float)
  (top3Revenue top3Qty : list ProductAgg.t) : InsightResult :=
  pushAll
    (match top3Revenue with
     | [] => noInsights
     | first :: _ =>
         let names := Str.join ", " (map ProductAgg.product top3Revenue) in
         {| findings := ["Top 3 products by revenue: " ++ names ++ "."];
            actions := ["Restock and promote: " ++ ProductAgg.product first ++ "."];
            warnings := [] |}
     end)
    (if negb (List.length top3Qty =? 0)%nat && (0 <? totalRevenue)%float then
       let names := Str.join ", " (map ProductAgg.product top3Qty) in
       {| findings := ["Top 3 products by units sold: " ++ names ++ "."];
          actions := []; warnings := [] |}
     else noInsights).

(** ** High volume, low revenue *)

Definition revShareOf (totalRevenue : float) (p : ProductAgg.t) : float :=
  if (0 <? totalRevenue)%float
  then (ProductAgg.revenue p / totalRevenue * 100)%float else 0%float.

Definition qtyShareOf (totalQuantity : float) (p : ProductAgg.t) : float :=
  if (0 <? totalQuantity)%float
  then (ProductAgg.quantity p / totalQuantity * 100)%float else 0%float.

Definition volumeMismatch (totalRevenue totalQuantity : float)
  (byProduct : list ProductAgg.t) : InsightResult :=
  match find (fun p =>
                (15 <=? qtyShareOf totalQuantity p)%float
                && (revShareOf totalRevenue p <? 5)%float
                && (0 <? ProductAgg.revenue p)%float) byProduct with
  | Some p =>
      {| findings :=
           [ProductAgg.product p ++ " sells a lot ("
            ++ Js.NumberToString (Num.round (qtyShareOf totalQuantity p))
            ++ "% of units) but brings in only "
            ++ Js.NumberToString (Num.round (revShareOf totalRevenue p))
            ++ "% of revenue."];
         actions :=
           ["Review price or bundles for " ++ ProductAgg.product p
            ++ ", you might be able to earn more per unit."];
         warnings := [] |}
  | None => noInsights
  end.

(** ** Category performance: top, growing, declining *)

Definition categoryLeader (byCategory : list CategoryAgg.t) : InsightResult :=
  match JsArray.sort
          (fun y x => (0 <? CategoryAgg.revenue x - CategoryAgg.revenue y)%float)
          byCategory with
  | topCat :: _ =>
      {| findings :=
           [CategoryAgg.category topCat ++ " is your top category ($"
            ++ formatCurrency (CategoryAgg.revenue topCat) ++ " revenue)."];
         actions :=
           ["Focus on category " ++ Str.dquote ++ CategoryAgg.category topCat
            ++ Str.dquote ++ ", it drives the most revenue."];
         warnings := [] |}
  | [] => noInsights
  end.

(** Category growth (compare last month vs previous month per category). *)

Definition categoryMonthMap (rows : list Row) : JsMap.t string float :=
  fold_left
    (fun catMonthMap r =>
       match parseDate (date r) with
       | None => catMonthMap
       | Some parsed =>
           let key := normCat (category r) ++ "__" ++ monthKey parsed in
           let rev := getRevenue r in
           smap_set key (getOrZero String.eqb key catMonthMap + rev)%float
                    catMonthMap
       end) rows [].

Record CategoryScan := {
  fastestCat : option string;
  fastestGrowth : float;
  decliningCat : option string;
  decliningGrowth : float
}.

Definition categoryScan (catMonthMap : JsMap.t string float)
  (lastKey prevKey : string) (cats : list string) : CategoryScan :=
  fold_left
    (fun st cat =>
       let last := getOrZero String.eqb (cat ++ "__" ++ lastKey) catMonthMap in
       let prev := getOrZero String.eqb (cat ++ "__" ++ prevKey) catMonthMap in
       if (0 <? prev)%float then
         let g := ((last - prev) / prev * 100)%float in
         let st :=
           if (fastestGrowth st <? g)%float && (prev <? last)%float
           then {| fastestCat := Some cat; fastestGrowth := g;
                   decliningCat := decliningCat st;
                   decliningGrowth := decliningGrowth st |}
           else st in
         if (g <? decliningGrowth st)%float && (last <? prev)%float
         then {| fastestCat := fastestCat st; fastestGrowth := fastestGrowth st;
                 decliningCat := Some cat; decliningGrowth := g |}
         else st
       else st)
    cats
    {| fastestCat := None; fastestGrowth := PrimFloat.neg_infinity;
       decliningCat := None; decliningGrowth := PrimFloat.infinity |}.

(** ToBoolean of a variable that holds a string or [null]. *)
Definition nonEmpty (s : option string) : option string :=
  match s with
  | Some c => if String.eqb c "" then None else Some c
  | None => None
  end.

Definition categoryGrowth (rows : list Row) (monthKeys : list string)
  (byCategory : list CategoryAgg.t) : InsightResult :=
  let catMonthMap := categoryMonthMap rows in
  if (2 <=? List.length monthKeys)%nat then
    let lastKey := JsArray.fromEnd monthKeys 1 in
    let prevKey := JsArray.fromEnd monthKeys 2 in
    let cats := JsSet.of_list String.eqb (map CategoryAgg.category byCategory) in
    let st := categoryScan catMonthMap lastKey prevKey cats in
    pushAll
      (match nonEmpty (fastestCat st) with
       | Some fastestCat =>
           {| findings :=
                [fastestCat ++ " is your fastest-growing category (up "
                 ++ Js.NumberToString (Num.round (fastestGrowth st))
                 ++ "% vs last period)."];
              actions := ["Promote " ++ fastestCat ++ " " ++ Str.emdash ++ " it is growing."];
              warnings := [] |}
       | None => noInsights
       end)
      (match nonEmpty (decliningCat st) with
       | Some decliningCat =>
           if (decliningGrowth st <? -10)%float then
             {| findings :=
                  [decliningCat ++ " revenue is down "
                   ++ Js.NumberToString
                        (Num.round (PrimFloat.abs (decliningGrowth st)))
                   ++ "% vs last period."];
                actions :=
                  ["Check why " ++ decliningCat
                   ++ " is declining " ++ Str.emdash ++ " restock or run a promo."];
                warnings := [] |}
           else noInsights
       | None => noInsights
       end)
  else noInsights.

(** ** Concentration risk *)

Definition concentration (totalRevenue : float)
  (byRevenue top3Revenue : list ProductAgg.t) : InsightResult :=
  if (0 <? totalRevenue)%float && (0 <? List.length byRevenue)%nat then
    let top1Rev := match top3Revenue with
                   | p :: _ => ProductAgg.revenue p
                   | [] => 0%float
                   end in
    let top3Rev := fold_left (fun s p => s + ProductAgg.revenue p)%float
                             (firstn 3 top3Revenue) 0%float in
    let pct1 := Num.round (top1Rev / totalRevenue * 100)%float in
    let pct3 := Num.round (top3Rev / totalRevenue * 100)%float in
    {| findings :=
         [Js.NumberToString pct1 ++ "% of revenue comes from your top product; "
          ++ Js.NumberToString pct3 ++ "% from the top 3."];
       actions :=
         if (CONCENTRATION_WARN_PCT <=? pct3)%float
         then ["Try to grow sales of other products so one slow month does not hurt too much."]
         else [];
       warnings :=
         if (CONCENTRATION_WARN_PCT <=? pct3)%float
         then ["Over " ++ Js.NumberToString pct3
               ++ "% of revenue depends on 3 products. Consider diversifying to reduce risk."]
         else [] |}
  else noInsights.

(** ** Stock / reorder hints: consistent demand + recent spike *)

Definition periodKeyOf (useWeekly : bool) (parsed : ParsedDate) : string :=
  if useWeekly then weekKey parsed else monthKey parsed.

Definition productPeriodsOf (useWeekly : bool) (rows : list Row)
  : JsMap.t string (JsSet.t string) :=
  fold_left
    (fun productPeriods r =>
       match parseDate (date r) with
       | None => productPeriods
       | Some parsed =>
           let periodKey := periodKeyOf useWeekly parsed in
           let name := productName r in
           let set := match smap_get name productPeriods with
                      | Some s => s
                      | None => []
                      end in
           smap_set name (JsSet.add String.eqb periodKey set) productPeriods
       end) rows [].

(** [new Set(rows.map((r) => parseDate(r.date)?.weekKey).filter(Boolean)).size] *)
Definition distinctWeeks (rows : list Row) : nat :=
  JsSet.size
    (JsSet.of_list String.eqb
       (flat_map (fun r => match parseDate (date r) with
                           | Some parsed =>
                               if String.eqb (weekKey parsed) "" then []
                               else [weekKey parsed]
                           | None => []
                           end) rows)).

Definition steadyDemand (useWeekly : bool) (rows : list Row)
  (monthKeys : list string) (productPeriods : JsMap.t string (JsSet.t string))
  : InsightResult :=
  let periodCount := if useWeekly then distinctWeeks rows
                     else List.length monthKeys in
  if (2 <=? periodCount)%nat then
    let consistent :=
      map fst (filter (fun entry =>
                         (Nat.min 3 periodCount <=? JsSet.size (snd entry))%nat)
                      productPeriods) in
    match consistent with
    | name :: _ =>
        {| findings := [name ++ " sells in many periods " ++ Str.emdash
                        ++ " steady demand."];
           actions := ["Keep " ++ name ++ " in stock; reorder before you run out."];
           warnings := [] |}
    | [] => noInsights
    end
  else noInsights.

Definition productPeriodRevenue (useWeekly : bool) (rows : list Row)
  : JsMap.t string float :=
  fold_left
    (fun byProdPeriod r =>
       match parseDate (date r) with
       | None => byProdPeriod
       | Some parsed =>
           let periodKey := periodKeyOf useWeekly parsed in
           let name := productName r in
           let key := name ++ "__" ++ periodKey in
           smap_set key (getOrZero String.eqb key byProdPeriod + getRevenue r)%float
                    byProdPeriod
       end) rows [].

Definition recentSpike (useWeekly : bool) (rows : list Row)
  (monthKeys : list string) (byProduct : list ProductAgg.t)
  (productPeriods : JsMap.t string (JsSet.t string)) : InsightResult :=
  if (2 <=? List.length monthKeys)%nat
     || (useWeekly
         && (2 <=? List.length (JsMap.keys (aggregateByWeek rows)))%nat)
  then
    let byProdPeriod := productPeriodRevenue useWeekly rows in
    let weekKeys := sortStrings (JsMap.keys (aggregateByWeek rows)) in
    let lastPeriod :=
      if (2 <=? List.length monthKeys)%nat
      then Some (JsArray.fromEnd monthKeys 1)
      else if negb (List.length weekKeys =? 0)%nat
           then Some (JsArray.fromEnd weekKeys 1) else None in
    match nonEmpty lastPeriod with
    | Some lastPeriod =>
        match find
                (fun p =>
                   let lastRev :=
                     getOrZero String.eqb
                       (ProductAgg.product p ++ "__" ++ lastPeriod) byProdPeriod in
                   let periods :=
                     if useWeekly
                     then match smap_get (ProductAgg.product p) productPeriods with
                          | Some set => JsSet.size set
                          | None => O
                          end
                     else List.length monthKeys in
                   let avgRev :=
                     if (0 <? periods)%nat
                     then (ProductAgg.revenue p / Num.of_Z (Z.of_nat periods))%float
                     else 0%float in
                   (0 <? avgRev)%float && (avgRev * 1.5 <=? lastRev)%float)
                byProduct with
        | Some p =>
            {| findings := [ProductAgg.product p ++ " had a recent spike in sales "
                            ++ Str.emdash ++ " might need extra stock."];
               actions := ["Restock " ++ ProductAgg.product p
                           ++ " to avoid running out."];
               warnings := [] |}
        | None => noInsights
        end
    | None => noInsights
    end
  else noInsights.

(** ** Seasonality: best day of week or best month *)

Definition revenueBy (f : ParsedDate -> Z) (rows : list Row) : JsMap.t Z float :=
  fold_left
    (fun m r =>
       match parseDate (date r) with
       | None => m
       | Some parsed =>
           let rev := getRevenue r in
           JsMap.set Z.eqb (f parsed) (getOrZero Z.eqb (f parsed) m + rev)%float m
       end) rows [].

(** [[...m.entries()].sort((a, b) => b[1] - a[1])[0]]. *)
Definition bestEntry (m : JsMap.t Z float) : option (Z * float) :=
  match JsArray.sort (fun y x => (0 <? snd x - snd y)%float) m with
  | e :: _ => Some e
  | [] => None
  end.

Definition seasonality (rows : list Row) : InsightResult :=
  let byDay := revenueBy dayOfWeek rows in
  let byMonthOnly := revenueBy month rows in
  pushAll
    (if (3 <=? JsMap.size byDay)%nat then
       match bestEntry byDay with
       | Some bestDayEntry =>
           let dayName := nameAt DAY_NAMES (fst bestDayEntry) in
           {| findings := ["Your best day for sales is " ++ dayName ++ "."];
              actions := ["Schedule promotions or extra stock for " ++ dayName ++ "s."];
              warnings := [] |}
       | None => noInsights
       end
     else noInsights)
    (if (3 <=? JsMap.size byMonthOnly)%nat then
       match bestEntry byMonthOnly with
       | Some bestMonthEntry =>
           let monthName := nameAt MONTH_NAMES (fst bestMonthEntry - 1) in
           {| findings := ["Your best month for sales is " ++ monthName ++ "."];
              actions := []; warnings := [] |}
       | None => noInsights
       end
     else noInsights).

(** ** Anomalies *)

Definition periodValuesOf (rows : list Row) (byMonth : JsMap.t string Agg.t)
  (monthKeys : list string) : list PeriodValue.t :=
  if (2 <=? List.length monthKeys)%nat then
    map (fun k => {| PeriodValue.period := monthLabel k;
                     PeriodValue.value := revenueAt k byMonth |}) monthKeys
  else
    map (fun e => {| PeriodValue.period := "Week " ++ fst e;
                     PeriodValue.value := Agg.revenue (snd e) |})
        (JsArray.sort (fun y x => (0 <? localeCompare (fst y) (fst x))%Z)
                      (aggregateByWeek rows)).

Definition anomalyInsights (anomalies : list Anomaly.t) : InsightResult :=
  fold_left
    (fun out a =>
       pushAll out
         match Anomaly.type a with
         | Spike =>
             {| findings :=
                  ["Unusual revenue spike in " ++ Anomaly.period a ++ " ($"
                   ++ formatCurrency (Anomaly.value a) ++ " vs avg $"
                   ++ formatCurrency (Anomaly.average a)
                   ++ "). Check for bulk orders or data errors."];
                actions := []; warnings := [] |}
         | Drop =>
             {| findings := []; actions := [];
                warnings := ["Revenue dropped in " ++ Anomaly.period a
                             ++ ". Confirm if real or a data issue."] |}
         end)
    anomalies noInsights.

(** ** Dedupe and cap lengths *)

(** [[...new Set(arr)]]. *)
Definition uniq (arr : list string) : list string := JsSet.of_list String.eqb arr.

Definition finalize (out : InsightResult) : InsightResult :=
  {| findings := firstn 6 (uniq (findings out));
     actions := firstn 5 (uniq (actions out));
     warnings := uniq (warnings out) |}.

(** ** generateInsights *)

(** Everything the steps push, in order, before the final dedupe and cap. *)
Definition collectInsights (rows : list Row) : InsightResult :=
  let totalRevenue := fold_left (fun sum r => sum + getRevenue r)%float rows 0%float in
  let totalQuantity := fold_left (fun sum r => sum + getQuantity r)%float rows 0%float in
  let byMonth := aggregateByMonth rows in
  let monthKeys := sortStrings (JsMap.keys byMonth) in
  let useWeekly := (List.length monthKeys <? 2)%nat in
  let byProduct := groupByProduct rows in
  let byRevenue := sortByRevenue byProduct in
  let byQty := sortByQuantity byProduct in
  let top3Revenue := firstn 3 byRevenue in
  let top3Qty := firstn 3 byQty in
  let byCategory := groupByCategory rows in
  let productPeriods := productPeriodsOf useWeekly rows in
  fold_left pushAll
    [ qualityWarnings rows;
      trendInsights (trend rows byMonth monthKeys);
      topProducts totalRevenue top3Revenue top3Qty;
      volumeMismatch totalRevenue totalQuantity byProduct;
      categoryLeader byCategory;
      categoryGrowth rows monthKeys byCategory;
      concentration totalRevenue byRevenue top3Revenue;
      steadyDemand useWeekly rows monthKeys productPeriods;
      recentSpike useWeekly rows monthKeys byProduct productPeriods;
      seasonality rows;
      anomalyInsights (detectAnomalies (periodValuesOf rows byMonth monthKeys)) ]
    noInsights.

(** Generate insights from current filtered dataset. *)
Definition generateInsights (rows : Argument) : InsightResult :=
  match rows with
  | NotAnArray => noInsights
  | RowArray rows =>
      if (List.length rows <? MIN_ROWS_FOR_INSIGHTS)%nat then noInsights
      else finalize (collectInsights rows)
  end.

End Insights.

(* ================================================================== *)
(** * A host for running the model

    [exampleHost] behaves as an en-US engine does on integral numbers and
    ASCII text, which is all that the examples below feed it.  The general
    theorems hold for every host. *)

Module ExampleHost.

Local Open Scope string_scope.

Definition upperChar (c : ascii) : ascii :=
  let n := nat_of_ascii c in
  if ((97 <=? n) && (n <=? 122))%nat then ascii_of_nat (n - 32) else c.

Definition lowerChar (c : ascii) : ascii :=
  let n := nat_of_ascii c in
  if ((65 <=? n) && (n <=? 90))%nat then ascii_of_nat (n + 32) else c.

Fixpoint mapChars (f : ascii -> ascii) (s : string) : string :=
  match s with
  | String c s' => String (f c) (mapChars f s')
  | EmptyString => EmptyString
  end.

(** Decimal integers, the empty string being 0; [NaN] for other text. *)
Definition stringToNumber (s : string) : float :=
  let t := Str.trim s in
  if String.eqb t "" then 0%float
  else
    let '(neg, body) :=
      match t with
      | String c r =>
          if Ascii.eqb c "-" then (true, r)
          else if Ascii.eqb c "+" then (false, r) else (false, t)
      | EmptyString => (false, t)
      end in
    if negb (String.eqb body "") && String.eqb (Str.leading_digits body) body
    then Num.of_Z (if neg then (- Str.digits_value 0 body)%Z
                   else Str.digits_value 0 body)
    else Num.NaN.

(** Digits in groups of three. *)
Fixpoint groupDigits (fuel : nat) (n : Z) : string :=
  match fuel with
  | O => Str.of_Z n
  | S fuel' =>
      if (n <? 1000)%Z then Str.of_Z n
      else groupDigits fuel' (n / 1000)%Z ++ ","
           ++ Str.padStart0 3 (Str.of_Z (n mod 1000)%Z)
  end.

(** The nearest integer, ties away from zero, then grouped (the examples
    format finite numbers only). *)
Definition formatInteger (x : float) : string :=
  match Num.to_integer (Num.round (PrimFloat.abs x)) with
  | Some n =>
      if (x <? 0)%float && negb (n =? 0)%Z then "-" ++ groupDigits 8 n
      else groupDigits 8 n
  | None => "NaN"
  end.

Definition compareStrings (a b : string) : Z :=
  match String.compare a b with Lt => -1 | Eq => 0 | Gt => 1 end.

End ExampleHost.

Definition exampleHost : Host :=
  {| StringToNumber := ExampleHost.stringToNumber;
     NumberToStringHost := fun _ => "(a number)"%string;
     toLocaleString0 := ExampleHost.formatInteger;
     toUpperCase := ExampleHost.mapChars ExampleHost.upperChar;
     toLowerCase := ExampleHost.mapChars ExampleHost.lowerChar;
     localeCompare := ExampleHost.compareStrings |}.

(* ================================================================== *)
(** * The vocabulary of the properties

    Definitions the statements below are written with: calendar facts, the
    two date formats, the conditions as the claims word them, and the rows
    of the examples. *)

Local Open Scope string_scope.
Local Open Scope Z_scope.

(** A property is absent when it reads [undefined] or [null]. *)
Definition absent (v : value) : Prop := v = VUndefined \/ v = VNull.

(** A number, or 0 when it is not finite. *)
Definition finiteOrZero (n : float) : float :=
  if Num.isFinite n then n else 0%float.

(** The length of month [m] (1-12) in the Gregorian calendar, of a leap
    year or of a common year, and of year [y]. *)
Definition monthDays (leap : bool) (m : Z) : Z :=
  if m =? 2 then (if leap then 29 else 28)
  else if (m =? 4) || (m =? 6) || (m =? 9) || (m =? 11) then 30
  else 31.

Definition daysInMonth (y m : Z) : Z := monthDays (JsDate.isLeap y) m.

(** The year [new Date(y, ...)] builds its date in. *)
Definition constructorYear (y : Z) : Z :=
  if (0 <=? y) && (y <=? 99) then 1900 + y else y.

(** The two formats, written from the day, month and year: decimal digits,
    two for the day and the month, four for the year. *)
Definition digitChar (i : Z) : ascii := ascii_of_nat (48 + Z.to_nat i).

Definition twoDigits (n : Z) : string :=
  String (digitChar (n / 10)) (String (digitChar (n mod 10)) "").

Definition fourDigits (n : Z) : string :=
  String (digitChar (n / 1000)) (String (digitChar (n / 100 mod 10))
    (String (digitChar (n / 10 mod 10)) (String (digitChar (n mod 10)) ""))).

Definition formatDMY (d m y : Z) : string :=
  twoDigits d ++ "-" ++ twoDigits m ++ "-" ++ fourDigits y.

Definition formatYMD (y m d : Z) : string :=
  fourDigits y ++ "-" ++ twoDigits m ++ "-" ++ twoDigits d.

(** What [parseDate] returns for the integers (y, m, d) when it accepts them. *)
Definition parsed (y m d : Z) : ParsedDate :=
  let t := JsDate.make y (m - 1) d in
  {| year := y; month := m; day := d; dateObj := t;
     dayOfWeek := JsDate.getDay t; weekKey := getISOWeekKey t |}.

(** Month in 1-12, day in 1-31, and a day that exists in that month of the
    year the [Date] constructor takes [y] for. *)
Definition validDay (y m d : Z) : Prop :=
  1 <= m <= 12 /\ 1 <= d <= 31 /\ d <= daysInMonth (constructorYear y) m.

(** The text is one of the two formats, for three numbers of 2, 2 and 4
    digits. *)
Definition wellFormed (s : string) (y m d : Z) : Prop :=
  (0 <= y <= 9999 /\ 0 <= m <= 99 /\ 0 <= d <= 99)
  /\ (s = formatDMY d m y \/ s = formatYMD y m d).

(** The text [getISOWeekKey] writes for the day it has moved to. *)
Definition isoDate (t : JsDate.t) : string :=
  Str.of_Z (JsDate.getFullYear t) ++ "-"
  ++ Str.padStart0 2 (Str.of_Z (JsDate.getMonth t + 1)) ++ "-"
  ++ Str.padStart0 2 (Str.of_Z (JsDate.getDate t)).

(** The zero [Math.round] returns for an argument of sign [s]. *)
Definition signedZero (s : bool) : float := if s then (-0)%float else 0%float.

(** Rounding half away from zero, in the words of the specification. *)
Definition roundHalfAwayFromZero (x : float) : float :=
  if (x <? 0)%float then (- Num.round (PrimFloat.abs x))%float else Num.round x.

(** The anomaly records of an entry. *)
Definition spikeOf (avg : float) (pv : PeriodValue.t) : Anomaly.t :=
  {| Anomaly.period := PeriodValue.period pv;
     Anomaly.value := PeriodValue.value pv;
     Anomaly.average := avg; Anomaly.type := Spike;
     Anomaly.message := "Unusual spike in " ++ PeriodValue.period pv |}.

Definition dropOf (avg : float) (pv : PeriodValue.t) : Anomaly.t :=
  {| Anomaly.period := PeriodValue.period pv;
     Anomaly.value := PeriodValue.value pv;
     Anomaly.average := avg; Anomaly.type := Drop;
     Anomaly.message := "Unusual drop in " ++ PeriodValue.period pv |}.

(** The conditions for a spike and for a drop, with the change ratio taken
    as 0 when the average is 0 and z as 0 when the deviation is not
    positive. *)
Definition flaggedSpike (avg std v : float) : Prop :=
  (avg <? v)%float = true
  /\ ((0.5 <=? pctChangeOf avg v)%float = true
      \/ (2 <=? zScoreOf avg std v)%float = true).

Definition flaggedDrop (avg std v : float) : Prop :=
  (v <? avg)%float = true
  /\ ((0.5 <=? pctChangeOf avg v)%float = true
      \/ (zScoreOf avg std v <=? -2)%float = true).

(** The conditions as the claim writes them, divisions as they are. *)
Definition claimedSpike (avg std v : float) : bool :=
  (avg <? v)%float
  && ((0.5 <=? PrimFloat.abs (v - avg) / avg)%float
      || (2 <=? (v - avg) / std)%float).

Definition claimedDrop (avg std v : float) : bool :=
  (v <? avg)%float
  && ((0.5 <=? PrimFloat.abs (v - avg) / avg)%float
      || ((v - avg) / std <=? -2)%float).

(** An entry [{ period, value }]. *)
Definition entry (p : string) (v : float) : PeriodValue.t :=
  {| PeriodValue.period := p; PeriodValue.value := v |}.

(** Three sales in three weeks of one month. *)
Definition saleOn (d : string) : Row :=
  {| date := VString d; product := VString "A"; category := VString "X";
     units := VNumber 1; quantity := VUndefined; price := VNumber 10;
     revenue := VUndefined |}.

Definition threeWeeksOfJanuary : list Row :=
  [saleOn "01-01-2025"; saleOn "08-01-2025"; saleOn "15-01-2025"].


(** The rows of the repository's "trend down" test: two months, four sales. *)
Definition sale (d p c : string) (u pr : float) : Row :=
  {| date := VString d; product := VString p; category := VString c;
     units := VNumber u; quantity := VUndefined; price := VNumber pr;
     revenue := VNumber (u * pr) |}.

Definition twoMonths : list Row :=
  [sale "01-01-2025" "A" "X" 10 10; sale "15-01-2025" "B" "X" 10 10;
   sale "01-02-2025" "A" "X" 5 10; sale "15-02-2025" "B" "X" 5 10].

(** A row with [units] and [price] and no [revenue] property. *)
Definition unitsAt (d p c : string) (u pr : float) : Row :=
  {| date := VString d; product := VString p; category := VString c;
     units := VNumber u; quantity := VUndefined; price := VNumber pr;
     revenue := VUndefined |}.

(** The twenty rows of the seasonality test: 01-01-2025 to 20-01-2025. *)
Definition twentyDays : list Row :=
  map (fun d => {| date := VString (twoDigits (Z.of_nat d) ++ "-01-2025");
                   product := VString "P"; category := VString "X";
                   units := VNumber 5; quantity := VUndefined;
                   price := VNumber 10; revenue := VNumber 50 |})
      (seq 1 20).

Section Vocabulary.
Context {host : Host}.

(** The loop [aggregateByMonth] and [aggregateByWeek] share. *)
Definition aggregateBy (key : ParsedDate -> string) (rows : list Row)
  (init : JsMap.t string Agg.t) : JsMap.t string Agg.t :=
  fold_left (fun acc row =>
               match parseDate (date row) with
               | None => acc
               | Some parsed => accumulate (key parsed) row acc
               end) rows init.


End Vocabulary.


(* ================================================================== *)
(** * Dates in the time zone of the host

    [JsDate] reads a [Date] as a calendar day.  The [Date] of JavaScript is
    a time value, the milliseconds since 1970-01-01T00:00Z, and
    [new Date(year, monthIndex, day)], the getters, [setHours] and [setDate]
    read it in the local time of the host.  [LocalDate] has the time value
    and the zone, with LocalTZA, LocalTime, UTC, MakeDate and TimeClip of
    ECMAScript, and [getISOWeekKey] and [parseDate] of insights.js over
    them.  The day arithmetic is that of [JsDate]. *)
Module LocalDate.

Definition msPerHour : Z := 3600000.
Definition msPerDay : Z := 86400000.

(** The zone of the host: [LocalTZA tv isUTC] is the offset of local time
    from UTC in milliseconds, at the UTC time [tv] when [isUTC] is true, at
    the local time [tv] when it is false (a local time that a transition
    skipped or repeated is read with the offset before the transition). *)
Record Zone := { LocalTZA : Z -> bool -> Z }.

(** A time value; [None] is NaN, the value of an invalid [Date]. *)
Definition t := option Z.

Definition Day (tv : Z) : Z := tv / msPerDay.
Definition TimeWithinDay (tv : Z) : Z := tv mod msPerDay.
Definition MakeDate (day time : Z) : Z := day * msPerDay + time.

Definition TimeClip (tv : Z) : t :=
  if Z.abs tv <=? 8640000000000000 then Some tv else None.

(** The text of a number that is an integer or NaN. *)
Definition numberText (n : option Z) : string :=
  match n with
  | Some z => Str.of_Z z
  | None => "NaN"
  end.

(** The object [parseDate] returns ([dateObj] is its [date] property). *)
Record ParsedDate := {
  year : Z;
  month : Z;
  day : Z;
  dateObj : t;
  dayOfWeek : Z;
  weekKey : string
}.

Section InZone.
Variable zone : Zone.

Definition LocalTime (tv : Z) : Z := tv + LocalTZA zone tv true.
Definition UTC (tl : Z) : Z := tl - LocalTZA zone tl false.

(** [new Date(year, monthIndex, day)]: local midnight of the day, as a UTC
    time value; a year from 0 to 99 means 1900 + year. *)
Definition make (year monthIndex day : Z) : t :=
  let yr := if (0 <=? year) && (year <=? 99) then 1900 + year else year in
  TimeClip (UTC (MakeDate (JsDate.MakeDay yr monthIndex day) 0)).

(** [new Date(d)]. *)
Definition copy (d : t) : t :=
  match d with
  | Some tv => TimeClip tv
  | None => None
  end.

(** The local day the getters read. *)
Definition localDay (d : t) : option Z :=
  match d with
  | Some tv => Some (Day (LocalTime tv))
  | None => None
  end.

Definition getFullYear (d : t) : option Z :=
  option_map JsDate.getFullYear (localDay d).
Definition getMonth (d : t) : option Z :=
  option_map JsDate.getMonth (localDay d).
Definition getDate (d : t) : option Z :=
  option_map JsDate.getDate (localDay d).
Definition getDay (d : t) : option Z :=
  option_map JsDate.getDay (localDay d).

(** [d.setHours(0, 0, 0, 0)]. *)
Definition setHours0 (d : t) : t :=
  match d with
  | Some tv => TimeClip (UTC (MakeDate (Day (LocalTime tv)) 0))
  | None => None
  end.

(** [d.setDate(n)]: the day [JsDate.setDate] gives for the local day, at
    the local time of day of [d]; the argument [None] is NaN. *)
Definition setDate (d : t) (n : option Z) : t :=
  match d, n with
  | Some tv, Some n =>
      let tl := LocalTime tv in
      let newDate := MakeDate (JsDate.setDate (Day tl) n) (TimeWithinDay tl) in
      TimeClip (UTC newDate)
  | _, _ => None
  end.

Definition getISOWeekKey (d : t) : string :=
  let d2 := copy d in
  let d2 := setHours0 d2 in
  let monday :=
    match getDate d2, getDay d2 with
    | Some a, Some b => Some (a - b + 1)
    | _, _ => None
    end in
  let d2 := setDate d2 monday in
  let y := getFullYear d2 in
  let m := Str.padStart0 2 (numberText (option_map (fun m => m + 1) (getMonth d2))) in
  let day := Str.padStart0 2 (numberText (getDate d2)) in
  (numberText y ++ "-" ++ m ++ "-" ++ day)%string.

(** The part the two branches of [parseDate] share.  A getter of an invalid
    [Date] returns NaN, which is different from every [day] and month. *)
Definition parseDate_ymd (year month day : Z) : option ParsedDate :=
  if (month <? 1) || (month >? 12) || (day <? 1) || (day >? 31) then None
  else
    let d := make year (month - 1) day in
    match getDate d, getMonth d, getDay d with
    | Some dd, Some mm, Some wd =>
        if negb (dd =? day) || negb (mm =? month - 1) then None
        else Some {| year := year; month := month; day := day; dateObj := d;
                     dayOfWeek := wd; weekKey := getISOWeekKey d |}
    | _, _, _ => None
    end.

Definition parseDate (dateStr : value) : option ParsedDate :=
  match dateStr with
  | VString str =>
      if String.eqb str "" then None
      else
        let s := Str.trim str in
        match match_2_2_4 s with
        | Some (g1, g2, g3) =>
            match Str.parseInt10 g1, Str.parseInt10 g2, Str.parseInt10 g3 with
            | Some day, Some month, Some year => parseDate_ymd year month day
            | _, _, _ => None
            end
        | None =>
            match match_4_2_2 s with
            | Some (g1, g2, g3) =>
                match Str.parseInt10 g1, Str.parseInt10 g2, Str.parseInt10 g3 with
                | Some year, Some month, Some day => parseDate_ymd year month day
                | _, _, _ => None
                end
            | None => None
            end
        end
  | _ => None
  end.

(** ** Vocabulary *)

(** Taken to UTC and back, the local time [tl] is still on its day. *)
Definition keepsDay (tl : Z) : Prop := Day (LocalTime (UTC tl)) = Day tl.

End InZone.

(** Every offset of the zone is less than a day. *)
Definition bounded (zone : Zone) : Prop :=
  forall tv isUTC, Z.abs (LocalTZA zone tv isUTC) < msPerDay.

(** Local midnight of day [d] of month [m] (1-12) of the year the [Date]
    constructor takes [y] for: the local time [new Date(y, m - 1, d)] asks
    for. *)
Definition localMidnight (y m d : Z) : Z :=
  MakeDate (JsDate.MakeDay (constructorYear y) (m - 1) d) 0.

(** Local time is UTC. *)
Definition utc : Zone := {| LocalTZA := fun _ _ => 0 |}.

(** The offsets of Pacific/Apia around the end of 2011: ten hours behind
    UTC until 2011-12-30T10:00Z, fourteen hours ahead from then on.  The
    local clock went from the end of Thursday 29 December to the start of
    Saturday 31 December: Friday 30 December 2011 has no local time. *)
Definition apia : Zone :=
  {| LocalTZA := fun tv isUTC =>
       if isUTC
       then (if tv <? MakeDate (JsDate.MakeDay 2011 11 30) (10 * msPerHour)
             then -10 * msPerHour else 14 * msPerHour)
       else (if tv <? MakeDate (JsDate.MakeDay 2011 11 31) 0
             then -10 * msPerHour else 14 * msPerHour) |}.

End LocalDate.

(** The result of [parseDate] in a zone and its result over calendar days
    are the same: both [null], or the same year, month, day, day of week and
    week key, for the same local day. *)
Definition sameParsedDate (zone : LocalDate.Zone)
    (a : option LocalDate.ParsedDate) (b : option ParsedDate) : Prop :=
  match a, b with
  | Some p, Some q =>
      LocalDate.year p = year q /\ LocalDate.month p = month q
      /\ LocalDate.day p = day q
      /\ LocalDate.localDay zone (LocalDate.dateObj p) = Some (dateObj q)
      /\ LocalDate.dayOfWeek p = dayOfWeek q
      /\ LocalDate.weekKey p = weekKey q
  | None, None => True
  | _, _ => False
  end.

(** The decimal numeral with the digit [i] (0 to 9) in front of [u]. *)
Definition digitD (i : Z) (u : Decimal.uint) : Decimal.uint :=
  match i with
  | 0 => Decimal.D0 u
  | 1 => Decimal.D1 u
  | 2 => Decimal.D2 u
  | 3 => Decimal.D3 u
  | 4 => Decimal.D4 u
  | 5 => Decimal.D5 u
  | 6 => Decimal.D6 u
  | 7 => Decimal.D7 u
  | 8 => Decimal.D8 u
  | _ => Decimal.D9 u
  end.
(** ** Grouping

    [aggregateByMonth], [aggregateByWeek], [groupByProduct] and
    [groupByCategory] are the same loop: a row with a key updates the entry
    of its key, which starts from a value made for the key and the row. *)
Section GroupFold.
Variable V : Type.
Variable keyOf : Row -> option string.
Variable start : string -> Row -> V.
Variable step : V -> Row -> V.

Definition groupFold (rows : list Row) (init : JsMap.t string V)
  : JsMap.t string V :=
  fold_left (fun m row =>
               match keyOf row with
               | None => m
               | Some k =>
                   let cur := match smap_get k m with
                              | Some c => c
                              | None => start k row
                              end in
                   smap_set k (step cur row) m
               end) rows init.

(** The keys of the rows that have one, and the rows of key [k]. *)
Definition keysOf (rows : list Row) : list string :=
  flat_map (fun row => match keyOf row with Some k => [k] | None => [] end) rows.

Definition rowsOf (k : string) (rows : list Row) : list Row :=
  filter (fun row => match keyOf row with
                     | Some k' => String.eqb k k'
                     | None => false
                     end) rows.

End GroupFold.

(** The key of a row by a function of its parsed date. *)
Definition dateKey (key : ParsedDate -> string) (row : Row) : option string :=
  option_map key (parseDate (date row)).

(** The sum [rows.reduce((s, r) => s + f(r), 0)]. *)
Definition sumOf (f : Row -> float) (rows : list Row) : float :=
  fold_left (fun s r => (s + f r)%float) rows 0%float.

Section GroupingVocabulary.
Context {host : Host}.

(** The totals of one turn of [aggregateByMonth] and [aggregateByWeek]. *)
Definition aggStart (k : string) (row : Row) : Agg.t :=
  {| Agg.revenue := 0; Agg.quantity := 0 |}.

Definition aggStep (cur : Agg.t) (row : Row) : Agg.t :=
  {| Agg.revenue := Agg.revenue cur + getRevenue row;
     Agg.quantity := Agg.quantity cur + getQuantity row |}.

(** The same for [groupByProduct] and [groupByCategory]. *)
Definition productStart (name : string) (row : Row) : ProductAgg.t :=
  {| ProductAgg.product := name; ProductAgg.revenue := 0;
     ProductAgg.quantity := 0; ProductAgg.category := normCat (category row) |}.

Definition productStep (cur : ProductAgg.t) (row : Row) : ProductAgg.t :=
  {| ProductAgg.product := ProductAgg.product cur;
     ProductAgg.revenue := ProductAgg.revenue cur + getRevenue row;
     ProductAgg.quantity := ProductAgg.quantity cur + getQuantity row;
     ProductAgg.category := ProductAgg.category cur |}.

(** [normCat(row.category) || "Uncategorized"]. *)
Definition categoryName (row : Row) : string :=
  let c := normCat (category row) in
  if String.eqb c "" then "Uncategorized"%string else c.

Definition categoryStart (cat : string) (row : Row) : CategoryAgg.t :=
  {| CategoryAgg.category := cat; CategoryAgg.revenue := 0;
     CategoryAgg.quantity := 0 |}.

Definition categoryStep (cur : CategoryAgg.t) (row : Row) : CategoryAgg.t :=
  {| CategoryAgg.category := CategoryAgg.category cur;
     CategoryAgg.revenue := CategoryAgg.revenue cur + getRevenue row;
     CategoryAgg.quantity := CategoryAgg.quantity cur + getQuantity row |}.

(** The rows of a product and of a category, in the order of the input. *)
Definition rowsOfProduct (name : string) (rows : list Row) : list Row :=
  rowsOf (fun row => Some (productName row)) name rows.

Definition rowsOfCategory (cat : string) (rows : list Row) : list Row :=
  rowsOf (fun row => Some (categoryName row)) cat rows.

End GroupingVocabulary.

Section LeaderVocabulary.
Context {host : Host}.

(** [byRevenue[0]], the product the restock action names. *)
Definition topProduct (rows : list Row) : option ProductAgg.t :=
  hd_error (sortByRevenue (groupByProduct rows)).

(** [topCat], the first category once sorted by revenue. *)
Definition topCategory (rows : list Row) : option CategoryAgg.t :=
  hd_error (JsArray.sort
              (fun y x => (0 <? CategoryAgg.revenue x - CategoryAgg.revenue y)%float)
              (groupByCategory rows)).

End LeaderVocabulary.

Section QualityVocabulary.
Context {host : Host}.

(** The key the duplicate check builds for a row. *)
Definition rowKey (r : Row) : string :=
  (Js.ToString (date r) ++ "-" ++ Js.ToString (product r) ++ "-"
   ++ Js.ToString (category r) ++ "-" ++ Js.NumberToString (getQuantity r)
   ++ "-" ++ Js.NumberToString (Js.ToNumber (price r)))%string.

(** The three row checks of the data-quality step. *)
Definition hasNoDate (r : Row) : bool :=
  match parseDate (date r) with None => true | Some _ => false end.

Definition hasInvalidQuantity (r : Row) : bool :=
  (getQuantity r <=? 0)%float
  && (Js.is_defined (units r) || Js.is_defined (quantity r)).

Definition hasNegativePrice (r : Row) : bool :=
  Num.isFinite (Js.ToNumber (price r)) && (Js.ToNumber (price r) <? 0)%float.

Definition countRows (f : Row -> bool) (rows : list Row) : nat :=
  List.length (filter f rows).

(** The state of the scan after the rows [done], as counts over [done]. *)
Definition scanned (done : list Row) : Quality :=
  {| missingDates := countRows hasNoDate done;
     invalidQty := countRows hasInvalidQuantity done;
     invalidPrice := countRows hasNegativePrice done;
     seenKeys := uniq (map rowKey done);
     duplicateCount := List.length done - List.length (uniq (map rowKey done)) |}.

End QualityVocabulary.

Section StockVocabulary.
Context {host : Host}.

(** The product of a row whose date parses: the rows the stock hints
    count. *)
Definition datedProduct (row : Row) : option string :=
  match parseDate (date row) with
  | Some _ => Some (productName row)
  | None => None
  end.

(** One turn of the loop that collects the periods of a product. *)
Definition periodStep (useWeekly : bool) (cur : JsSet.t string) (row : Row)
  : JsSet.t string :=
  match parseDate (date row) with
  | Some parsed => JsSet.add String.eqb (periodKeyOf useWeekly parsed) cur
  | None => cur
  end.

(** The period keys of the dated rows of a product, each once. *)
Definition periodsOfProduct (useWeekly : bool) (name : string)
  (rows : list Row) : list string :=
  uniq (keysOf (dateKey (periodKeyOf useWeekly))
               (rowsOf datedProduct name rows)).

End StockVocabulary.

(* ================================================================== *)
(** * The date field of the entry form (components/FormCard.jsx)

    The rows that the form adds reach [generateInsights] with the date text
    that [formatDate] shaped and [isValidDate] let through; the [id] of a
    row ([Date.now()]) is left out, no function of the engine reads it. *)

Module FormCard.

(** [value.replace(/\D/g, "")]: the decimal digits of the text, in order. *)
Fixpoint digitsOnly (s : string) : string :=
  match s with
  | EmptyString => EmptyString
  | String c s' =>
      if Str.is_digit c then String c (digitsOnly s') else digitsOnly s'
  end.

(** [s.slice(0, n)] and [s.slice(n)]. *)
Fixpoint take (n : nat) (s : string) : string :=
  match n, s with
  | S n', String c s' => String c (take n' s')
  | _, _ => EmptyString
  end.

Fixpoint drop (n : nat) (s : string) : string :=
  match n, s with
  | S n', String _ s' => drop n' s'
  | _, _ => s
  end.

(** [s.slice(from, to)] for [from <= to]. *)
Definition slice (from to : nat) (s : string) : string :=
  take (to - from) (drop from s).

(** Keep digits only, at most 8, and add a dash after 2 and after 4. *)
Definition formatDate (value : string) : string :=
  let digits := take 8 (digitsOnly value) in
  if (String.length digits <=? 2)%nat then digits
  else if (String.length digits <=? 4)%nat
       then (slice 0 2 digits ++ "-" ++ drop 2 digits)%string
       else (slice 0 2 digits ++ "-" ++ slice 2 4 digits ++ "-"
             ++ drop 4 digits)%string.

(** [Number(s)] for a text of decimal digits, which is all that the
    pattern of [isValidDate] lets through: the integer the digits write,
    below 10^4 here and so exact as a number. *)
Definition numberOfDigits (s : string) : Z := Str.digits_value 0 s.

(** The pattern, then the ranges of month, day and year; no calendar check.
    ([match_2_2_4] is the same pattern as in [parseDate]; with fewer than
    three parts the comparisons with [undefined] are all false.) *)
Definition isValidDate (value : string) : bool :=
  match match_2_2_4 value with
  | None => false
  | Some _ =>
      match map numberOfDigits (Str.split_dash value) with
      | day :: month :: year :: _ =>
          if (month <? 1) || (month >? 12) then false
          else if (day <? 1) || (day >? 31) then false
          else if (year <? 2000) || (year >? 2100) then false
          else true
      | _ => true
      end
  end.

(** The state of the form: the texts of the product, category, price and
    date fields, and [units], the number 1 or the text of its field. *)
Record State := {
  productText : string;
  categoryText : string;
  unitsValue : value;
  priceText : string;
  saleDate : string
}.

(** What [handleSubmit] does: it returns without a row, with or without an
    alert, or it passes a new row to [onSubmit]. *)
Inductive outcome :=
| Nothing
| Alert (message : string)
| Submit (row : Row).

(** [s.replace(",", ".")]: the first comma becomes a dot. *)
Fixpoint replaceComma (s : string) : string :=
  match s with
  | EmptyString => EmptyString
  | String c s' =>
      if Ascii.eqb c "," then String "." s' else String c (replaceComma s')
  end.

Section WithHost.
Context {host : Host}.

Definition handleSubmit (st : State) : outcome :=
  let cleanProduct := Str.trim (productText st) in
  if String.eqb cleanProduct "" then Nothing
  else if negb (isValidDate (saleDate st))
  then Alert "Please enter a valid date (DD-MM-YYYY)"
  else
    let cleanCategory := Str.trim (categoryText st) in
    if String.eqb cleanCategory "" then Nothing
    else
      let priceNum := StringToNumber (replaceComma (priceText st)) in
      if negb (Num.isFinite priceNum) || (priceNum <? 0)%float then Nothing
      else
        Submit {| date := VString (saleDate st);
                  product := VString cleanProduct;
                  category := VString cleanCategory;
                  units := VNumber (Js.ToNumber (unitsValue st));
                  quantity := VUndefined;
                  price := VNumber priceNum;
                  revenue := VUndefined |}.

End WithHost.

End FormCard.

(** A text of decimal digits only. *)
Definition allDigits (s : string) : bool :=
  forallb Str.is_digit (list_ascii_of_string s).

(* ================================================================== *)
(** * The CSV import (components/ImportCard.jsx)

    [parseCSV] makes the rows that replace the data of the dashboard.  It
    returns the rows or throws an [Error] with a message; the [id] it gives
    a row ([Date.now() + i]) is left out, no function of the engine reads
    it. *)

Module ImportCard.

Local Open Scope string_scope.

Inductive result :=
| Rows (rows : list Row)
| Error (message : string).

(** [s.split(sep)] for a separator of one character. *)
Fixpoint split_aux (sep : ascii) (cur s : string) : list string :=
  match s with
  | EmptyString => [cur]
  | String c s' =>
      if Ascii.eqb c sep then cur :: split_aux sep "" s'
      else split_aux sep (cur ++ String c "") s'
  end.

Definition split (sep : ascii) (s : string) : list string := split_aux sep "" s.

Definition LF : ascii := ascii_of_nat 10.
Definition quote : ascii := ascii_of_nat 34.

(** [s.replace(/^"|"$/g, "")]: without a double quote at its start, and
    then without one at its end. *)
Definition dropLeadingQuote (s : string) : string :=
  match s with
  | String c r => if Ascii.eqb c quote then r else s
  | EmptyString => s
  end.

Fixpoint dropTrailingQuote (s : string) : string :=
  match s with
  | EmptyString => EmptyString
  | String c EmptyString => if Ascii.eqb c quote then EmptyString else s
  | String c r => String c (dropTrailingQuote r)
  end.

Definition stripQuotes (s : string) : string :=
  dropTrailingQuote (dropLeadingQuote s).

(** The loop over the characters of a line: a double quote toggles
    [inQuotes] and is dropped, a comma outside quotes ends a value, and
    each value is trimmed. *)
Fixpoint fields_aux (inQuotes : bool) (current line : string) : list string :=
  match line with
  | EmptyString => [Str.trim current]
  | String c rest =>
      if Ascii.eqb c quote then fields_aux (negb inQuotes) current rest
      else if Ascii.eqb c "," && negb inQuotes
           then Str.trim current :: fields_aux inQuotes "" rest
           else fields_aux inQuotes (current ++ String c "") rest
  end.

Definition fields (line : string) : list string := fields_aux false "" line.

(** [headers.indexOf(col)], [None] for -1. *)
Fixpoint indexOf (col : string) (headers : list string) : option nat :=
  match headers with
  | [] => None
  | h :: rest =>
      if String.eqb h col then Some O else option_map S (indexOf col rest)
  end.

(** [values[idx]?.replace(/^"|"$/g, "") || ""]. *)
Definition fieldAt (values : list string) (idx : option nat) : string :=
  match idx with
  | Some i => match nth_error values i with
              | Some v => stripQuotes v
              | None => ""
              end
  | None => ""
  end.

Definition requiredColumns : list string :=
  ["date"; "product"; "category"; "units"; "price"].

Record Columns := {
  dateIdx : option nat;
  productIdx : option nat;
  categoryIdx : option nat;
  unitsIdx : option nat;
  priceIdx : option nat
}.

Section WithHost.
Context {host : Host}.

(** [line.trim()] is the empty string. *)
Definition blank (line : string) : bool := String.eqb (Str.trim line) "".

(** The row number of the messages: [i + 1]. *)
Definition rowNumber (i : nat) : string := Str.of_Z (Z.of_nat (i + 1)).

(** The loop over the data lines, from [lines[i]] on. *)
Fixpoint parseRows (cols : Columns) (i : nat) (lines : list string) : result :=
  match lines with
  | [] => Rows []
  | line :: rest =>
      if blank line then parseRows cols (S i) rest
      else
        let values := fields line in
        let date := fieldAt values (dateIdx cols) in
        let product := fieldAt values (productIdx cols) in
        let category := fieldAt values (categoryIdx cols) in
        let units := fieldAt values (unitsIdx cols) in
        let price := fieldAt values (priceIdx cols) in
        if String.eqb date "" || String.eqb product "" || String.eqb category ""
           || String.eqb units "" || String.eqb price ""
        then parseRows cols (S i) rest
        else
          match match_2_2_4 date with
          | None =>
              Error ("Invalid date format in row " ++ rowNumber i
                     ++ ". Expected DD-MM-YYYY, got: " ++ date)
          | Some _ =>
              let unitsNum := StringToNumber units in
              let priceNum := StringToNumber price in
              if PrimFloat.is_nan unitsNum || (unitsNum <=? 0)%float then
                Error ("Invalid units value in row " ++ rowNumber i ++ ": "
                       ++ units)
              else if PrimFloat.is_nan priceNum || (priceNum <? 0)%float then
                Error ("Invalid price value in row " ++ rowNumber i ++ ": "
                       ++ price)
              else
                match parseRows cols (S i) rest with
                | Rows rows =>
                    Rows ({| date := VString (Str.trim date);
                             product := VString (Str.trim product);
                             category := VString (Str.trim category);
                             units := VNumber unitsNum;
                             quantity := VUndefined;
                             price := VNumber priceNum;
                             revenue := VUndefined |} :: rows)
                | Error message => Error message
                end
          end
  end.

Definition parseCSV (text : string) : result :=
  let lines := filter (fun line => negb (blank line)) (split LF text) in
  match lines with
  | [] => Error "CSV file is empty"
  | header :: data =>
      let headers :=
        map stripQuotes
            (map (fun h => toLowerCase (Str.trim h)) (split "," header)) in
      let missingColumns :=
        filter (fun col => negb (existsb (String.eqb col) headers))
               requiredColumns in
      if negb (List.length missingColumns =? 0)%nat then
        Error ("Missing required columns: " ++ Str.join ", " missingColumns)
      else
        let cols := {| dateIdx := indexOf "date" headers;
                       productIdx := indexOf "product" headers;
                       categoryIdx := indexOf "category" headers;
                       unitsIdx := indexOf "units" headers;
                       priceIdx := indexOf "price" headers |} in
        match parseRows cols 1 data with
        | Rows [] => Error "No valid data rows found in CSV"
        | r => r
        end
  end.

End WithHost.

End ImportCard.

(** A row as [parseCSV] and the entry form build it. *)
Definition enteredRow (d p c : string) (u pr : float) : Row :=
  {| date := VString d; product := VString p; category := VString c;
     units := VNumber u; quantity := VUndefined; price := VNumber pr;
     revenue := VUndefined |}.

(** What [parseCSV] has checked of a row it returns: a date text of the
    pattern DD-MM-YYYY, a product and a category that are not empty and have
    no white space around them, units above 0 and a price that is not
    negative. *)
Definition checkedRow (r : Row) : Prop :=
  exists d m y p c u pr,
    r = enteredRow (formatDMY d m y) p c u pr
    /\ (0 <= d <= 99 /\ 0 <= m <= 99 /\ 0 <= y <= 9999)
    /\ (p <> ""%string /\ Str.trim p = p)
    /\ (c <> ""%string /\ Str.trim c = c)
    /\ (0 <? u)%float = true
    /\ (0 <=? pr)%float = true.

(** Code-unit order on strings. *)
Definition strLe (a b : string) : Prop := String.compare a b <> Gt.

(* ================================================================== *)
(** * Properties: the field accessors *)

Section AccessorProperties.
Context {host : Host}.

Lemma nullish_absent (a b : value) : absent a -> Js.nullish a b = b.
Proof. intros [-> | ->]; reflexivity. Qed.

Lemma nullish_present (a b : value) : ~ absent a -> Js.nullish a b = a.
Proof.
  unfold absent. intros Hn.
  destruct a; try reflexivity; exfalso; apply Hn; auto.
Qed.

Lemma getQuantity_finite (row : Row) : Num.isFinite (getQuantity row) = true.
Proof.
  unfold getQuantity.
  destruct (Num.isFinite (Js.ToNumber (Js.nullish (units row) (quantity row))))
    eqn:E.
  - exact E.
  - reflexivity.
Qed.

Lemma asFiniteNumber_Some (v : value) (r : float) :
  Js.asFiniteNumber v = Some r <-> v = VNumber r /\ Num.isFinite r = true.
Proof.
  unfold Js.asFiniteNumber. split.
  - destruct v; try discriminate.
    destruct (Num.isFinite n) eqn:E; [|discriminate].
    intros [= <-]. split; [reflexivity | exact E].
  - intros [-> ->]. reflexivity.
Qed.

(** C8. [getQuantity] reads [units], falls back to [quantity] when [units]
    is absent, coerces the value to a number and returns 0 when that number
    is not finite (so its result is always finite).  [getRevenue] returns
    [row.revenue] unchanged whenever it is a finite number; otherwise it
    returns [getQuantity(row) * Number(row.price)], and 0 when
    [Number(row.price)] is not finite. *)
Theorem accessors_spec (row : Row) :
  (absent (units row) ->
     getQuantity row = finiteOrZero (Js.ToNumber (quantity row)))
  /\ (~ absent (units row) ->
        getQuantity row = finiteOrZero (Js.ToNumber (units row)))
  /\ Num.isFinite (getQuantity row) = true
  /\ (forall r, revenue row = VNumber r -> Num.isFinite r = true ->
        getRevenue row = r)
  /\ (~ (exists r, revenue row = VNumber r /\ Num.isFinite r = true) ->
      (Num.isFinite (Js.ToNumber (price row)) = true ->
         getRevenue row = (getQuantity row * Js.ToNumber (price row))%float)
      /\ (Num.isFinite (Js.ToNumber (price row)) = false ->
            getRevenue row = 0%float)).
Proof.
  split; [|split; [|split; [|split]]].
  - intros Ha. unfold getQuantity. rewrite (nullish_absent _ Ha). reflexivity.
  - intros Hp. unfold getQuantity. rewrite (nullish_present _ Hp). reflexivity.
  - apply getQuantity_finite.
  - intros r Hr Hf. unfold getRevenue.
    rewrite (proj2 (asFiniteNumber_Some (revenue row) r) (conj Hr Hf)).
    reflexivity.
  - intros Hno.
    assert (E : Js.asFiniteNumber (revenue row) = None).
    { destruct (Js.asFiniteNumber (revenue row)) as [r|] eqn:E; [|reflexivity].
      exfalso. apply Hno. exists r. apply asFiniteNumber_Some. exact E. }
    unfold getRevenue. rewrite E.
    split; intros Hfin; rewrite Hfin; reflexivity.
Qed.

(** C10. The fallback from [units] to [quantity] happens only when [units]
    is [null] or [undefined]: any other value of [units], falsy or zero
    included, is the one coerced.  With [units: 0] and [quantity: 5] the
    quantity is 0; with [units: null] and [quantity: 5] it is 5. *)
Theorem getQuantity_falls_back_only_on_nullish :
  (forall row, ~ absent (units row) ->
     getQuantity row = finiteOrZero (Js.ToNumber (units row)))
  /\ (forall d p c pr rv,
        getQuantity {| date := d; product := p; category := c;
                       units := VNumber 0; quantity := VNumber 5;
                       price := pr; revenue := rv |} = 0%float)
  /\ (forall d p c pr rv,
        getQuantity {| date := d; product := p; category := c;
                       units := VNull; quantity := VNumber 5;
                       price := pr; revenue := rv |} = 5%float)
  /\ (forall d p c pr rv,
        getQuantity {| date := d; product := p; category := c;
                       units := VUndefined; quantity := VNumber 5;
                       price := pr; revenue := rv |} = 5%float).
Proof.
  repeat split.
  intros row Hp. unfold getQuantity. rewrite (nullish_present _ Hp). reflexivity.
Qed.

End AccessorProperties.

(* ================================================================== *)
(** * Properties: dates *)

Lemma DayFromYear_succ y :
  JsDate.DayFromYear (y + 1) = JsDate.DayFromYear y + JsDate.DaysInYear y.
Proof.
  unfold JsDate.DayFromYear, JsDate.DaysInYear, JsDate.isLeap.
  destruct (y mod 4 =? 0) eqn:E4; destruct (y mod 100 =? 0) eqn:E100;
    destruct (y mod 400 =? 0) eqn:E400; cbn [andb orb negb];
    rewrite ?Z.eqb_eq, ?Z.eqb_neq in *; Z.div_mod_to_equations; lia.
Qed.

Lemma DayFromYear_mono y1 y2 :
  y1 <= y2 -> JsDate.DayFromYear y1 <= JsDate.DayFromYear y2.
Proof. unfold JsDate.DayFromYear. intros. Z.div_mod_to_equations. lia. Qed.

Lemma YearFromDay_spec d :
  JsDate.DayFromYear (JsDate.YearFromDay d) <= d
  < JsDate.DayFromYear (JsDate.YearFromDay d + 1).
Proof.
  unfold JsDate.YearFromDay.
  set (y := 1970 + 400 * d / 146097).
  assert (H : JsDate.DayFromYear (y - 1) <= d < JsDate.DayFromYear (y + 2)).
  { unfold JsDate.DayFromYear, y. Z.div_mod_to_equations. lia. }
  destruct (d <? JsDate.DayFromYear y) eqn:E1;
    [apply Z.ltb_lt in E1 | apply Z.ltb_ge in E1].
  - replace (y - 1 + 1) with y by lia. lia.
  - destruct (JsDate.DayFromYear (y + 1) <=? d) eqn:E2;
      [apply Z.leb_le in E2 | apply Z.leb_gt in E2].
    + replace (y + 1 + 1) with (y + 2) by lia. lia.
    + lia.
Qed.

Lemma YearFromDay_unique y d :
  JsDate.DayFromYear y <= d < JsDate.DayFromYear (y + 1) ->
  JsDate.YearFromDay d = y.
Proof.
  intros H. pose proof (YearFromDay_spec d) as S.
  set (y' := JsDate.YearFromDay d) in *.
  destruct (Z.lt_trichotomy y' y) as [L|[E|G]]; [|exact E|].
  - pose proof (@DayFromYear_mono (y' + 1) y ltac:(lia)). lia.
  - pose proof (@DayFromYear_mono (y + 1) y' ltac:(lia)). lia.
Qed.

(** YearFromTime: the largest year whose first day is not after [d]. *)
Lemma YearFromDay_largest y d :
  JsDate.DayFromYear y <= d -> y <= JsDate.YearFromDay d.
Proof.
  intros H. pose proof (YearFromDay_spec d) as S.
  destruct (Z_le_gt_dec y (JsDate.YearFromDay d)) as [L|G]; [exact L|].
  pose proof (@DayFromYear_mono (JsDate.YearFromDay d + 1) y ltac:(lia)). lia.
Qed.

Ltac month_cases m :=
  let Hm := fresh "Hm" in
  assert (m = 0 \/ m = 1 \/ m = 2 \/ m = 3 \/ m = 4 \/ m = 5 \/ m = 6 \/ m = 7
          \/ m = 8 \/ m = 9 \/ m = 10 \/ m = 11) as Hm by lia;
  repeat (destruct Hm as [Hm|Hm]); subst m.

Ltac decide_ltb :=
  repeat match goal with
  | |- context [?a <? ?b] =>
      first [ replace (a <? b) with true by (symmetry; apply Z.ltb_lt; lia)
            | replace (a <? b) with false by (symmetry; apply Z.ltb_ge; lia) ]
  end.

(** Months are numbered from 0 here, as in [Date]. *)
Lemma MonthFromDay_in_month leap m dt :
  0 <= m <= 11 -> 1 <= dt <= monthDays leap (m + 1) ->
  JsDate.MonthFromDay leap (JsDate.daysBeforeMonth leap m + dt - 1) = m.
Proof.
  intros Hm0 Hdt. month_cases m; destruct leap; cbn in Hdt;
    unfold JsDate.MonthFromDay, JsDate.daysBeforeMonth; decide_ltb; reflexivity.
Qed.

Lemma MonthFromDay_overflow leap m dt :
  0 <= m <= 11 -> monthDays leap (m + 1) < dt <= 31 ->
  JsDate.MonthFromDay leap (JsDate.daysBeforeMonth leap m + dt - 1) = m + 1.
Proof.
  intros Hm0 Hdt. month_cases m; destruct leap; cbn in Hdt; try lia;
    unfold JsDate.MonthFromDay, JsDate.daysBeforeMonth; decide_ltb; reflexivity.
Qed.

Lemma MakeDay_in_year y m dt :
  0 <= m <= 11 -> 1 <= dt <= 31 ->
  JsDate.DayFromYear y <= JsDate.MakeDay y m dt < JsDate.DayFromYear (y + 1).
Proof.
  intros Hm Hdt. unfold JsDate.MakeDay.
  replace (m / 12) with 0 by (Z.div_mod_to_equations; lia).
  replace (m mod 12) with m by (Z.div_mod_to_equations; lia).
  rewrite Z.add_0_r, DayFromYear_succ. unfold JsDate.DaysInYear.
  month_cases m; destruct (JsDate.isLeap y); cbn; lia.
Qed.

(** The calendar round trip of [parseDate]: the date built from
    (y, m - 1, d) shows day [d] and month [m - 1] exactly when [d] is a
    day of month [m] of year [y]. *)
Lemma MakeDay_round_trip y m d :
  1 <= m <= 12 -> 1 <= d <= 31 ->
  let t := JsDate.MakeDay y (m - 1) d in
  ((JsDate.getDate t =? d) && (JsDate.getMonth t =? m - 1) = true <-> d <= daysInMonth y m)
  /\ JsDate.getFullYear t = y.
Proof.
  intros Hm Hd t.
  assert (Hy : JsDate.YearFromDay t = y).
  { apply YearFromDay_unique. apply MakeDay_in_year; lia. }
  assert (Ht : t - JsDate.DayFromYear y = JsDate.daysBeforeMonth (JsDate.isLeap y) (m - 1) + d - 1).
  { unfold t, JsDate.MakeDay.
    replace ((m - 1) / 12) with 0 by (Z.div_mod_to_equations; lia).
    replace ((m - 1) mod 12) with (m - 1) by (Z.div_mod_to_equations; lia).
    rewrite Z.add_0_r. lia. }
  split; [|exact Hy].
  unfold JsDate.getDate, JsDate.getMonth. rewrite Hy, Ht.
  unfold daysInMonth.
  destruct (Z_le_gt_dec d (monthDays (JsDate.isLeap y) m)) as [Hle|Hgt].
  - rewrite (@MonthFromDay_in_month (JsDate.isLeap y) (m - 1) d) by
      (replace (m - 1 + 1) with m by lia; lia).
    rewrite !(proj2 (Z.eqb_eq _ _)) by lia. tauto.
  - rewrite (@MonthFromDay_overflow (JsDate.isLeap y) (m - 1) d) by
      (replace (m - 1 + 1) with m by lia; lia).
    replace (m - 1 + 1 =? m - 1) with false by (symmetry; apply Z.eqb_neq; lia).
    rewrite andb_false_r. split; [discriminate | lia].
Qed.

Local Open Scope string_scope.

Ltac digit_cases i :=
  let Hi := fresh "Hi" in
  assert (i = 0 \/ i = 1 \/ i = 2 \/ i = 3 \/ i = 4 \/ i = 5 \/ i = 6 \/ i = 7
          \/ i = 8 \/ i = 9)%Z as Hi by lia;
  repeat (destruct Hi as [Hi|Hi]); subst i.

Lemma digitChar_facts i :
  (0 <= i <= 9)%Z ->
  Str.is_digit (digitChar i) = true /\ Str.digit_value (digitChar i) = i
  /\ Str.is_space (digitChar i) = false
  /\ Ascii.eqb (digitChar i) "-" = false /\ Ascii.eqb (digitChar i) "+" = false.
Proof. intros H. digit_cases i; repeat split; reflexivity. Qed.

Lemma is_digit_digitChar c :
  Str.is_digit c = true ->
  c = digitChar (Str.digit_value c) /\ (0 <= Str.digit_value c <= 9)%Z.
Proof.
  unfold Str.is_digit, Str.digit_value, digitChar. intros H.
  apply andb_true_iff in H. destruct H as [H1 H2].
  apply Nat.leb_le in H1, H2. split; [|lia].
  replace (48 + Z.to_nat (Z.of_nat (nat_of_ascii c) - 48))%nat
    with (nat_of_ascii c) by lia.
  symmetry. apply ascii_nat_embedding.
Qed.

Lemma digit_quot_bounds n :
  (0 <= n <= 99)%Z -> (0 <= n / 10 <= 9)%Z /\ (0 <= n mod 10 <= 9)%Z.
Proof. intros. Z.div_mod_to_equations. lia. Qed.

Lemma digit_quot_bounds4 n :
  (0 <= n <= 9999)%Z ->
  (0 <= n / 1000 <= 9)%Z /\ (0 <= n / 100 mod 10 <= 9)%Z
  /\ (0 <= n / 10 mod 10 <= 9)%Z /\ (0 <= n mod 10 <= 9)%Z.
Proof. intros. Z.div_mod_to_equations. lia. Qed.

Ltac digit_facts :=
  repeat match goal with
  | H : (0 <= ?i <= 9)%Z |- _ =>
      lazymatch goal with
      | _ : Str.is_digit (digitChar i) = true |- _ => fail
      | _ => let F := fresh "F" in
             pose proof (digitChar_facts H) as F;
             destruct F as (? & ? & ? & ? & ?)
      end
  end.

Ltac use_digit_facts :=
  repeat match goal with
  | H : Str.is_digit (digitChar ?i) = true |- context [Str.is_digit (digitChar ?i)] => rewrite H
  | H : Str.digit_value (digitChar ?i) = _ |- context [Str.digit_value (digitChar ?i)] => rewrite H
  | H : Str.is_space (digitChar ?i) = false |- context [Str.is_space (digitChar ?i)] => rewrite H
  | H : Ascii.eqb (digitChar ?i) _ = false |- context [Ascii.eqb (digitChar ?i) _] => rewrite H
  end.

Lemma parseInt10_twoDigits n :
  (0 <= n <= 99)%Z -> Str.parseInt10 (twoDigits n) = Some n.
Proof.
  intros Hn. destruct (digit_quot_bounds Hn) as [Ha Hb]. digit_facts.
  unfold Str.parseInt10, twoDigits. cbn [Str.trimStart]. use_digit_facts.
  cbn [Str.leading_digits]. use_digit_facts.
  cbn [Str.leading_digits Str.digits_value]. use_digit_facts.
  f_equal. Z.div_mod_to_equations. lia.
Qed.

Lemma parseInt10_fourDigits n :
  (0 <= n <= 9999)%Z -> Str.parseInt10 (fourDigits n) = Some n.
Proof.
  intros Hn. destruct (digit_quot_bounds4 Hn) as (Ha & Hb & Hc & Hd). digit_facts.
  unfold Str.parseInt10, fourDigits. cbn [Str.trimStart]. use_digit_facts.
  cbn [Str.leading_digits]. use_digit_facts.
  cbn [Str.leading_digits Str.digits_value]. use_digit_facts.
  f_equal. Z.div_mod_to_equations. lia.
Qed.

Lemma match_2_2_4_formatDMY d m y :
  (0 <= d <= 99)%Z -> (0 <= m <= 99)%Z -> (0 <= y <= 9999)%Z ->
  match_2_2_4 (formatDMY d m y) = Some (twoDigits d, twoDigits m, fourDigits y).
Proof.
  intros Hd Hm Hy.
  destruct (digit_quot_bounds Hd) as [? ?]. destruct (digit_quot_bounds Hm) as [? ?].
  destruct (digit_quot_bounds4 Hy) as (? & ? & ? & ?). digit_facts.
  unfold formatDMY, twoDigits, fourDigits. cbn [append match_2_2_4 forallb].
  use_digit_facts. reflexivity.
Qed.

Lemma match_4_2_2_formatYMD y m d :
  (0 <= d <= 99)%Z -> (0 <= m <= 99)%Z -> (0 <= y <= 9999)%Z ->
  match_4_2_2 (formatYMD y m d) = Some (fourDigits y, twoDigits m, twoDigits d).
Proof.
  intros Hd Hm Hy.
  destruct (digit_quot_bounds Hd) as [? ?]. destruct (digit_quot_bounds Hm) as [? ?].
  destruct (digit_quot_bounds4 Hy) as (? & ? & ? & ?). digit_facts.
  unfold formatYMD, twoDigits, fourDigits. cbn [append match_4_2_2 forallb].
  use_digit_facts. reflexivity.
Qed.

Lemma match_2_2_4_formatYMD y m d :
  (0 <= d <= 99)%Z -> (0 <= m <= 99)%Z -> (0 <= y <= 9999)%Z ->
  match_2_2_4 (formatYMD y m d) = None.
Proof.
  intros Hd Hm Hy.
  destruct (digit_quot_bounds Hd) as [? ?]. destruct (digit_quot_bounds Hm) as [? ?].
  destruct (digit_quot_bounds4 Hy) as (? & ? & ? & ?). digit_facts.
  unfold formatYMD, twoDigits, fourDigits. cbn [append match_2_2_4 forallb].
  use_digit_facts. rewrite ?andb_false_r. reflexivity.
Qed.

Lemma twoDigits_of_chars a b :
  Str.is_digit a = true -> Str.is_digit b = true ->
  let n := (10 * Str.digit_value a + Str.digit_value b)%Z in
  (0 <= n <= 99)%Z /\ String a (String b "") = twoDigits n.
Proof.
  intros Ha Hb n.
  destruct (is_digit_digitChar _ Ha) as [Ea Ra].
  destruct (is_digit_digitChar _ Hb) as [Eb Rb].
  split; [unfold n; lia|]. unfold twoDigits.
  replace (n / 10)%Z with (Str.digit_value a) by (unfold n; Z.div_mod_to_equations; lia).
  replace (n mod 10)%Z with (Str.digit_value b) by (unfold n; Z.div_mod_to_equations; lia).
  rewrite <- Ea, <- Eb. reflexivity.
Qed.

Lemma fourDigits_of_chars a b c e :
  Str.is_digit a = true -> Str.is_digit b = true ->
  Str.is_digit c = true -> Str.is_digit e = true ->
  let n := (1000 * Str.digit_value a + 100 * Str.digit_value b
            + 10 * Str.digit_value c + Str.digit_value e)%Z in
  (0 <= n <= 9999)%Z /\ String a (String b (String c (String e ""))) = fourDigits n.
Proof.
  intros Ha Hb Hc He n.
  destruct (is_digit_digitChar _ Ha) as [Ea Ra].
  destruct (is_digit_digitChar _ Hb) as [Eb Rb].
  destruct (is_digit_digitChar _ Hc) as [Ec Rc].
  destruct (is_digit_digitChar _ He) as [Ee Re].
  split; [unfold n; lia|]. unfold fourDigits.
  replace (n / 1000)%Z with (Str.digit_value a) by (unfold n; Z.div_mod_to_equations; lia).
  replace (n / 100 mod 10)%Z with (Str.digit_value b) by (unfold n; Z.div_mod_to_equations; lia).
  replace (n / 10 mod 10)%Z with (Str.digit_value c) by (unfold n; Z.div_mod_to_equations; lia).
  replace (n mod 10)%Z with (Str.digit_value e) by (unfold n; Z.div_mod_to_equations; lia).
  rewrite <- Ea, <- Eb, <- Ec, <- Ee. reflexivity.
Qed.

Lemma eqb_dash c : Ascii.eqb c "-" = true -> c = "-"%char.
Proof. apply Ascii.eqb_eq. Qed.

Lemma match_2_2_4_inv s g1 g2 g3 :
  match_2_2_4 s = Some (g1, g2, g3) ->
  exists d m y, (0 <= d <= 99)%Z /\ (0 <= m <= 99)%Z /\ (0 <= y <= 9999)%Z
    /\ s = formatDMY d m y
    /\ g1 = twoDigits d /\ g2 = twoDigits m /\ g3 = fourDigits y.
Proof.
  unfold match_2_2_4.
  do 10 (destruct s as [|? s]; [discriminate|]).
  destruct s; [|discriminate].
  match goal with |- (if ?c then _ else _) = _ -> _ => destruct c eqn:E end;
    [|discriminate].
  intros [= <- <- <-].
  cbn [forallb] in E. repeat rewrite andb_true_iff in E.
  destruct E as [[(D1 & D2 & D3 & D4 & D5 & D6 & D7 & D8 & _) H1] H2].
  apply eqb_dash in H1, H2. subst.
  destruct (twoDigits_of_chars _ _ D1 D2) as [R1 E1].
  destruct (twoDigits_of_chars _ _ D3 D4) as [R2 E2].
  destruct (fourDigits_of_chars _ _ _ _ D5 D6 D7 D8) as [R3 E3].
  eexists _, _, _. repeat split; try eassumption; try apply R1; try apply R2; try apply R3.
  unfold formatDMY. rewrite <- E1, <- E2, <- E3. reflexivity.
Qed.

Lemma match_4_2_2_inv s g1 g2 g3 :
  match_4_2_2 s = Some (g1, g2, g3) ->
  exists y m d, (0 <= d <= 99)%Z /\ (0 <= m <= 99)%Z /\ (0 <= y <= 9999)%Z
    /\ s = formatYMD y m d
    /\ g1 = fourDigits y /\ g2 = twoDigits m /\ g3 = twoDigits d.
Proof.
  unfold match_4_2_2.
  do 10 (destruct s as [|? s]; [discriminate|]).
  destruct s; [|discriminate].
  match goal with |- (if ?c then _ else _) = _ -> _ => destruct c eqn:E end;
    [|discriminate].
  intros [= <- <- <-].
  cbn [forallb] in E. repeat rewrite andb_true_iff in E.
  destruct E as [[(D1 & D2 & D3 & D4 & D5 & D6 & D7 & D8 & _) H1] H2].
  apply eqb_dash in H1, H2. subst.
  destruct (fourDigits_of_chars _ _ _ _ D1 D2 D3 D4) as [R1 E1].
  destruct (twoDigits_of_chars _ _ D5 D6) as [R2 E2].
  destruct (twoDigits_of_chars _ _ D7 D8) as [R3 E3].
  eexists _, _, _. repeat split; try eassumption; try apply R1; try apply R2; try apply R3.
  unfold formatYMD. rewrite <- E1, <- E2, <- E3. reflexivity.
Qed.

Local Open Scope Z_scope.

Lemma parseDate_ymd_valid y m d :
  validDay y m d -> parseDate_ymd y m d = Some (parsed y m d).
Proof.
  intros (Hm & Hd & Hlen). unfold parseDate_ymd.
  rewrite !Z.gtb_ltb.
  replace (m <? 1) with false by (symmetry; apply Z.ltb_ge; lia).
  replace (12 <? m) with false by (symmetry; apply Z.ltb_ge; lia).
  replace (d <? 1) with false by (symmetry; apply Z.ltb_ge; lia).
  replace (31 <? d) with false by (symmetry; apply Z.ltb_ge; lia).
  cbn [orb].
  destruct (@MakeDay_round_trip (constructorYear y) m d Hm Hd) as [Hrt _].
  apply Hrt in Hlen. apply andb_true_iff in Hlen. destruct Hlen as [H1 H2].
  change (JsDate.make y (m - 1) d) with (JsDate.MakeDay (constructorYear y) (m - 1) d).
  rewrite H1, H2. reflexivity.
Qed.

Lemma parseDate_ymd_inv y m d p :
  parseDate_ymd y m d = Some p -> validDay y m d /\ p = parsed y m d.
Proof.
  unfold parseDate_ymd.
  destruct ((m <? 1) || (m >? 12) || (d <? 1) || (d >? 31)) eqn:E; [discriminate|].
  repeat rewrite orb_false_iff in E. destruct E as [[[E1 E2] E3] E4].
  apply Z.ltb_ge in E1, E3. rewrite Z.gtb_ltb in E2, E4. apply Z.ltb_ge in E2, E4.
  change (JsDate.make y (m - 1) d) with (JsDate.MakeDay (constructorYear y) (m - 1) d).
  destruct (negb (JsDate.getDate (JsDate.MakeDay (constructorYear y) (m - 1) d) =? d)
            || negb (JsDate.getMonth (JsDate.MakeDay (constructorYear y) (m - 1) d) =? m - 1)) eqn:E;
    [discriminate|].
  intros [= <-]. split; [|reflexivity].
  rewrite <- negb_andb, negb_false_iff in E.
  destruct (@MakeDay_round_trip (constructorYear y) m d ltac:(lia) ltac:(lia)) as [Hrt _].
  apply Hrt in E. unfold validDay. lia.
Qed.

Lemma parseDate_wellFormed s y m d :
  wellFormed (Str.trim s) y m d -> parseDate (VString s) = parseDate_ymd y m d.
Proof.
  intros [(Hy & Hm & Hd) Hs]. unfold parseDate.
  destruct (String.eqb s "") eqn:E.
  { apply String.eqb_eq in E. subst s. destruct Hs as [Hs|Hs]; discriminate Hs. }
  destruct Hs as [Hs|Hs]; rewrite Hs.
  - rewrite (match_2_2_4_formatDMY Hd Hm Hy).
    rewrite !parseInt10_twoDigits, parseInt10_fourDigits by assumption. reflexivity.
  - rewrite (match_2_2_4_formatYMD Hd Hm Hy), (match_4_2_2_formatYMD Hd Hm Hy).
    rewrite !parseInt10_twoDigits, parseInt10_fourDigits by assumption. reflexivity.
Qed.

Lemma parseDate_inv v p :
  parseDate v = Some p ->
  exists s y m d, v = VString s /\ wellFormed (Str.trim s) y m d
                  /\ validDay y m d /\ p = parsed y m d.
Proof.
  unfold parseDate. destruct v as [| | |n|s]; try discriminate.
  destruct (String.eqb s ""); [discriminate|].
  destruct (match_2_2_4 (Str.trim s)) as [[[g1 g2] g3]|] eqn:M1.
  - destruct (match_2_2_4_inv _ M1) as (d & m & y & Hd & Hm & Hy & Hs & -> & -> & ->).
    rewrite !parseInt10_twoDigits, parseInt10_fourDigits by assumption.
    intros H. apply parseDate_ymd_inv in H. destruct H as [Hv ->].
    exists s, y, m, d. split; [reflexivity|]. split; [|split; [exact Hv|reflexivity]].
    split; [lia|left; exact Hs].
  - destruct (match_4_2_2 (Str.trim s)) as [[[g1 g2] g3]|] eqn:M2; [|discriminate].
    destruct (match_4_2_2_inv _ M2) as (y & m & d & Hd & Hm & Hy & Hs & -> & -> & ->).
    rewrite !parseInt10_twoDigits, parseInt10_fourDigits by assumption.
    intros H. apply parseDate_ymd_inv in H. destruct H as [Hv ->].
    exists s, y, m, d. split; [reflexivity|]. split; [|split; [exact Hv|reflexivity]].
    split; [lia|right; exact Hs].
Qed.

Lemma isLeap_constructorYear y :
  1 <= y -> JsDate.isLeap (constructorYear y) = JsDate.isLeap y.
Proof.
  intros Hy. unfold constructorYear.
  destruct ((0 <=? y) && (y <=? 99)) eqn:E; [|reflexivity].
  apply andb_true_iff in E. destruct E as [E1 E2]. apply Z.leb_le in E1, E2.
  unfold JsDate.isLeap.
  replace ((1900 + y) mod 4) with (y mod 4) by (Z.div_mod_to_equations; lia).
  replace ((1900 + y) mod 100 =? 0) with false
    by (symmetry; apply Z.eqb_neq; Z.div_mod_to_equations; lia).
  replace (y mod 100 =? 0) with false
    by (symmetry; apply Z.eqb_neq; Z.div_mod_to_equations; lia).
  reflexivity.
Qed.

Lemma trim_formatDMY d m y :
  0 <= d <= 99 -> 0 <= m <= 99 -> 0 <= y <= 9999 ->
  Str.trim (formatDMY d m y) = formatDMY d m y.
Proof.
  intros Hd Hm Hy.
  destruct (digit_quot_bounds Hd) as [? ?]. destruct (digit_quot_bounds Hm) as [? ?].
  destruct (digit_quot_bounds4 Hy) as (? & ? & ? & ?). digit_facts.
  unfold Str.trim, formatDMY, twoDigits, fourDigits.
  cbn [append Str.trimStart]. use_digit_facts.
  cbn [Str.trimEnd]. use_digit_facts. reflexivity.
Qed.

Lemma trim_formatYMD y m d :
  0 <= d <= 99 -> 0 <= m <= 99 -> 0 <= y <= 9999 ->
  Str.trim (formatYMD y m d) = formatYMD y m d.
Proof.
  intros Hd Hm Hy.
  destruct (digit_quot_bounds Hd) as [? ?]. destruct (digit_quot_bounds Hm) as [? ?].
  destruct (digit_quot_bounds4 Hy) as (? & ? & ? & ?). digit_facts.
  unfold Str.trim, formatYMD, twoDigits, fourDigits.
  cbn [append Str.trimStart]. use_digit_facts.
  cbn [Str.trimEnd]. use_digit_facts. reflexivity.
Qed.

Lemma daysInMonth_le_31 y m : daysInMonth y m <= 31.
Proof.
  unfold daysInMonth, monthDays.
  destruct (m =? 2); [destruct (JsDate.isLeap y); lia|].
  destruct ((m =? 4) || (m =? 6) || (m =? 9) || (m =? 11)); lia.
Qed.

Lemma length_formatDMY d m y : String.length (formatDMY d m y) = 10%nat.
Proof. reflexivity. Qed.
Lemma length_formatYMD y m d : String.length (formatYMD y m d) = 10%nat.
Proof. reflexivity. Qed.

(** C7, as stated, fails: a text with a leading space is none of the two
    formats, and [parseDate] accepts it, because it trims its argument. *)
Lemma parseDate_accepts_padded_text :
  (exists p, parseDate (VString " 15-03-2025") = Some p
             /\ year p = 2025 /\ month p = 3 /\ day p = 15)
  /\ (forall y m d, " 15-03-2025" <> formatDMY d m y
                    /\ " 15-03-2025" <> formatYMD y m d).
Proof.
  split.
  - eexists. split; [vm_compute; reflexivity|]. repeat split.
  - intros y m d. split; intros H; apply (f_equal String.length) in H;
      discriminate H.
Qed.

Lemma MonthFromDay_range leap k : 0 <= JsDate.MonthFromDay leap k <= 11.
Proof.
  unfold JsDate.MonthFromDay.
  repeat match goal with
         | |- context [if ?c then _ else _] => destruct c
         end; lia.
Qed.

Lemma setDate_shift d n : JsDate.setDate d n = d - JsDate.getDate d + n.
Proof.
  unfold JsDate.setDate, JsDate.MakeDay, JsDate.getFullYear, JsDate.getMonth,
    JsDate.getDate.
  set (y := JsDate.YearFromDay d).
  set (m := JsDate.MonthFromDay (JsDate.isLeap y) (d - JsDate.DayFromYear y)).
  pose proof (MonthFromDay_range (JsDate.isLeap y) (d - JsDate.DayFromYear y)) as Hm.
  fold m in Hm.
  replace (m / 12) with 0 by (Z.div_mod_to_equations; lia).
  replace (m mod 12) with m by (Z.div_mod_to_equations; lia).
  rewrite Z.add_0_r. lia.
Qed.

Lemma getISOWeekKey_shift d :
  getISOWeekKey d = isoDate (d - JsDate.getDay d + 1).
Proof.
  unfold getISOWeekKey. rewrite setDate_shift.
  replace (d - JsDate.getDate d + (JsDate.getDate d - JsDate.getDay d + 1))
    with (d - JsDate.getDay d + 1) by lia.
  reflexivity.
Qed.

(** C2 (what the code does). [getISOWeekKey] moves a date by
    [1 - getDay()] days and writes the day it reaches, which is a Monday:
    for Monday to Saturday the Monday on or before the date, at most 5 days
    earlier; for a Sunday ([getDay() = 0]) the day after it, and not the
    Monday 6 days before.  Sunday 05-01-2025 gets the key of Monday
    06-01-2025, not 2024-12-30. *)
Theorem weekKey_of_sunday_is_the_next_day :
  (forall d,
      let start := d - JsDate.getDay d + 1 in
      getISOWeekKey d = isoDate start
      /\ JsDate.getDay start = 1
      /\ (JsDate.getDay d = 0 -> start = d + 1)
      /\ (JsDate.getDay d <> 0 -> d - 5 <= start <= d))
  /\ (exists p, parseDate (VString "05-01-2025") = Some p
                /\ dayOfWeek p = 0 /\ weekKey p = "2025-01-06")
  /\ (exists p, parseDate (VString "06-01-2025") = Some p
                /\ dayOfWeek p = 1 /\ weekKey p = "2025-01-06")
  /\ (exists p, parseDate (VString "30-12-2024") = Some p
                /\ dayOfWeek p = 1 /\ weekKey p = "2024-12-30").
Proof.
  split; [|repeat split; eexists; (split; [vm_compute; reflexivity|split; reflexivity])].
  intros d start. split; [apply getISOWeekKey_shift|].
  unfold start, JsDate.getDay. repeat split; intros; Z.div_mod_to_equations; lia.
Qed.

(* ================================================================== *)
(** * Properties: growth *)

(** [Math.round] on a number that is finite and not integral: with the
    number written as (+/-) m * 2^e, e < 0, the result is the integer n with
    n - 1/2 <= (+/-) m * 2^e < n + 1/2, so that a tie goes to the integer
    above. *)
Lemma round_nearest_tie_up (x : float) (s : bool) (m : positive) (e : Z) :
  Prim2SF x = S754_finite s m e -> e < 0 -> Zpos m mod 2 ^ (- e) <> 0 ->
  exists n : Z,
    (2 * n - 1) * 2 ^ (- e) <= 2 * cond_Zopp s (Zpos m) < (2 * n + 1) * 2 ^ (- e)
    /\ Num.round x = if n =? 0 then signedZero s else Num.of_Z n.
Proof.
  intros Hx He Hm. unfold Num.round. rewrite Hx.
  replace (0 <=? e) with false by (symmetry; apply Z.leb_gt; lia).
  replace (Zpos m mod 2 ^ (- e) =? 0) with false by (symmetry; apply Z.eqb_neq; exact Hm).
  set (d := 2 ^ (- e)). assert (Hd : 0 < d) by (apply Z.pow_pos_nonneg; lia).
  set (a := 2 * cond_Zopp s (Z.pos m) + d).
  exists (a / (2 * d)). split; [|reflexivity].
  pose proof (Z.mul_div_le a (2 * d) ltac:(lia)).
  pose proof (Z.mul_succ_div_gt a (2 * d) ltac:(lia)).
  unfold a in *. lia.
Qed.

(** [Math.round] returns the other numbers as they are. *)
Lemma round_integral_or_not_finite (x : float) :
  match Prim2SF x with
  | S754_finite _ m e => 0 <= e \/ Zpos m mod 2 ^ (- e) = 0
  | _ => True
  end -> Num.round x = x.
Proof.
  unfold Num.round. destruct (Prim2SF x) as [| | |s m e]; try reflexivity.
  intros [He|Hm].
  - replace (0 <=? e) with true by (symmetry; apply Z.leb_le; lia). reflexivity.
  - destruct (0 <=? e); [reflexivity|]. rewrite Hm. reflexivity.
Qed.

Section GrowthProperties.
Context {host : Host}.

(** C3 (amended). For a finite non-zero [previous], [computeGrowth] returns
    [pct = Math.round(((current - previous) / previous) * 100)], the nearest
    integer with a tie going to the integer above (towards +Infinity: -12.5
    gives -12), direction "up" if pct > 0, "down" if pct < 0, else "flat"
    with pct 0, and the text "up {pct}%", "down {|pct|}%" or "flat".  When
    [previous] is not finite or is zero it returns pct 100 and "up" if
    [current > 0], and pct 0 and "flat" otherwise. *)
Theorem computeGrowth_spec (current previous : float) :
  (Num.isFinite previous = true /\ (previous =? 0)%float = false ->
     let p := Num.round ((current - previous) / previous * 100)%float in
     computeGrowth current previous =
       if (0 <? p)%float then
         {| pct := p; direction := Up;
            text := "up " ++ Js.NumberToString p ++ "%" |}
       else if (p <? 0)%float then
         {| pct := p; direction := Down;
            text := "down " ++ Js.NumberToString (PrimFloat.abs p) ++ "%" |}
       else {| pct := 0; direction := Flat; text := "flat" |})
  /\ (Num.isFinite previous = false \/ (previous =? 0)%float = true ->
        computeGrowth current previous =
          if (0 <? current)%float
          then {| pct := 100; direction := Up; text := "up from no prior sales" |}
          else {| pct := 0; direction := Flat; text := "no change" |})
  /\ (forall x s m e,
        Prim2SF x = S754_finite s m e -> e < 0 -> Zpos m mod 2 ^ (- e) <> 0 ->
        exists n : Z,
          (2 * n - 1) * 2 ^ (- e) <= 2 * cond_Zopp s (Zpos m)
                                  < (2 * n + 1) * 2 ^ (- e)
          /\ Num.round x = if n =? 0 then signedZero s else Num.of_Z n)
  /\ (Num.round (-12.5) = (-12)%float /\ Num.round 12.5 = 13%float
      /\ Num.round (-0.5) = (-0)%float).
Proof.
  split; [|split; [|split]].
  - intros [Hf Hz]. unfold computeGrowth. rewrite Hf, Hz. reflexivity.
  - intros H. unfold computeGrowth.
    replace (negb (Num.isFinite previous) || (previous =? 0)%float) with true.
    + reflexivity.
    + symmetry. destruct H as [-> | ->]; [reflexivity | apply orb_true_r].
  - apply round_nearest_tie_up.
  - repeat split; vm_compute; reflexivity.
Qed.

End GrowthProperties.

(** C3, as stated, fails: from 8 to 7 the change is -12.5 percent, which
    rounded half away from zero is -13; [computeGrowth] returns -12 and the
    text "down 12%". *)
Lemma computeGrowth_tie_goes_up :
  ((7 - 8) / 8 * 100 = -12.5)%float
  /\ roundHalfAwayFromZero (-12.5) = (-13)%float
  /\ pct (computeGrowth (host := exampleHost) 7 8) = (-12)%float
  /\ direction (computeGrowth (host := exampleHost) 7 8) = Down
  /\ text (computeGrowth (host := exampleHost) 7 8) = "down 12%".
Proof. repeat split; vm_compute; reflexivity. Qed.

(* ================================================================== *)
(** * Properties: anomalies *)

Lemma SFcompare_antisym (a b : spec_float) :
  SFcompare b a = option_map CompOpp (SFcompare a b).
Proof.
  unfold SFcompare.
  destruct a as [sa|sa| |sa ma ea], b as [sb|sb| |sb mb eb];
    try destruct sa; try destruct sb; try reflexivity; cbn [option_map]; f_equal.
  - rewrite (Z.compare_antisym ea eb).
    destruct (ea ?= eb); cbn; try reflexivity.
    rewrite !Pos.compare_cont_spec. cbn [Pos.switch_Eq].
    rewrite (Pos.compare_antisym ma mb).
    destruct (ma ?= mb)%positive; reflexivity.
  - rewrite (Z.compare_antisym ea eb).
    destruct (ea ?= eb); cbn; try reflexivity.
    rewrite !Pos.compare_cont_spec. cbn [Pos.switch_Eq].
    rewrite (Pos.compare_antisym ma mb).
    destruct (ma ?= mb)%positive; reflexivity.
Qed.

Lemma float_ltb_asym (x y : float) :
  (x <? y)%float = true -> (y <? x)%float = false.
Proof.
  rewrite !ltb_spec. unfold SFltb.
  rewrite (SFcompare_antisym (Prim2SF x) (Prim2SF y)).
  destruct (SFcompare (Prim2SF x) (Prim2SF y)) as [[| |]|]; cbn;
    intros; try discriminate; reflexivity.
Qed.

Lemma float_eqb_not_ltb (x y : float) :
  (x =? y)%float = true -> (x <? y)%float = false /\ (y <? x)%float = false.
Proof.
  rewrite eqb_spec, !ltb_spec. unfold SFeqb, SFltb.
  rewrite (SFcompare_antisym (Prim2SF x) (Prim2SF y)).
  destruct (SFcompare (Prim2SF x) (Prim2SF y)) as [[| |]|]; cbn;
    intros; try discriminate; split; reflexivity.
Qed.

Lemma isSpike_flagged avg std v : isSpike avg std v = true <-> flaggedSpike avg std v.
Proof.
  unfold isSpike, flaggedSpike, ANOMALY_CHANGE_THRESHOLD, ANOMALY_STD_THRESHOLD.
  rewrite andb_true_iff, orb_true_iff. tauto.
Qed.

Lemma isDrop_flagged avg std v : isDrop avg std v = true <-> flaggedDrop avg std v.
Proof.
  unfold isDrop, flaggedDrop, ANOMALY_CHANGE_THRESHOLD, ANOMALY_STD_THRESHOLD.
  rewrite andb_true_iff, orb_true_iff. tauto.
Qed.

Lemma in_anomaliesOf avg std pv a :
  In a (anomaliesOf avg std pv) <->
  Num.isFinite (PeriodValue.value pv) = true
  /\ ((a = spikeOf avg pv /\ flaggedSpike avg std (PeriodValue.value pv))
      \/ (a = dropOf avg pv /\ flaggedDrop avg std (PeriodValue.value pv))).
Proof.
  unfold anomaliesOf. rewrite <- isSpike_flagged, <- isDrop_flagged.
  destruct (Num.isFinite (PeriodValue.value pv)); cbn [negb].
  - rewrite in_app_iff.
    destruct (isSpike avg std (PeriodValue.value pv)),
             (isDrop avg std (PeriodValue.value pv)); cbn [In];
      unfold spikeOf, dropOf; intuition (try discriminate; auto).
  - cbn [In]. intuition discriminate.
Qed.

(** C6 (amended). If fewer than 2 of the values are finite and
    non-negative, [detectAnomalies] returns the empty list.  Otherwise, with
    avg the population mean and std the population standard deviation
    (dividing by the count) of the finite non-negative values, an entry
    whose value is finite is flagged as a spike exactly when value > avg and
    (|value - avg| / avg >= 0.5 or z >= 2), and as a drop exactly when
    value < avg and (|value - avg| / avg >= 0.5 or z <= -2), the ratio being
    taken as 0 when avg is 0 and z as 0 when std is not positive; an entry
    whose value is not finite is never flagged.  No entry is flagged as
    both, and an entry equal to the average is never flagged. *)
Theorem detectAnomalies_spec (periodValues : list PeriodValue.t) :
  let values := validValues periodValues in
  let avg := mean values in
  let std := stdDev values in
  ((List.length values < 2)%nat -> detectAnomalies periodValues = [])
  /\ ((2 <= List.length values)%nat ->
      forall a,
        In a (detectAnomalies periodValues) <->
        exists pv,
          In pv periodValues
          /\ Num.isFinite (PeriodValue.value pv) = true
          /\ ((a = spikeOf avg pv /\ flaggedSpike avg std (PeriodValue.value pv))
              \/ (a = dropOf avg pv /\ flaggedDrop avg std (PeriodValue.value pv))))
  /\ (forall v, ~ (flaggedSpike avg std v /\ flaggedDrop avg std v))
  /\ (forall v, (v =? avg)%float = true ->
                ~ flaggedSpike avg std v /\ ~ flaggedDrop avg std v).
Proof.
  intros values avg std. split; [|split; [|split]].
  - intros Hlt. unfold detectAnomalies. fold values.
    replace (List.length values <? 2)%nat with true
      by (symmetry; apply Nat.ltb_lt; exact Hlt).
    reflexivity.
  - intros Hge a. unfold detectAnomalies. fold values.
    replace (List.length values <? 2)%nat with false
      by (symmetry; apply Nat.ltb_ge; exact Hge).
    fold avg std. rewrite in_flat_map.
    split; intros (pv & Hin & H); exists pv; (split; [exact Hin|]);
      apply in_anomaliesOf in H || apply in_anomaliesOf; tauto.
  - intros v [[Hs _] [Hd _]]. apply float_ltb_asym in Hs. congruence.
  - intros v He. apply float_eqb_not_ltb in He. destruct He as [H1 H2].
    split; intros [H _]; congruence.
Qed.

(** C6, as stated, fails.  Among 100, 100 and Infinity the average of the
    finite values is 100 and Infinity is above it with an infinite change
    ratio, yet it is not flagged: the loop skips a value that is not finite.
    Among 0, 0 and -5 the average is 0 and |-5 - 0| / 0 is Infinity, yet -5
    is not flagged: the ratio counts as 0 when the average is 0. *)
Lemma detectAnomalies_skips_what_the_claim_flags :
  (validValues [entry "Jan" 100; entry "Feb" 100; entry "Mar" infinity]
     = [100; 100]%float
   /\ mean [100; 100]%float = 100%float /\ stdDev [100; 100]%float = 0%float
   /\ claimedSpike 100 0 infinity = true
   /\ detectAnomalies [entry "Jan" 100; entry "Feb" 100; entry "Mar" infinity] = [])
  /\ (validValues [entry "Jan" 0; entry "Feb" 0; entry "Mar" (-5)] = [0; 0]%float
      /\ mean [0; 0]%float = 0%float /\ stdDev [0; 0]%float = 0%float
      /\ claimedDrop 0 0 (-5) = true
      /\ detectAnomalies [entry "Jan" 0; entry "Feb" 0; entry "Mar" (-5)] = []).
Proof. repeat split; vm_compute; reflexivity. Qed.

Local Open Scope list_scope.

(* ================================================================== *)
(** * Properties: containers *)

Section SetProperties.

Local Abbreviation add := (JsSet.add String.eqb).
Local Abbreviation has := (JsSet.has String.eqb).

Lemma has_In (x : string) (s : list string) : has x s = true <-> In x s.
Proof.
  unfold JsSet.has. rewrite existsb_exists. split.
  - intros (y & Hy & E). apply String.eqb_eq in E. subst. exact Hy.
  - intros H. exists x. split; [exact H | apply String.eqb_refl].
Qed.

Lemma has_existsb (x : string) (s : list string) :
  has x s = existsb (String.eqb x) s.
Proof. reflexivity. Qed.

Lemma fold_add_extends (l s : list string) :
  exists rest, fold_left (fun s x => add x s) l s = s ++ rest.
Proof.
  revert s. induction l as [|x l IH]; intros s; cbn [fold_left].
  - exists []. rewrite app_nil_r. reflexivity.
  - destruct (IH (add x s)) as [rest Hr]. rewrite Hr. unfold JsSet.add.
    destruct (has x s).
    + exists rest. reflexivity.
    + exists (x :: rest). rewrite <- app_assoc. reflexivity.
Qed.

Lemma in_add (x y : string) (s : list string) : In y (add x s) <-> In y s \/ y = x.
Proof.
  unfold JsSet.add. destruct (has x s) eqn:E.
  - apply has_In in E. split; [auto|]. intros [H | ->]; assumption.
  - rewrite in_app_iff. cbn [In]. intuition.
Qed.

Lemma in_fold_add (y : string) (l s : list string) :
  In y (fold_left (fun s x => add x s) l s) <-> In y s \/ In y l.
Proof.
  revert s. induction l as [|x l IH]; intros s; cbn [fold_left In].
  - tauto.
  - rewrite IH, in_add. intuition.
Qed.

Lemma NoDup_add (x : string) (s : list string) : NoDup s -> NoDup (add x s).
Proof.
  intros Hs. unfold JsSet.add. destruct (has x s) eqn:E; [exact Hs|].
  assert (Hx : ~ In x s) by (rewrite <- has_In; congruence).
  clear E. induction Hs as [|y s Hy Hs IH]; cbn [app].
  - constructor; [intros []|constructor].
  - constructor.
    + rewrite in_app_iff. cbn [In]. intros [H|[H|[]]]; [auto|].
      subst. apply Hx. left. reflexivity.
    + apply IH. intros H. apply Hx. right. exact H.
Qed.

Lemma NoDup_fold_add (l s : list string) :
  NoDup s -> NoDup (fold_left (fun s x => add x s) l s).
Proof.
  revert s. induction l as [|x l IH]; intros s Hs; cbn [fold_left].
  - exact Hs.
  - apply IH, NoDup_add, Hs.
Qed.

Lemma length_fold_add (l s : list string) :
  (List.length (fold_left (fun s x => add x s) l s) <= List.length s + List.length l)%nat.
Proof.
  revert s. induction l as [|x l IH]; intros s; cbn [fold_left List.length].
  - lia.
  - specialize (IH (add x s)). unfold JsSet.add in *.
    destruct (has x s); [lia|]. rewrite length_app in IH. cbn [List.length] in IH. lia.
Qed.

End SetProperties.

Lemma in_firstn {A} (n : nat) (l : list A) (x : A) : In x (firstn n l) -> In x l.
Proof.
  revert n. induction l as [|y l IH]; intros n H.
  - rewrite firstn_nil in H. exact H.
  - destruct n; [destruct H|]. cbn [firstn In] in *.
    destruct H as [H|H]; [left; exact H | right; exact (IH _ H)].
Qed.

Lemma NoDup_firstn {A} (n : nat) (l : list A) : NoDup l -> NoDup (firstn n l).
Proof.
  revert n. induction l as [|x l IH]; intros n H.
  - rewrite firstn_nil. constructor.
  - destruct n; [constructor|]. cbn [firstn]. inversion H; subst. constructor.
    + intros Hin. apply in_firstn in Hin. contradiction.
    + apply IH. assumption.
Qed.

Section Uniq.

Lemma uniq_nil : uniq [] = [].
Proof. reflexivity. Qed.

Lemma uniq_In (x : string) (l : list string) : In x (uniq l) <-> In x l.
Proof. unfold uniq, JsSet.of_list. rewrite in_fold_add. cbn [In]. tauto. Qed.

Lemma uniq_NoDup (l : list string) : NoDup (uniq l).
Proof. apply NoDup_fold_add. constructor. Qed.

(** Reading the array from the left, an entry is kept unless it occurred
    before. *)
Lemma uniq_snoc (l : list string) (x : string) :
  uniq (l ++ [x]) = if existsb (String.eqb x) l then uniq l else uniq l ++ [x].
Proof.
  assert (E : JsSet.has String.eqb x (uniq l) = existsb (String.eqb x) l).
  { apply eq_true_iff_eq. rewrite has_In, uniq_In, <- has_In. reflexivity. }
  rewrite <- E. unfold uniq, JsSet.of_list. rewrite fold_left_app. reflexivity.
Qed.

Lemma uniq_extends (l1 l2 : list string) :
  exists rest, uniq (l1 ++ l2) = uniq l1 ++ rest.
Proof.
  unfold uniq, JsSet.of_list. rewrite fold_left_app. apply fold_add_extends.
Qed.

Lemma uniq_length (l : list string) : (List.length (uniq l) <= List.length l)%nat.
Proof. unfold uniq, JsSet.of_list. pose proof (length_fold_add l []). cbn in *. lia. Qed.

(** An entry among the first [n] is still among the first [n] once
    duplicates are dropped. *)
Lemma uniq_keeps_early (l1 l2 : list string) (x : string) (n : nat) :
  (List.length l1 < n)%nat -> In x (firstn n (uniq (l1 ++ x :: l2))).
Proof.
  intros Hn.
  replace (l1 ++ x :: l2) with ((l1 ++ [x]) ++ l2) by (rewrite <- app_assoc; reflexivity).
  destruct (uniq_extends (l1 ++ [x]) l2) as [rest ->].
  rewrite firstn_app.
  apply in_or_app. left.
  rewrite firstn_all2.
  - apply uniq_In. apply in_or_app. right. left. reflexivity.
  - pose proof (uniq_length (l1 ++ [x])) as H. rewrite length_app in H. cbn in H. lia.
Qed.

End Uniq.

(* ================================================================== *)
(** * Properties: the trend step *)

Lemma length_insert {A} (after : A -> A -> bool) (x : A) (l : list A) :
  List.length (JsArray.insert after x l) = S (List.length l).
Proof.
  induction l as [|y l IH]; cbn [JsArray.insert List.length]; [reflexivity|].
  destruct (after y x); cbn [List.length]; [reflexivity | rewrite IH; reflexivity].
Qed.

Lemma length_sort {A} (after : A -> A -> bool) (l : list A) :
  List.length (JsArray.sort after l) = List.length l.
Proof.
  unfold JsArray.sort.
  assert (G : forall acc, List.length (fold_left (fun acc x => JsArray.insert after x acc) l acc)
                          = (List.length acc + List.length l)%nat).
  { induction l as [|x l IH]; intros acc; cbn [fold_left List.length]; [lia|].
    rewrite IH, length_insert. lia. }
  rewrite G. reflexivity.
Qed.

Lemma length_sortStrings (l : list string) :
  List.length (sortStrings l) = List.length l.
Proof. apply length_sort. Qed.

Lemma smap_set_not_nil {V} (k : string) (v : V) (m : JsMap.t string V) :
  smap_set k v m <> [].
Proof.
  unfold smap_set. destruct m as [|[k' v'] m]; cbn [JsMap.set]; [discriminate|].
  destruct (String.eqb k k'); discriminate.
Qed.

Lemma findings_pushAll (a b : InsightResult) :
  findings (pushAll a b) = findings a ++ findings b.
Proof. reflexivity. Qed.

Section TrendProperties.
Context {host : Host}.

Lemma aggregateBy_nil_iff (key : ParsedDate -> string) (rows : list Row)
  (init : JsMap.t string Agg.t) :
  aggregateBy key rows init = [] <->
  init = [] /\ forall r, In r rows -> parseDate (date r) = None.
Proof.
  unfold aggregateBy. revert init.
  induction rows as [|row rows IH]; intros init; cbn [fold_left In].
  - split; [intros ->; split; [reflexivity|intros r []] | intros [-> _]; reflexivity].
  - rewrite IH. destruct (parseDate (date row)) as [p|] eqn:E.
    + split.
      * intros [H _]. exfalso. exact (smap_set_not_nil _ _ _ H).
      * intros [_ H]. specialize (H row (or_introl eq_refl)). congruence.
    + split.
      * intros [-> H]. split; [reflexivity|].
        intros r [<- | Hr]; [exact E | exact (H r Hr)].
      * intros [-> H]. split; [reflexivity|]. intros r Hr. apply H. right. exact Hr.
Qed.

Lemma keys_nil_iff {V} (m : JsMap.t string V) : JsMap.keys m = [] <-> m = [].
Proof.
  unfold JsMap.keys. destruct m; cbn [map]; split; intros H; try reflexivity;
    discriminate H.
Qed.

Lemma length_zero_nil {A} (l : list A) : List.length l = 0%nat <-> l = [].
Proof. destruct l; cbn; split; intros H; try reflexivity; discriminate H. Qed.

Lemma sortStrings_nil_iff (l : list string) : sortStrings l = [] <-> l = [].
Proof. rewrite <- !length_zero_nil, length_sortStrings. reflexivity. Qed.

Lemma monthKeys_nil_iff (rows : list Row) :
  sortStrings (JsMap.keys (aggregateByMonth rows)) = [] <->
  forall r, In r rows -> parseDate (date r) = None.
Proof.
  rewrite sortStrings_nil_iff, keys_nil_iff.
  change (aggregateByMonth rows) with (aggregateBy monthKey rows []).
  rewrite aggregateBy_nil_iff. tauto.
Qed.

Lemma weekKeys_nil_iff (rows : list Row) :
  sortStrings (JsMap.keys (aggregateByWeek rows)) = [] <->
  forall r, In r rows -> parseDate (date r) = None.
Proof.
  rewrite sortStrings_nil_iff, keys_nil_iff.
  change (aggregateByWeek rows) with (aggregateBy weekKey rows []).
  rewrite aggregateBy_nil_iff. tauto.
Qed.

Lemma collectInsights_trend_first (rows : list Row) :
  exists others,
    findings (collectInsights rows) =
      findings (trendInsights
                  (trend rows (aggregateByMonth rows)
                         (sortStrings (JsMap.keys (aggregateByMonth rows)))))
      ++ others.
Proof.
  unfold collectInsights. cbn [fold_left].
  rewrite !findings_pushAll.
  cbn [findings noInsights qualityWarnings app].
  rewrite <- !app_assoc. eexists. reflexivity.
Qed.

Lemma trend_cases (rows : list Row) :
  let byMonth := aggregateByMonth rows in
  let monthKeys := sortStrings (JsMap.keys byMonth) in
  (trend rows byMonth monthKeys = None /\ (List.length monthKeys < 2)%nat)
  \/ (exists growth lastLabel prevLabel lastRev prevRev action,
        trend rows byMonth monthKeys =
          Some {| trendKind := MonthlyTrend;
                  trendFinding :=
                    monthlyTrendFinding growth lastLabel prevLabel lastRev prevRev;
                  trendAction := action |}
        /\ (2 <= List.length monthKeys)%nat).
Proof.
  intros byMonth monthKeys. unfold trend.
  destruct (List.length monthKeys) as [|[|n]] eqn:L.
  - left. split; [|lia]. cbn [Nat.ltb Nat.leb Nat.eqb andb].
    apply length_zero_nil in L.
    assert (W : sortStrings (JsMap.keys (aggregateByWeek rows)) = []).
    { apply weekKeys_nil_iff. apply monthKeys_nil_iff. exact L. }
    rewrite W. reflexivity.
  - left. split; [reflexivity | lia].
  - right. do 6 eexists. split; [reflexivity | lia].
Qed.

(** C5. The weekly trend sentence is never produced: the weekly branch of
    the trend step runs only when there is no month key, every row whose
    date parses gives a month key and a week key, so without month keys
    there are no week keys either and the branch cannot find two of them.
    The trend step yields nothing or the monthly sentence. *)
Theorem weekly_trend_is_unreachable (rows : list Row) :
  let byMonth := aggregateByMonth rows in
  let monthKeys := sortStrings (JsMap.keys byMonth) in
  let weekKeys := sortStrings (JsMap.keys (aggregateByWeek rows)) in
  (monthKeys = [] <-> forall r, In r rows -> parseDate (date r) = None)
  /\ (weekKeys = [] <-> forall r, In r rows -> parseDate (date r) = None)
  /\ (List.length monthKeys = 0%nat -> List.length weekKeys = 0%nat)
  /\ (forall t, trend rows byMonth monthKeys = Some t ->
                trendKind t = MonthlyTrend)
  /\ (findings (trendInsights (trend rows byMonth monthKeys)) = []
      \/ exists growth lastLabel prevLabel lastRev prevRev,
           findings (trendInsights (trend rows byMonth monthKeys)) =
             [monthlyTrendFinding growth lastLabel prevLabel lastRev prevRev])
  /\ (exists others,
        findings (collectInsights rows) =
          findings (trendInsights (trend rows byMonth monthKeys)) ++ others).
Proof.
  intros byMonth monthKeys weekKeys.
  split; [apply monthKeys_nil_iff|]. split; [apply weekKeys_nil_iff|].
  split.
  { intros L. apply length_zero_nil in L. apply length_zero_nil.
    apply weekKeys_nil_iff. apply monthKeys_nil_iff. exact L. }
  rewrite <- and_assoc. split; [|apply collectInsights_trend_first].
  destruct (trend_cases rows) as [[E _] | (g & l & p & a & b & act & E & _)];
    fold byMonth monthKeys in E; rewrite E.
  - split; [discriminate|]. left. reflexivity.
  - split; [intros t [= <-]; reflexivity|].
    cbn [trendInsights trendFinding findings].
    destruct (String.eqb (monthlyTrendFinding g l p a b) "");
      [left; reflexivity | right; exists g, l, p, a, b; reflexivity].
Qed.

End TrendProperties.

(** C4 (what the code does). With exactly one month key the trend step
    yields nothing, however many week keys there are: the weekly branch is
    taken only with no month key at all.  Three sales in three weeks of
    January 2025 give one month key, three week keys, and no trend sentence
    among the findings. *)
Theorem one_month_and_several_weeks_give_no_trend :
  (forall (host : Host) (rows : list Row),
      List.length (sortStrings (JsMap.keys (aggregateByMonth rows))) = 1%nat ->
      trend rows (aggregateByMonth rows)
            (sortStrings (JsMap.keys (aggregateByMonth rows))) = None)
  /\ (forall host : Host,
        sortStrings (JsMap.keys (aggregateByMonth threeWeeksOfJanuary))
          = ["2025-01"]
        /\ sortStrings (JsMap.keys (aggregateByWeek threeWeeksOfJanuary))
           = ["2024-12-30"; "2025-01-06"; "2025-01-13"]
        /\ trend threeWeeksOfJanuary (aggregateByMonth threeWeeksOfJanuary)
                 (sortStrings (JsMap.keys (aggregateByMonth threeWeeksOfJanuary)))
           = None)
  /\ findings (generateInsights (host := exampleHost) (RowArray threeWeeksOfJanuary))
     = ["Top 3 products by revenue: A.";
        "Top 3 products by units sold: A.";
        "X is your top category ($30 revenue).";
        "100% of revenue comes from your top product; 100% from the top 3.";
        "A sells in many periods " ++ Str.emdash ++ " steady demand."]%string.
Proof.
  split; [|split].
  - intros host rows L. unfold trend. rewrite L. reflexivity.
  - intros host. repeat split; vm_compute; reflexivity.
  - vm_compute. reflexivity.
Qed.

(* ================================================================== *)
(** * Properties: generateInsights *)

Section InsightProperties.
Context {host : Host}.

Lemma groupByProduct_not_nil (rows : list Row) :
  rows <> [] -> groupByProduct rows <> [].
Proof.
  unfold groupByProduct. destruct rows as [|row rows]; [congruence|]. intros _.
  cbn [fold_left].
  match goal with
  | |- JsMap.values (fold_left ?f rows ?init) <> [] =>
      assert (G : forall acc, acc <> [] -> fold_left f rows acc <> [])
  end.
  { induction rows as [|r rows IH]; intros acc Hacc; cbn [fold_left];
      [exact Hacc|]. apply IH. apply smap_set_not_nil. }
  intros H. unfold JsMap.values in H. apply map_eq_nil in H.
  revert H. apply G. apply smap_set_not_nil.
Qed.


Lemma length_trend_findings (t : option Trend) :
  (List.length (findings (trendInsights t)) <= 1)%nat.
Proof.
  destruct t as [t|]; cbn; [|lia].
  destruct (String.eqb (trendFinding t) ""); cbn; lia.
Qed.



(** C9. For an array of at least 3 rows, each of the three lists of the
    result is what the steps pushed, deduplicated by string equality with
    the first occurrence kept in its place ([uniq]: reading from the left,
    an entry is kept unless it occurred before); after that the findings
    are cut to at most 6 entries and the actions to at most 5, and the
    warnings are not cut. *)
Theorem finalize_dedupes_and_caps (rows : list Row) :
  (MIN_ROWS_FOR_INSIGHTS <= List.length rows)%nat ->
  let raw := collectInsights rows in
  let out := generateInsights (RowArray rows) in
  (findings out = firstn 6 (uniq (findings raw))
   /\ actions out = firstn 5 (uniq (actions raw))
   /\ warnings out = uniq (warnings raw))
  /\ ((List.length (findings out) <= 6)%nat /\ (List.length (actions out) <= 5)%nat)
  /\ (NoDup (findings out) /\ NoDup (actions out) /\ NoDup (warnings out))
  /\ (forall w, In w (warnings out) <-> In w (warnings raw))
  /\ (forall f, In f (findings out) -> In f (findings raw))
  /\ (forall a, In a (actions out) -> In a (actions raw))
  /\ (uniq [] = []
      /\ forall (l : list string) (x : string),
           uniq (l ++ [x]) = if existsb (String.eqb x) l then uniq l
                             else uniq l ++ [x]).
Proof.
  intros Hlen raw out.
  assert (E : out = finalize raw).
  { unfold out, generateInsights.
    replace (List.length rows <? MIN_ROWS_FOR_INSIGHTS)%nat with false
      by (symmetry; apply Nat.ltb_ge; exact Hlen).
    reflexivity. }
  rewrite E. unfold finalize. cbn [findings actions warnings].
  split; [repeat split|]. split.
  { split; apply firstn_le_length. }
  split.
  { repeat split; try apply NoDup_firstn; apply uniq_NoDup. }
  split; [intros w; apply uniq_In|].
  split; [intros f Hf; apply in_firstn in Hf; exact (proj1 (uniq_In _ _) Hf)|].
  split; [intros a Ha; apply in_firstn in Ha; exact (proj1 (uniq_In _ _) Ha)|].
  split; [reflexivity | apply uniq_snoc].
Qed.

End InsightProperties.

(** The rows of that test pass the gate; their seven findings and six
    actions come out as six and five. *)
Lemma finalize_dedupes_and_caps_witness :
  (MIN_ROWS_FOR_INSIGHTS <= List.length twoMonths)%nat
  /\ (List.length (findings (generateInsights (host := exampleHost) (RowArray twoMonths))) <= 6)%nat
  /\ NoDup (findings (generateInsights (host := exampleHost) (RowArray twoMonths))).
Proof.
  assert (H : (MIN_ROWS_FOR_INSIGHTS <= List.length twoMonths)%nat)
    by (vm_compute; lia).
  pose proof (@finalize_dedupes_and_caps exampleHost twoMonths H) as T.
  split; [exact H|]. split.
  - exact (proj1 (proj1 (proj2 T))).
  - exact (proj1 (proj1 (proj2 (proj2 T)))).
Defined.

(** [new Date(0, 1, 29)] is a day of 1900, which has no 29 February: the
    leap day of year 0000 is rejected, while that of 2024 is accepted. *)
Lemma parseDate_year_zero :
  parseDate (VString "29-02-0000") = None
  /\ JsDate.isLeap 0 = true
  /\ (exists p, parseDate (VString "29-02-2024") = Some p /\ day p = 29).
Proof.
  split; [vm_compute; reflexivity|]. split; [reflexivity|].
  eexists. split; [vm_compute; reflexivity | reflexivity].
Qed.

(* ================================================================== *)
(** * The tests of insights.test.js, run on the model *)

Section RepositoryTests.

#[local] Existing Instance exampleHost.

Example test_parseDate_formats :
  (exists p, parseDate (VString "15-03-2025") = Some p
             /\ day p = 15 /\ month p = 3 /\ year p = 2025)
  /\ (exists p, parseDate (VString "2025-03-15") = Some p
                /\ day p = 15 /\ month p = 3 /\ year p = 2025)
  /\ parseDate (VString "") = None
  /\ parseDate (VString "not-a-date") = None
  /\ parseDate (VString "32-01-2025") = None.
Proof.
  repeat split; try (vm_compute; reflexivity);
    eexists; (split; [vm_compute; reflexivity | repeat split]).
Qed.

Example test_computeGrowth :
  computeGrowth 120 100 = {| pct := 20; direction := Up; text := "up 20%" |}
  /\ computeGrowth 80 100
     = {| pct := -20; direction := Down; text := "down 20%" |}
  /\ computeGrowth 100 100 = {| pct := 0; direction := Flat; text := "flat" |}
  /\ computeGrowth 10 0
     = {| pct := 100; direction := Up; text := "up from no prior sales" |}.
Proof. repeat split; vm_compute; reflexivity. Qed.

Example test_groupByProduct :
  groupByProduct [unitsAt "01-01-2025" "A" "X" 2 10;
                  unitsAt "02-01-2025" "A" "X" 3 10;
                  unitsAt "03-01-2025" "B" "Y" 1 50]
  = [{| ProductAgg.product := "A"; ProductAgg.revenue := 50;
        ProductAgg.quantity := 5; ProductAgg.category := "X" |};
     {| ProductAgg.product := "B"; ProductAgg.revenue := 50;
        ProductAgg.quantity := 1; ProductAgg.category := "Y" |}].
Proof. vm_compute. reflexivity. Qed.

Example test_detectAnomalies :
  In (spikeOf 200 (entry "Apr" 500))
     (detectAnomalies [entry "Jan" 100; entry "Feb" 100; entry "Mar" 100;
                       entry "Apr" 500])
  /\ detectAnomalies [entry "Jan" 100; entry "Feb" 100; entry "Mar" 10]
     = [dropOf 70 (entry "Mar" 10)].
Proof.
  split; [vm_compute; do 3 right; left; reflexivity | vm_compute; reflexivity].
Qed.

Example test_accessors :
  getQuantity (unitsAt "" "" "" 5 10) = 5%float
  /\ getRevenue (unitsAt "" "" "" 5 10) = 50%float
  /\ getQuantity {| date := VUndefined; product := VUndefined;
                    category := VUndefined; units := VUndefined;
                    quantity := VNumber 3; price := VNumber 20;
                    revenue := VUndefined |} = 3%float
  /\ getRevenue {| date := VUndefined; product := VUndefined;
                   category := VUndefined; units := VUndefined;
                   quantity := VNumber 3; price := VNumber 20;
                   revenue := VUndefined |} = 60%float
  /\ getRevenue {| date := VUndefined; product := VUndefined;
                   category := VUndefined; units := VNumber 1;
                   quantity := VUndefined; price := VNumber 10;
                   revenue := VNumber 100 |} = 100%float.
Proof. repeat split; vm_compute; reflexivity. Qed.

Example test_generateInsights_insufficient_data :
  generateInsights (RowArray []) = noInsights
  /\ findings (generateInsights
                 (RowArray [unitsAt "01-01-2025" "A" "X" 1 10;
                            unitsAt "02-01-2025" "B" "Y" 1 20])) = [].
Proof. split; reflexivity. Qed.

Example test_generateInsights_trend_down :
  nth 0 (findings (generateInsights (RowArray twoMonths))) ""
  = "Revenue is down 50% in February vs January ($100 vs $200).".
Proof. vm_compute. reflexivity. Qed.

Example test_generateInsights_top_product :
  In "Top 3 products by revenue: High, Mid, Low."
     (findings (generateInsights
                  (RowArray [sale "01-01-2025" "Low" "X" 1 1;
                             sale "02-01-2025" "High" "X" 100 50;
                             sale "03-01-2025" "Mid" "X" 10 10]))).
Proof. vm_compute. left. reflexivity. Qed.

Example test_generateInsights_concentration :
  In "Over 100% of revenue depends on 3 products. Consider diversifying to reduce risk."
     (warnings (generateInsights
                  (RowArray [sale "01-01-2025" "A" "X" 100 100;
                             sale "02-01-2025" "B" "X" 50 100;
                             sale "03-01-2025" "C" "X" 25 100;
                             sale "04-01-2025" "D" "X" 1 10;
                             sale "05-01-2025" "E" "X" 1 10]))).
Proof. vm_compute. left. reflexivity. Qed.

Example test_generateInsights_missing_date :
  In "1 row(s) have missing or invalid dates. Check your data."
     (warnings (generateInsights
                  (RowArray [sale "01-01-2025" "A" "X" 1 10;
                             sale "" "B" "X" 1 10;
                             sale "03-01-2025" "C" "X" 1 10]))).
Proof. vm_compute. left. reflexivity. Qed.

Example test_generateInsights_seasonality :
  findings (generateInsights (RowArray twentyDays))
  = ["Top 3 products by revenue: P.";
     "Top 3 products by units sold: P.";
     "X is your top category ($1,000 revenue).";
     "100% of revenue comes from your top product; 100% from the top 3.";
     ("P sells in many periods " ++ Str.emdash ++ " steady demand.")%string;
     "Your best day for sales is Wednesday."].
Proof. vm_compute. reflexivity. Qed.

End RepositoryTests.

(* ================================================================== *)
(** * More properties: the insertion-ordered map *)

Lemma smap_get_set_same {V} (k : string) (v : V) (m : JsMap.t string V) :
  smap_get k (smap_set k v m) = Some v.
Proof.
  unfold smap_get, smap_set.
  induction m as [|[k' v'] m IH]; cbn [JsMap.set JsMap.get].
  - rewrite String.eqb_refl. reflexivity.
  - destruct (String.eqb k k') eqn:E; cbn [JsMap.get]; rewrite E;
      [reflexivity | exact IH].
Qed.

Lemma smap_get_set_other {V} (k k' : string) (v : V) (m : JsMap.t string V) :
  k <> k' -> smap_get k' (smap_set k v m) = smap_get k' m.
Proof.
  intros Hne. unfold smap_get, smap_set.
  induction m as [|[k0 v0] m IH]; cbn [JsMap.set JsMap.get].
  - replace (String.eqb k' k) with false; [reflexivity|].
    symmetry. apply String.eqb_neq. congruence.
  - destruct (String.eqb k k0) eqn:E; cbn [JsMap.get].
    + apply String.eqb_eq in E. subst k0.
      replace (String.eqb k' k) with false; [reflexivity|].
      symmetry. apply String.eqb_neq. congruence.
    + rewrite IH. reflexivity.
Qed.

Lemma keys_smap_set {V} (k : string) (v : V) (m : JsMap.t string V) :
  JsMap.keys (smap_set k v m) = JsSet.add String.eqb k (JsMap.keys m).
Proof.
  unfold smap_set, JsMap.keys, JsSet.add, JsSet.has.
  induction m as [|[k' v'] m IH]; cbn [JsMap.set map existsb fst]; [reflexivity|].
  destruct (String.eqb k k') eqn:E; cbn [map fst orb]; [reflexivity|].
  rewrite IH. destruct (existsb (String.eqb k) (map fst m)); reflexivity.
Qed.

Lemma smap_get_of_entry {V} (k : string) (v : V) (m : JsMap.t string V) :
  NoDup (JsMap.keys m) -> In (k, v) m -> smap_get k m = Some v.
Proof.
  unfold smap_get, JsMap.keys.
  induction m as [|[k0 v0] m IH]; cbn [map fst JsMap.get In]; [intros _ []|].
  intros Hnd [E|Hin].
  - injection E as -> ->. rewrite String.eqb_refl. reflexivity.
  - inversion Hnd as [|? ? Hk0 Hm]; subst.
    destruct (String.eqb k k0) eqn:E.
    + apply String.eqb_eq in E. subst k0. exfalso. apply Hk0.
      apply (in_map fst) in Hin. exact Hin.
    + apply IH; assumption.
Qed.

Section GroupFoldProperties.
Variable V : Type.
Variable keyOf : Row -> option string.
Variable start : string -> Row -> V.
Variable step : V -> Row -> V.

Lemma keys_groupFold (rows : list Row) (init : JsMap.t string V) :
  JsMap.keys (groupFold keyOf start step rows init)
  = fold_left (fun s k => JsSet.add String.eqb k s) (keysOf keyOf rows)
              (JsMap.keys init).
Proof.
  unfold groupFold, keysOf. revert init.
  induction rows as [|row rows IH]; intros init; cbn [fold_left flat_map];
    [reflexivity|].
  rewrite fold_left_app, IH.
  destruct (keyOf row) as [k|]; cbn [fold_left]; [|reflexivity].
  rewrite keys_smap_set. reflexivity.
Qed.

Lemma get_groupFold (k : string) (rows : list Row) (init : JsMap.t string V) :
  smap_get k (groupFold keyOf start step rows init)
  = match rowsOf keyOf k rows with
    | [] => smap_get k init
    | first :: rest =>
        Some (fold_left step (first :: rest)
                        (match smap_get k init with
                         | Some c => c
                         | None => start k first
                         end))
    end.
Proof.
  unfold groupFold, rowsOf. revert init.
  induction rows as [|row rows IH]; intros init; cbn [fold_left filter];
    [reflexivity|].
  rewrite IH. clear IH.
  destruct (keyOf row) as [k'|] eqn:Ek; [|reflexivity].
  destruct (String.eqb k k') eqn:E.
  - apply String.eqb_eq in E. subst k'.
    rewrite smap_get_set_same. cbn [fold_left].
    destruct (filter _ rows); reflexivity.
  - assert (Hne : k' <> k) by (intros ->; rewrite String.eqb_refl in E; discriminate).
    rewrite (smap_get_set_other _ _ Hne). reflexivity.
Qed.

Lemma entries_groupFold (P : string -> V -> Prop) (rows : list Row)
  (init : JsMap.t string V) :
  (forall k row, P k (start k row)) ->
  (forall k v row, P k v -> P k (step v row)) ->
  Forall (fun e => P (fst e) (snd e)) init ->
  Forall (fun e => P (fst e) (snd e)) (groupFold keyOf start step rows init).
Proof.
  intros Hstart Hstep. unfold groupFold. revert init.
  induction rows as [|row rows IH]; intros init Hinit; cbn [fold_left];
    [exact Hinit|].
  apply IH. destruct (keyOf row) as [k|]; [|exact Hinit].
  assert (Hcur : P k (match smap_get k init with
                      | Some c => c
                      | None => start k row
                      end)).
  { destruct (smap_get k init) as [c|] eqn:G; [|apply Hstart].
    clear -G Hinit. unfold smap_get in G.
    induction Hinit as [|[k0 v0] m H0 Hm IHm]; cbn [JsMap.get] in G; [discriminate|].
    destruct (String.eqb k k0) eqn:E.
    - apply String.eqb_eq in E. injection G as <-. subst k0. exact H0.
    - apply IHm. exact G. }
  pose proof (Hstep _ _ row Hcur) as Hv. revert Hv.
  generalize (step (match smap_get k init with
                    | Some c => c
                    | None => start k row
                    end) row). intros v Hv.
  clear -Hinit Hv. unfold smap_set.
  induction Hinit as [|[k0 v0] m H0 Hm IHm]; cbn [JsMap.set].
  - constructor; [exact Hv | constructor].
  - destruct (String.eqb k k0) eqn:E.
    + apply String.eqb_eq in E. subst k0. constructor; [exact Hv | exact Hm].
    + constructor; [exact H0 | exact IHm].
Qed.

(** What the loop holds for a key of its map: the fold of the rows of that
    key, from the value made for its first row. *)
Lemma entry_groupFold (rows : list Row) (k : string) (v : V) :
  In (k, v) (groupFold keyOf start step rows []) ->
  exists first rest,
    rowsOf keyOf k rows = first :: rest
    /\ v = fold_left step (first :: rest) (start k first).
Proof.
  intros Hin.
  assert (Hnd : NoDup (JsMap.keys (groupFold keyOf start step rows []))).
  { rewrite keys_groupFold. apply NoDup_fold_add. constructor. }
  pose proof (smap_get_of_entry _ _ _ Hnd Hin) as G.
  rewrite get_groupFold in G.
  destruct (rowsOf keyOf k rows) as [|first rest]; [discriminate G|].
  injection G as <-. exists first, rest. split; reflexivity.
Qed.

End GroupFoldProperties.

(* ================================================================== *)
(** * More properties: aggregation *)

Section AggregationProperties.
Context {host : Host}.

Lemma aggregateBy_groupFold (key : ParsedDate -> string) (rows : list Row)
  (init : JsMap.t string Agg.t) :
  aggregateBy key rows init = groupFold (dateKey key) aggStart aggStep rows init.
Proof.
  unfold aggregateBy, groupFold, dateKey. revert init.
  induction rows as [|row rows IH]; intros init; cbn [fold_left]; [reflexivity|].
  rewrite IH. destruct (parseDate (date row)); reflexivity.
Qed.

Lemma groupByProduct_groupFold (rows : list Row) :
  groupByProduct rows
  = JsMap.values (groupFold (fun row => Some (productName row))
                            productStart productStep rows []).
Proof. reflexivity. Qed.

Lemma groupByCategory_groupFold (rows : list Row) :
  groupByCategory rows
  = JsMap.values (groupFold (fun row => Some (categoryName row))
                            categoryStart categoryStep rows []).
Proof. reflexivity. Qed.

Lemma fold_aggStep (rows : list Row) (a : Agg.t) :
  fold_left aggStep rows a
  = {| Agg.revenue := fold_left (fun s r => (s + getRevenue r)%float) rows
                                (Agg.revenue a);
       Agg.quantity := fold_left (fun s r => (s + getQuantity r)%float) rows
                                 (Agg.quantity a) |}.
Proof.
  revert a. induction rows as [|row rows IH]; intros a; cbn [fold_left].
  - destruct a; reflexivity.
  - rewrite IH. reflexivity.
Qed.

Lemma in_keysOf (keyOf : Row -> option string) (k : string) (rows : list Row) :
  In k (keysOf keyOf rows) <-> exists row, In row rows /\ keyOf row = Some k.
Proof.
  unfold keysOf. rewrite in_flat_map. split; intros (row & Hin & H); exists row;
    (split; [exact Hin|]).
  - destruct (keyOf row) as [k'|]; [|destruct H].
    destruct H as [->|[]]. reflexivity.
  - rewrite H. left. reflexivity.
Qed.

Lemma keys_aggregateBy (key : ParsedDate -> string) (rows : list Row) :
  JsMap.keys (aggregateBy key rows []) = uniq (keysOf (dateKey key) rows).
Proof. rewrite aggregateBy_groupFold, keys_groupFold. reflexivity. Qed.

Lemma in_keys_aggregateBy (key : ParsedDate -> string) (rows : list Row)
  (k : string) :
  In k (JsMap.keys (aggregateBy key rows [])) <->
  exists row parsed, In row rows /\ parseDate (date row) = Some parsed
                     /\ key parsed = k.
Proof.
  rewrite keys_aggregateBy, uniq_In, in_keysOf. unfold dateKey. split.
  - intros (row & Hin & H). destruct (parseDate (date row)) as [p|] eqn:E;
      [|discriminate]. injection H as <-. exists row, p. auto.
  - intros (row & p & Hin & E & <-). exists row. rewrite E. auto.
Qed.

Lemma get_aggregateBy (key : ParsedDate -> string) (rows : list Row)
  (k : string) :
  smap_get k (aggregateBy key rows [])
  = match rowsOf (dateKey key) k rows with
    | [] => None
    | rs => Some {| Agg.revenue := sumOf getRevenue rs;
                    Agg.quantity := sumOf getQuantity rs |}
    end.
Proof.
  rewrite aggregateBy_groupFold, get_groupFold.
  destruct (rowsOf (dateKey key) k rows) as [|first rest]; [reflexivity|].
  rewrite fold_aggStep. reflexivity.
Qed.

Lemma rowsOf_not_nil (key : ParsedDate -> string) (rows : list Row) (k : string) :
  In k (JsMap.keys (aggregateBy key rows [])) ->
  rowsOf (dateKey key) k rows <> [].
Proof.
  intros Hin E. apply in_keys_aggregateBy in Hin.
  destruct Hin as (row & p & Hrow & Hp & Hk).
  assert (Hf : In row (rowsOf (dateKey key) k rows)).
  { unfold rowsOf. apply filter_In. split; [exact Hrow|].
    unfold dateKey. rewrite Hp. cbn [option_map]. rewrite Hk.
    apply String.eqb_refl. }
  rewrite E in Hf. destruct Hf.
Qed.

Lemma revenueAt_aggregateBy (key : ParsedDate -> string) (rows : list Row)
  (k : string) :
  In k (JsMap.keys (aggregateBy key rows [])) ->
  revenueAt k (aggregateBy key rows [])
  = sumOf getRevenue (rowsOf (dateKey key) k rows).
Proof.
  intros Hin. unfold revenueAt. rewrite get_aggregateBy.
  pose proof (rowsOf_not_nil _ _ _ Hin) as Hne.
  destruct (rowsOf (dateKey key) k rows); [congruence | reflexivity].
Qed.

(** X1. The keys of the maps [aggregateByMonth] and [aggregateByWeek]
    return are the month keys and the week keys of the rows whose date
    parses, each once, in the order in which the rows first show them: a key
    is in the map exactly when some row parses to it, and a row whose date
    does not parse adds none. *)
Theorem aggregate_keys_are_first_seen (rows : list Row) :
  (JsMap.keys (aggregateByMonth rows) = uniq (keysOf (dateKey monthKey) rows)
   /\ JsMap.keys (aggregateByWeek rows) = uniq (keysOf (dateKey weekKey) rows))
  /\ (NoDup (JsMap.keys (aggregateByMonth rows))
      /\ NoDup (JsMap.keys (aggregateByWeek rows)))
  /\ (forall k, In k (JsMap.keys (aggregateByMonth rows)) <->
                exists row parsed, In row rows
                                   /\ parseDate (date row) = Some parsed
                                   /\ monthKey parsed = k)
  /\ (forall k, In k (JsMap.keys (aggregateByWeek rows)) <->
                exists row parsed, In row rows
                                   /\ parseDate (date row) = Some parsed
                                   /\ weekKey parsed = k).
Proof.
  change (aggregateByMonth rows) with (aggregateBy monthKey rows []).
  change (aggregateByWeek rows) with (aggregateBy weekKey rows []).
  rewrite !keys_aggregateBy. split; [split; reflexivity|].
  split; [split; apply uniq_NoDup|].
  rewrite <- !keys_aggregateBy. split; intros k; apply in_keys_aggregateBy.
Qed.

(** X2. The entry of a key in [aggregateByMonth] and [aggregateByWeek]
    holds the sums of [getRevenue] and of [getQuantity] over the rows of that
    key, added from 0 in the order of the rows; a key of no row has no
    entry. *)
Theorem aggregate_totals_are_sums_in_row_order (rows : list Row) (k : string) :
  smap_get k (aggregateByMonth rows)
  = match rowsOf (dateKey monthKey) k rows with
    | [] => None
    | rs => Some {| Agg.revenue := sumOf getRevenue rs;
                    Agg.quantity := sumOf getQuantity rs |}
    end
  /\ smap_get k (aggregateByWeek rows)
     = match rowsOf (dateKey weekKey) k rows with
       | [] => None
       | rs => Some {| Agg.revenue := sumOf getRevenue rs;
                       Agg.quantity := sumOf getQuantity rs |}
       end.
Proof. split; apply get_aggregateBy. Qed.

End AggregationProperties.

Lemma keysOf_total (name : Row -> string) (rows : list Row) :
  keysOf (fun row => Some (name row)) rows = map name rows.
Proof.
  unfold keysOf. induction rows as [|row rows IH]; cbn [flat_map map app];
    [reflexivity | rewrite IH; reflexivity].
Qed.

Section GroupingProperties.
Context {host : Host}.

Lemma productName_not_empty (row : Row) : productName row <> ""%string.
Proof.
  unfold productName.
  destruct (String.eqb _ "") eqn:E; [discriminate|].
  apply String.eqb_neq. exact E.
Qed.

Lemma categoryName_not_empty (row : Row) : categoryName row <> ""%string.
Proof.
  unfold categoryName.
  destruct (String.eqb _ "") eqn:E; [discriminate|].
  apply String.eqb_neq. exact E.
Qed.

Lemma fold_productStep (rows : list Row) (a : ProductAgg.t) :
  fold_left productStep rows a
  = {| ProductAgg.product := ProductAgg.product a;
       ProductAgg.revenue :=
         fold_left (fun s r => (s + getRevenue r)%float) rows (ProductAgg.revenue a);
       ProductAgg.quantity :=
         fold_left (fun s r => (s + getQuantity r)%float) rows (ProductAgg.quantity a);
       ProductAgg.category := ProductAgg.category a |}.
Proof.
  revert a. induction rows as [|row rows IH]; intros a; cbn [fold_left].
  - destruct a; reflexivity.
  - rewrite IH. reflexivity.
Qed.

Lemma fold_categoryStep (rows : list Row) (a : CategoryAgg.t) :
  fold_left categoryStep rows a
  = {| CategoryAgg.category := CategoryAgg.category a;
       CategoryAgg.revenue :=
         fold_left (fun s r => (s + getRevenue r)%float) rows (CategoryAgg.revenue a);
       CategoryAgg.quantity :=
         fold_left (fun s r => (s + getQuantity r)%float) rows (CategoryAgg.quantity a) |}.
Proof.
  revert a. induction rows as [|row rows IH]; intros a; cbn [fold_left].
  - destruct a; reflexivity.
  - rewrite IH. reflexivity.
Qed.

(** What the grouping loop holds for a key, when every row has a key. *)
Lemma groupFold_entry {V} (name : Row -> string) (start : string -> Row -> V)
  (step : V -> Row -> V) (rows : list Row) (k : string) (v : V) :
  In (k, v) (groupFold (fun row => Some (name row)) start step rows []) ->
  exists first rest,
    rowsOf (fun row => Some (name row)) k rows = first :: rest
    /\ v = fold_left step (first :: rest) (start k first).
Proof.
  intros Hin.
  assert (Hnd : NoDup (JsMap.keys (groupFold (fun row => Some (name row))
                                             start step rows []))).
  { rewrite keys_groupFold. apply NoDup_fold_add. constructor. }
  pose proof (smap_get_of_entry _ _ _ Hnd Hin) as G.
  rewrite get_groupFold in G.
  destruct (rowsOf (fun row => Some (name row)) k rows) as [|first rest];
    [discriminate G|].
  injection G as <-. exists first, rest. split; reflexivity.
Qed.

Lemma groupByProduct_products (rows : list Row) :
  map ProductAgg.product (groupByProduct rows) = uniq (map productName rows).
Proof.
  rewrite groupByProduct_groupFold.
  set (M := groupFold (fun row => Some (productName row)) productStart
                      productStep rows []).
  assert (Hinv : Forall (fun e => ProductAgg.product (snd e) = fst e) M).
  { apply entries_groupFold with (P := fun k v => ProductAgg.product v = k);
      [reflexivity | intros k v row H; exact H | constructor]. }
  assert (Hkeys : map ProductAgg.product (JsMap.values M) = JsMap.keys M).
  { unfold JsMap.values, JsMap.keys. rewrite map_map.
    clear -Hinv. induction Hinv as [|e m He Hm IH]; cbn [map];
      [reflexivity | rewrite He, IH; reflexivity]. }
  rewrite Hkeys. unfold M. rewrite keys_groupFold, keysOf_total. reflexivity.
Qed.

(** X3. [groupByProduct] returns one aggregate per distinct product name
    ([String(product ?? "").trim() || "Unknown"]), in the order of first
    appearance.  The name of an aggregate is never empty, its category is the
    normalised category of the first row of the product, and its revenue and
    quantity are the sums over the rows of the product. *)
Theorem groupByProduct_groups_by_trimmed_name (rows : list Row) :
  map ProductAgg.product (groupByProduct rows) = uniq (map productName rows)
  /\ NoDup (map ProductAgg.product (groupByProduct rows))
  /\ (forall a, In a (groupByProduct rows) ->
        ProductAgg.product a <> ""%string
        /\ exists first rest,
             rowsOfProduct (ProductAgg.product a) rows = first :: rest
             /\ ProductAgg.category a = normCat (category first)
             /\ ProductAgg.revenue a = sumOf getRevenue (first :: rest)
             /\ ProductAgg.quantity a = sumOf getQuantity (first :: rest)).
Proof.
  rewrite groupByProduct_groupFold.
  set (M := groupFold (fun row => Some (productName row)) productStart
                      productStep rows []).
  assert (Hinv : Forall (fun e => ProductAgg.product (snd e) = fst e) M).
  { apply entries_groupFold with (P := fun k v => ProductAgg.product v = k);
      [reflexivity | intros k v row H; exact H | constructor]. }
  assert (Hkeys : map ProductAgg.product (JsMap.values M) = JsMap.keys M).
  { unfold JsMap.values, JsMap.keys. rewrite map_map.
    clear -Hinv. induction Hinv as [|e m He Hm IH]; cbn [map];
      [reflexivity | rewrite He, IH; reflexivity]. }
  assert (Huniq : JsMap.keys M = uniq (map productName rows)).
  { unfold M. rewrite keys_groupFold, keysOf_total. reflexivity. }
  rewrite Hkeys, Huniq. split; [reflexivity|]. split; [apply uniq_NoDup|].
  intros a Ha. unfold JsMap.values in Ha. apply in_map_iff in Ha.
  destruct Ha as ([k v] & <- & Hin). cbn [snd].
  assert (Hk : ProductAgg.product v = k).
  { rewrite Forall_forall in Hinv. exact (Hinv _ Hin). }
  destruct (groupFold_entry _ _ _ _ _ _ Hin) as (first & rest & Hrows & ->).
  rewrite fold_productStep. cbn [ProductAgg.product ProductAgg.category
    ProductAgg.revenue ProductAgg.quantity productStart].
  rewrite fold_productStep in Hk. cbn [ProductAgg.product productStart] in Hk.
  split.
  - assert (Hfirst : In first (rowsOf (fun row => Some (productName row)) k rows))
      by (rewrite Hrows; left; reflexivity).
    unfold rowsOf in Hfirst. apply filter_In in Hfirst.
    destruct Hfirst as [_ E]. apply String.eqb_eq in E. rewrite E.
    apply productName_not_empty.
  - exists first, rest. unfold rowsOfProduct. repeat split. exact Hrows.
Qed.

(** X4. [groupByCategory] returns one aggregate per distinct category
    name ([normCat(category) || "Uncategorized"]), in the order of first
    appearance, never with an empty name, and with the sums of revenue and
    quantity over the rows of the category. *)
Theorem groupByCategory_groups_by_normalized_name (rows : list Row) :
  map CategoryAgg.category (groupByCategory rows) = uniq (map categoryName rows)
  /\ NoDup (map CategoryAgg.category (groupByCategory rows))
  /\ (forall a, In a (groupByCategory rows) ->
        CategoryAgg.category a <> ""%string
        /\ exists first rest,
             rowsOfCategory (CategoryAgg.category a) rows = first :: rest
             /\ CategoryAgg.revenue a = sumOf getRevenue (first :: rest)
             /\ CategoryAgg.quantity a = sumOf getQuantity (first :: rest)).
Proof.
  rewrite groupByCategory_groupFold.
  set (M := groupFold (fun row => Some (categoryName row)) categoryStart
                      categoryStep rows []).
  assert (Hinv : Forall (fun e => CategoryAgg.category (snd e) = fst e) M).
  { apply entries_groupFold with (P := fun k v => CategoryAgg.category v = k);
      [reflexivity | intros k v row H; exact H | constructor]. }
  assert (Hkeys : map CategoryAgg.category (JsMap.values M) = JsMap.keys M).
  { unfold JsMap.values, JsMap.keys. rewrite map_map.
    clear -Hinv. induction Hinv as [|e m He Hm IH]; cbn [map];
      [reflexivity | rewrite He, IH; reflexivity]. }
  assert (Huniq : JsMap.keys M = uniq (map categoryName rows)).
  { unfold M. rewrite keys_groupFold, keysOf_total. reflexivity. }
  rewrite Hkeys, Huniq. split; [reflexivity|]. split; [apply uniq_NoDup|].
  intros a Ha. unfold JsMap.values in Ha. apply in_map_iff in Ha.
  destruct Ha as ([k v] & <- & Hin). cbn [snd].
  assert (Hk : CategoryAgg.category v = k).
  { rewrite Forall_forall in Hinv. exact (Hinv _ Hin). }
  destruct (groupFold_entry _ _ _ _ _ _ Hin) as (first & rest & Hrows & ->).
  rewrite fold_categoryStep. cbn [CategoryAgg.category CategoryAgg.revenue
    CategoryAgg.quantity categoryStart].
  split.
  - assert (Hfirst : In first (rowsOf (fun row => Some (categoryName row)) k rows))
      by (rewrite Hrows; left; reflexivity).
    unfold rowsOf in Hfirst. apply filter_In in Hfirst.
    destruct Hfirst as [_ E]. apply String.eqb_eq in E. rewrite E.
    apply categoryName_not_empty.
  - exists first, rest. unfold rowsOfCategory. repeat split. exact Hrows.
Qed.

End GroupingProperties.

(* ================================================================== *)
(** * More properties: sorting *)

Lemma insert_Permutation {A} (after : A -> A -> bool) (x : A) (l : list A) :
  Permutation (JsArray.insert after x l) (x :: l).
Proof.
  induction l as [|y l IH]; cbn [JsArray.insert]; [apply Permutation_refl|].
  destruct (after y x); [apply Permutation_refl|].
  apply perm_trans with (y :: x :: l); [apply perm_skip, IH | apply perm_swap].
Qed.

Lemma sort_Permutation {A} (after : A -> A -> bool) (l : list A) :
  Permutation (JsArray.sort after l) l.
Proof.
  unfold JsArray.sort.
  assert (G : forall acc,
             Permutation (fold_left (fun acc x => JsArray.insert after x acc) l acc)
                         (acc ++ l)).
  { induction l as [|x l IH]; intros acc; cbn [fold_left].
    - rewrite app_nil_r. apply Permutation_refl.
    - apply perm_trans with (JsArray.insert after x acc ++ l); [apply IH|].
      apply perm_trans with ((x :: acc) ++ l).
      + apply Permutation_app_tail, insert_Permutation.
      + cbn [app]. apply Permutation_middle. }
  apply (G []).
Qed.

Lemma ascii_compare_trans (a b c : ascii) :
  Ascii.compare a b = Lt -> Ascii.compare b c = Lt -> Ascii.compare a c = Lt.
Proof.
  unfold Ascii.compare. rewrite !N.compare_lt_iff. apply N.lt_trans.
Qed.

Lemma string_compare_refl (a : string) : String.compare a a = Eq.
Proof.
  induction a as [|c a IH]; cbn [String.compare]; [reflexivity|].
  replace (Ascii.compare c c) with Eq; [exact IH|].
  symmetry. unfold Ascii.compare. apply N.compare_refl.
Qed.

Lemma string_compare_lt_trans (a b c : string) :
  String.compare a b = Lt -> String.compare b c = Lt -> String.compare a c = Lt.
Proof.
  revert b c. induction a as [|x a IH]; intros [|y b] [|z c];
    cbn [String.compare]; try discriminate; try reflexivity.
  destruct (Ascii.compare x y) eqn:Exy; try discriminate.
  - apply Ascii.compare_eq_iff in Exy. subst y.
    destruct (Ascii.compare x z); try discriminate; [apply IH | reflexivity].
  - intros _. destruct (Ascii.compare y z) eqn:Eyz; try discriminate.
    + apply Ascii.compare_eq_iff in Eyz. subst z. rewrite Exy. reflexivity.
    + rewrite (ascii_compare_trans _ _ _ Exy Eyz). reflexivity.
Qed.

Lemma strLe_trans (a b c : string) : strLe a b -> strLe b c -> strLe a c.
Proof.
  unfold strLe. intros Hab Hbc.
  destruct (String.compare a b) eqn:Eab; [| |congruence].
  - apply String.compare_eq_iff in Eab. subst b. exact Hbc.
  - destruct (String.compare b c) eqn:Ebc; [| |congruence].
    + apply String.compare_eq_iff in Ebc. subst c. rewrite Eab. discriminate.
    + rewrite (string_compare_lt_trans _ _ _ Eab Ebc). discriminate.
Qed.

Lemma ltb_strLe (a b : string) : Str.ltb a b = true -> strLe a b.
Proof.
  unfold Str.ltb, String.ltb, strLe.
  destruct (String.compare a b); cbn; intros H; try discriminate H; intros C; discriminate C.
Qed.

Lemma not_ltb_strLe (a b : string) : Str.ltb a b = false -> strLe b a.
Proof.
  unfold Str.ltb, String.ltb, strLe. rewrite (String.compare_antisym b a).
  destruct (String.compare a b); cbn; intros H; try discriminate H; intros C; discriminate C.
Qed.

Lemma insert_sorted (x : string) (l : list string) :
  StronglySorted strLe l ->
  StronglySorted strLe (JsArray.insert (fun y x => Str.ltb x y) x l).
Proof.
  induction 1 as [|y l Hs IH Hy]; cbn [JsArray.insert].
  - constructor; [constructor | constructor].
  - destruct (Str.ltb x y) eqn:E.
    + apply ltb_strLe in E. constructor.
      * constructor; assumption.
      * constructor; [exact E|].
        rewrite Forall_forall in *. intros z Hz.
        apply strLe_trans with y; [exact E | apply Hy, Hz].
    + apply not_ltb_strLe in E. constructor; [exact IH|].
      rewrite Forall_forall in *. intros z Hz.
      apply (Permutation_in _ (insert_Permutation _ x l)) in Hz.
      destruct Hz as [<-|Hz]; [exact E | apply Hy, Hz].
Qed.

Lemma sortStrings_sorted (l : list string) : StronglySorted strLe (sortStrings l).
Proof.
  unfold sortStrings, JsArray.sort.
  assert (G : forall acc, StronglySorted strLe acc ->
                          StronglySorted strLe
                            (fold_left (fun acc x =>
                               JsArray.insert (fun y x => Str.ltb x y) x acc) l acc)).
  { induction l as [|x l IH]; intros acc Hacc; cbn [fold_left]; [exact Hacc|].
    apply IH, insert_sorted, Hacc. }
  apply G. constructor.
Qed.

Lemma sortStrings_Permutation (l : list string) : Permutation (sortStrings l) l.
Proof. apply sort_Permutation. Qed.

(** The last entry of a sorted array is not below any other. *)
Lemma sorted_last_greatest (l : list string) (k : string) :
  StronglySorted strLe l -> In k l -> strLe k (JsArray.fromEnd l 1).
Proof.
  unfold JsArray.fromEnd. intros Hs. revert k.
  induction Hs as [|y l Hs IH Hy]; intros k Hk; [destruct Hk|].
  cbn [List.length]. replace (S (List.length l) - 1)%nat with (List.length l) by lia.
  destruct l as [|z l].
  - cbn. destruct Hk as [<-|[]]. unfold strLe. rewrite string_compare_refl.
    discriminate.
  - cbn [List.length nth] in *.
    replace (S (List.length l) - 1)%nat with (List.length l) in IH by lia.
    destruct Hk as [<-|Hk]; [|apply IH, Hk].
    apply strLe_trans with z.
    + rewrite Forall_forall in Hy. apply Hy. left. reflexivity.
    + apply IH. left. reflexivity.
Qed.

(* ================================================================== *)
(** * More properties: the order of the month keys *)

(** A check of every integer from [lo] to [lo + len - 1]. *)
Lemma forallb_range (f : Z -> bool) (lo len : Z) :
  forallb f (map (fun i => lo + Z.of_nat i) (seq 0 (Z.to_nat len))) = true ->
  forall n, lo <= n < lo + len -> f n = true.
Proof.
  intros H n Hn. rewrite forallb_forall in H. apply H.
  apply in_map_iff. exists (Z.to_nat (n - lo)). split; [lia|].
  apply in_seq. lia.
Qed.

(** The text of an integer, digit by digit. *)
Lemma string_of_digitD (i : Z) (u : Decimal.uint) :
  0 <= i <= 9 ->
  NilEmpty.string_of_uint (digitD i u)
  = String (digitChar i) (NilEmpty.string_of_uint u).
Proof. intros Hi. digit_cases i; reflexivity. Qed.

Lemma of_uint_acc_digitD (i : Z) (u : Decimal.uint) (acc : positive) :
  0 <= i <= 9 ->
  Pos.of_uint_acc (digitD i u) acc
  = Pos.of_uint_acc u (Z.to_pos (i + 10 * Z.pos acc)).
Proof.
  intros Hi. digit_cases i; cbn [digitD Pos.of_uint_acc]; f_equal;
    apply Pos2Z.inj; rewrite Z2Pos.id by lia; lia.
Qed.

Lemma to_int_four_digits (a b c d : Z) :
  1 <= a <= 9 -> 0 <= b <= 9 -> 0 <= c <= 9 -> 0 <= d <= 9 ->
  Z.to_int (1000 * a + 100 * b + 10 * c + d)
  = Decimal.Pos (digitD a (digitD b (digitD c (digitD d Decimal.Nil)))).
Proof.
  intros Ha Hb Hc Hd.
  set (u := digitD a (digitD b (digitD c (digitD d Decimal.Nil)))).
  assert (E : Z.of_int (Decimal.Pos u) = 1000 * a + 100 * b + 10 * c + d).
  { unfold Z.of_int, Z.of_uint, u.
    assert (Ea : Pos.of_uint (digitD a (digitD b (digitD c (digitD d Decimal.Nil))))
                 = N.pos (Pos.of_uint_acc (digitD b (digitD c (digitD d Decimal.Nil)))
                                          (Z.to_pos a))).
    { assert (C : a = 1 \/ a = 2 \/ a = 3 \/ a = 4 \/ a = 5 \/ a = 6 \/ a = 7
                  \/ a = 8 \/ a = 9) by lia.
      repeat (destruct C as [-> | C]); try subst a; reflexivity. }
    rewrite Ea, !of_uint_acc_digitD by assumption.
    cbn [Pos.of_uint_acc Z.of_N].
    rewrite !Z2Pos.id by lia. lia. }
  rewrite <- E, DecimalZ.to_of. unfold Decimal.norm. f_equal.
  assert (C : a = 1 \/ a = 2 \/ a = 3 \/ a = 4 \/ a = 5 \/ a = 6 \/ a = 7
              \/ a = 8 \/ a = 9) by lia.
  unfold u. repeat (destruct C as [-> | C]); try subst a; reflexivity.
Qed.

Lemma of_Z_fourDigits (n : Z) : 1000 <= n <= 9999 -> Str.of_Z n = fourDigits n.
Proof.
  intros Hn.
  assert (Ha : 1 <= n / 1000 <= 9) by (Z.div_mod_to_equations; lia).
  destruct (@digit_quot_bounds4 n ltac:(lia)) as (_ & Hb & Hc & Hd).
  assert (E : n = 1000 * (n / 1000) + 100 * (n / 100 mod 10)
                  + 10 * (n / 10 mod 10) + n mod 10)
    by (Z.div_mod_to_equations; lia).
  unfold Str.of_Z. rewrite E at 1.
  rewrite (to_int_four_digits Ha Hb Hc Hd).
  unfold NilZero.string_of_int.
  assert (Z : forall a u, 0 <= a <= 9 ->
                NilZero.string_of_uint (digitD a u)
                = NilEmpty.string_of_uint (digitD a u)).
  { intros a u Hi. digit_cases a; reflexivity. }
  rewrite Z by lia. rewrite !string_of_digitD by lia. reflexivity.
Qed.

Lemma pad2_twoDigits (n : Z) :
  0 <= n <= 99 -> Str.padStart0 2 (Str.of_Z n) = twoDigits n.
Proof.
  intros Hn. apply String.eqb_eq.
  apply (@forallb_range
           (fun n => String.eqb (Str.padStart0 2 (Str.of_Z n)) (twoDigits n)) 0 100);
    [vm_compute; reflexivity | lia].
Qed.

Lemma ascii_compare_digitChar (i j : Z) :
  0 <= i <= 9 -> 0 <= j <= 9 ->
  Ascii.compare (digitChar i) (digitChar j) = Z.compare i j.
Proof. intros Hi Hj. digit_cases i; digit_cases j; reflexivity. Qed.

Lemma compare_monthKey_digits (a b c d e f a' b' c' d' e' f' : Z) :
  0 <= a <= 9 -> 0 <= b <= 9 -> 0 <= c <= 9 -> 0 <= d <= 9 -> 0 <= e <= 9 ->
  0 <= f <= 9 -> 0 <= a' <= 9 -> 0 <= b' <= 9 -> 0 <= c' <= 9 -> 0 <= d' <= 9 ->
  0 <= e' <= 9 -> 0 <= f' <= 9 ->
  String.compare
    (String (digitChar a) (String (digitChar b) (String (digitChar c)
       (String (digitChar d) (String "-" (String (digitChar e)
          (String (digitChar f) "")))))))
    (String (digitChar a') (String (digitChar b') (String (digitChar c')
       (String (digitChar d') (String "-" (String (digitChar e')
          (String (digitChar f') "")))))))
  = Z.compare (100000 * a + 10000 * b + 1000 * c + 100 * d + 10 * e + f)
              (100000 * a' + 10000 * b' + 1000 * c' + 100 * d' + 10 * e' + f').
Proof.
  intros. cbn [String.compare].
  rewrite !ascii_compare_digitChar by assumption.
  change (Ascii.compare "-" "-") with Eq.
  symmetry.
  destruct (Z.compare_spec a a') as [Ea|Ea|Ea];
    [subst a'|apply Z.compare_lt_iff; lia|apply Z.compare_gt_iff; lia].
  destruct (Z.compare_spec b b') as [Eb|Eb|Eb];
    [subst b'|apply Z.compare_lt_iff; lia|apply Z.compare_gt_iff; lia].
  destruct (Z.compare_spec c c') as [Ec|Ec|Ec];
    [subst c'|apply Z.compare_lt_iff; lia|apply Z.compare_gt_iff; lia].
  destruct (Z.compare_spec d d') as [Ed|Ed|Ed];
    [subst d'|apply Z.compare_lt_iff; lia|apply Z.compare_gt_iff; lia].
  destruct (Z.compare_spec e e') as [Ee|Ee|Ee];
    [subst e'|apply Z.compare_lt_iff; lia|apply Z.compare_gt_iff; lia].
  destruct (Z.compare_spec f f') as [Ef|Ef|Ef];
    [subst f'; apply Z.compare_refl|apply Z.compare_lt_iff; lia|apply Z.compare_gt_iff; lia].
Qed.

Lemma monthKey_digits (p : ParsedDate) :
  1000 <= year p <= 9999 -> 1 <= month p <= 12 ->
  monthKey p = (fourDigits (year p) ++ "-" ++ twoDigits (month p))%string.
Proof.
  intros Hy Hm. unfold monthKey.
  rewrite of_Z_fourDigits by lia. rewrite pad2_twoDigits by lia. reflexivity.
Qed.

Lemma compare_monthKey (p q : ParsedDate) :
  1000 <= year p <= 9999 -> 1 <= month p <= 12 ->
  1000 <= year q <= 9999 -> 1 <= month q <= 12 ->
  String.compare (monthKey p) (monthKey q)
  = Z.compare (100 * year p + month p) (100 * year q + month q).
Proof.
  intros Hy Hm Hy' Hm'. rewrite !monthKey_digits by assumption.
  unfold fourDigits, twoDigits. cbn [append].
  rewrite compare_monthKey_digits by (Z.div_mod_to_equations; lia).
  f_equal; Z.div_mod_to_equations; lia.
Qed.

(** X5. For dates of year 1000 or later the default [sort()] of the month
    keys is the order of time: the key of one date sorts before the key of
    another exactly when its month is earlier, and two dates have the same
    key exactly when they are in the same month of the same year. *)
Theorem month_keys_sort_chronologically (v w : value) (p q : ParsedDate) :
  parseDate v = Some p -> parseDate w = Some q ->
  1000 <= year p -> 1000 <= year q ->
  (Str.ltb (monthKey p) (monthKey q) = true
   <-> year p < year q \/ (year p = year q /\ month p < month q))
  /\ (monthKey p = monthKey q <-> year p = year q /\ month p = month q).
Proof.
  intros Hp Hq Yp Yq.
  destruct (parseDate_inv _ Hp) as (s & y & m & d & _ & [(Hy & _) _] & (Hm & _) & ->).
  destruct (parseDate_inv _ Hq) as (s' & y' & m' & d' & _ & [(Hy' & _) _] & (Hm' & _) & ->).
  cbn [parsed year month] in *.
  assert (C : String.compare (monthKey (parsed y m d)) (monthKey (parsed y' m' d'))
              = Z.compare (100 * y + m) (100 * y' + m')).
  { apply compare_monthKey; cbn [parsed year month]; lia. }
  split.
  - unfold Str.ltb, String.ltb. rewrite C.
    destruct (Z.compare_spec (100 * y + m) (100 * y' + m')) as [E|E|E];
      split; intros H; try discriminate H; try reflexivity; lia.
  - split.
    + intros E. rewrite E, string_compare_refl in C.
      symmetry in C. apply Z.compare_eq in C. lia.
    + intros [-> ->]. reflexivity.
Qed.

Lemma month_keys_sort_chronologically_witness :
  (Str.ltb (monthKey (parsed 2024 12 31)) (monthKey (parsed 2025 1 1)) = true
   <-> 2024 < 2025 \/ (2024 = 2025 /\ 12 < 1)).
Proof.
  exact (proj1 (@month_keys_sort_chronologically
                  (VString "31-12-2024") (VString "2025-01-01")
                  (parsed 2024 12 31) (parsed 2025 1 1)
                  eq_refl eq_refl ltac:(vm_compute; discriminate)
                  ltac:(vm_compute; discriminate))).
Defined.

(** Below year 1000 the keys have fewer digits and sort out of order. *)
Lemma month_keys_of_short_years_sort_out_of_order :
  (exists p, parseDate (VString "31-12-0999") = Some p /\ monthKey p = "999-12")
  /\ (exists q, parseDate (VString "01-01-1000") = Some q /\ monthKey q = "1000-01")
  /\ sortStrings ["999-12"; "1000-01"] = ["1000-01"; "999-12"].
Proof.
  repeat split; try (eexists; split; vm_compute; reflexivity).
Qed.

(* ================================================================== *)
(** * More properties: the monthly trend *)

Lemma StronglySorted_prefix {A} (R : A -> A -> Prop) (l1 l2 : list A) :
  StronglySorted R (l1 ++ l2) -> StronglySorted R l1.
Proof.
  induction l1 as [|x l1 IH]; cbn [app]; intros H; [constructor|].
  inversion H as [|? ? Hs Hx]; subst. constructor; [apply IH, Hs|].
  rewrite Forall_forall in *. intros y Hy. apply Hx. apply in_or_app. left. exact Hy.
Qed.

Lemma last_two {A} (l : list A) :
  (2 <= List.length l)%nat -> exists l' a b, l = l' ++ [a; b].
Proof.
  intros H. destruct (exists_last (l := l)) as (l1 & b & ->).
  { intros ->. cbn in H. lia. }
  rewrite length_app in H. cbn in H.
  destruct (exists_last (l := l1)) as (l' & a & ->).
  { intros ->. cbn in H. lia. }
  exists l', a, b. rewrite <- app_assoc. reflexivity.
Qed.

Lemma fromEnd_last_two (l' : list string) (a b : string) :
  JsArray.fromEnd (l' ++ [a; b]) 1 = b /\ JsArray.fromEnd (l' ++ [a; b]) 2 = a.
Proof.
  unfold JsArray.fromEnd. rewrite length_app. cbn [List.length]. split.
  - rewrite app_nth2 by lia.
    replace (List.length l' + 2 - 1 - List.length l')%nat with 1%nat by lia.
    reflexivity.
  - rewrite app_nth2 by lia.
    replace (List.length l' + 2 - 2 - List.length l')%nat with 0%nat by lia.
    reflexivity.
Qed.

Lemma uniq_head (x : string) (l : list string) :
  exists rest, uniq (x :: l) = x :: rest.
Proof.
  unfold uniq, JsSet.of_list. cbn [fold_left].
  change (JsSet.add String.eqb x []) with [x].
  destruct (fold_add_extends l [x]) as [rest ->]. exists rest. reflexivity.
Qed.


Lemma fromEnd_snoc (l : list string) (a : string) : JsArray.fromEnd (l ++ [a]) 1 = a.
Proof.
  unfold JsArray.fromEnd. rewrite length_app. cbn [List.length].
  rewrite app_nth2 by lia.
  replace (List.length l + 1 - 1 - List.length l)%nat with 0%nat by lia.
  reflexivity.
Qed.

Lemma strLe_not_ltb (a b : string) : strLe a b -> Str.ltb b a = false.
Proof.
  unfold Str.ltb, String.ltb, strLe. rewrite (String.compare_antisym a b).
  destruct (String.compare b a); cbn; intros H; try reflexivity.
  exfalso. apply H. reflexivity.
Qed.

Section MonthlyTrend.
Context {host : Host}.

Lemma monthlyTrendFinding_not_empty (growth : GrowthResult)
  (lastLabel prevLabel : string) (lastRev prevRev : float) :
  String.eqb (monthlyTrendFinding growth lastLabel prevLabel lastRev prevRev) ""
  = false.
Proof. reflexivity. Qed.

(** The two keys the monthly comparisons read, [monthKeys[length - 1]] and
    [monthKeys[length - 2]]. *)
Lemma last_two_month_keys (rows : list Row) :
  let keys := JsMap.keys (aggregateByMonth rows) in
  let monthKeys := sortStrings keys in
  (2 <= List.length monthKeys)%nat ->
  let lastKey := JsArray.fromEnd monthKeys 1 in
  let prevKey := JsArray.fromEnd monthKeys 2 in
  lastKey <> prevKey
  /\ In lastKey keys /\ In prevKey keys
  /\ (forall k, In k keys -> Str.ltb lastKey k = false)
  /\ (forall k, In k keys -> k <> lastKey -> Str.ltb prevKey k = false).
Proof.
  intros keys monthKeys Hlen lastKey prevKey.
  pose proof (sortStrings_sorted keys) as Hs.
  pose proof (sortStrings_Permutation keys) as Hp.
  assert (Hnd : NoDup monthKeys).
  { apply (Permutation_NoDup (Permutation_sym Hp)).
    unfold keys. change (aggregateByMonth rows) with (aggregateBy monthKey rows []).
    rewrite keys_aggregateBy. apply uniq_NoDup. }
  destruct (last_two monthKeys Hlen) as (l' & a & b & E).
  destruct (fromEnd_last_two l' a b) as [E1 E2].
  unfold lastKey, prevKey. fold monthKeys in Hs, Hp. rewrite E in *.
  rewrite E1, E2. clear E1 E2.
  assert (Hab : b <> a).
  { intros ->. apply NoDup_remove_2 in Hnd. apply Hnd.
    apply in_or_app. right. left. reflexivity. }
  split; [exact Hab|].
  split; [apply (Permutation_in _ Hp); apply in_or_app; right; right; left; reflexivity|].
  split; [apply (Permutation_in _ Hp); apply in_or_app; right; left; reflexivity|].
  split.
  - intros k Hk. apply strLe_not_ltb.
    apply (Permutation_in _ (Permutation_sym Hp)) in Hk.
    pose proof (@sorted_last_greatest _ _ Hs Hk) as G.
    rewrite (proj1 (fromEnd_last_two l' a b)) in G. exact G.
  - intros k Hk Hkb. apply strLe_not_ltb.
    apply (Permutation_in _ (Permutation_sym Hp)) in Hk.
    change (l' ++ [a; b]) with (l' ++ [a] ++ [b]) in Hs, Hk.
    rewrite app_assoc in Hs, Hk.
    apply StronglySorted_prefix in Hs.
    apply in_app_or in Hk. destruct Hk as [Hk|[<-|[]]]; [|congruence].
    pose proof (@sorted_last_greatest _ _ Hs Hk) as G.
    rewrite fromEnd_snoc in G. exact G.
Qed.

(** X6. With at least two month keys the trend step compares
    [monthKeys[length - 1]] with [monthKeys[length - 2]]: two different keys
    of the rows, the first one not sorting before any key and the second one
    not sorting before any other key.  The revenues it compares are the sums
    of [getRevenue] over the rows of each of the two months, the action is
    chosen by the direction of the growth, and for an array of at least 3
    rows the monthly trend sentence is the first finding of the result. *)
Theorem monthly_trend_compares_the_two_last_month_keys (rows : list Row) :
  let byMonth := aggregateByMonth rows in
  let monthKeys := sortStrings (JsMap.keys byMonth) in
  (2 <= List.length monthKeys)%nat ->
  exists lastKey prevKey,
    let lastRev := sumOf getRevenue (rowsOf (dateKey monthKey) lastKey rows) in
    let prevRev := sumOf getRevenue (rowsOf (dateKey monthKey) prevKey rows) in
    let growth := computeGrowth lastRev prevRev in
    let sentence := monthlyTrendFinding growth (monthLabel lastKey)
                                        (monthLabel prevKey) lastRev prevRev in
    (lastKey <> prevKey
     /\ In lastKey (JsMap.keys byMonth) /\ In prevKey (JsMap.keys byMonth)
     /\ (forall k, In k (JsMap.keys byMonth) -> Str.ltb lastKey k = false)
     /\ (forall k, In k (JsMap.keys byMonth) -> k <> lastKey ->
                   Str.ltb prevKey k = false))
    /\ trend rows byMonth monthKeys
       = Some {| trendKind := MonthlyTrend;
                 trendFinding := sentence;
                 trendAction :=
                   match direction growth with
                   | Up => Some "Keep stock levels healthy for your best sellers."%string
                   | Down => Some "Focus on promoting your top 3 products or run a small promotion."%string
                   | Flat => None
                   end |}
    /\ ((MIN_ROWS_FOR_INSIGHTS <= List.length rows)%nat ->
        exists rest, findings (generateInsights (RowArray rows)) = sentence :: rest).
Proof.
  intros byMonth monthKeys Hlen.
  destruct (last_two_month_keys rows Hlen) as (Hne & Hl & Hp & Hmax & Hmax2).
  fold byMonth monthKeys in Hne, Hl, Hp, Hmax, Hmax2.
  exists (JsArray.fromEnd monthKeys 1), (JsArray.fromEnd monthKeys 2).
  cbv zeta.
  assert (T : trend rows byMonth monthKeys
       = Some {| trendKind := MonthlyTrend;
                 trendFinding :=
                   monthlyTrendFinding
                     (computeGrowth
                        (sumOf getRevenue (rowsOf (dateKey monthKey) (JsArray.fromEnd monthKeys 1) rows))
                        (sumOf getRevenue (rowsOf (dateKey monthKey) (JsArray.fromEnd monthKeys 2) rows)))
                     (monthLabel (JsArray.fromEnd monthKeys 1))
                     (monthLabel (JsArray.fromEnd monthKeys 2))
                     (sumOf getRevenue (rowsOf (dateKey monthKey) (JsArray.fromEnd monthKeys 1) rows))
                     (sumOf getRevenue (rowsOf (dateKey monthKey) (JsArray.fromEnd monthKeys 2) rows));
                 trendAction :=
                   match direction
                           (computeGrowth
                              (sumOf getRevenue (rowsOf (dateKey monthKey) (JsArray.fromEnd monthKeys 1) rows))
                              (sumOf getRevenue (rowsOf (dateKey monthKey) (JsArray.fromEnd monthKeys 2) rows))) with
                   | Up => Some "Keep stock levels healthy for your best sellers."%string
                   | Down => Some "Focus on promoting your top 3 products or run a small promotion."%string
                   | Flat => None
                   end |}).
  { unfold trend.
    replace (List.length monthKeys <? 2)%nat with false
      by (symmetry; apply Nat.ltb_ge; exact Hlen).
    replace (2 <=? List.length monthKeys)%nat with true
      by (symmetry; apply Nat.leb_le; exact Hlen).
    cbn [andb]. cbv zeta.
    unfold byMonth at 1 2 3 4 5 6.
    change (aggregateByMonth rows) with (aggregateBy monthKey rows []) at 1 2 3 4 5 6.
    rewrite !revenueAt_aggregateBy by assumption.
    reflexivity. }
  split; [repeat split; assumption|]. split; [exact T|].
  intros Hgate. unfold generateInsights.
  replace (List.length rows <? MIN_ROWS_FOR_INSIGHTS)%nat with false
    by (symmetry; apply Nat.ltb_ge; exact Hgate).
  unfold finalize. cbn [findings].
  destruct (collectInsights_trend_first rows) as [others E].
  fold byMonth monthKeys in E. rewrite E, T.
  cbn [trendInsights trendFinding findings].
  rewrite monthlyTrendFinding_not_empty. cbn [app].
  match goal with |- context [uniq (?x :: ?l)] => destruct (uniq_head x l) as [rest ->] end.
  cbn [firstn]. eexists. reflexivity.
Qed.

End MonthlyTrend.

Section MonthlyTrendExample.
#[local] Existing Instance exampleHost.

Lemma monthly_trend_compares_the_two_last_month_keys_witness :
  exists lastKey prevKey : string,
    lastKey <> prevKey
    /\ exists rest,
         findings (generateInsights (RowArray twoMonths))
         = monthlyTrendFinding
             (computeGrowth
                (sumOf getRevenue (rowsOf (dateKey monthKey) lastKey twoMonths))
                (sumOf getRevenue (rowsOf (dateKey monthKey) prevKey twoMonths)))
             (monthLabel lastKey) (monthLabel prevKey)
             (sumOf getRevenue (rowsOf (dateKey monthKey) lastKey twoMonths))
             (sumOf getRevenue (rowsOf (dateKey monthKey) prevKey twoMonths))
           :: rest.
Proof.
  destruct (@monthly_trend_compares_the_two_last_month_keys exampleHost twoMonths)
    as (lastKey & prevKey & (Hne & _) & _ & H); [vm_compute; apply le_n|].
  exists lastKey, prevKey. split; [exact Hne|].
  apply H. vm_compute. repeat constructor.
Defined.

End MonthlyTrendExample.

(* ================================================================== *)
(** * More properties: what three rows or more always report *)

Lemma actions_pushAll (a b : InsightResult) :
  actions (pushAll a b) = actions a ++ actions b.
Proof. reflexivity. Qed.

Lemma warnings_pushAll (a b : InsightResult) :
  warnings (pushAll a b) = warnings a ++ warnings b.
Proof. reflexivity. Qed.

Lemma hd_error_sort {A} (after : A -> A -> bool) (l : list A) :
  l <> [] -> exists x, hd_error (JsArray.sort after l) = Some x /\ In x l.
Proof.
  intros Hne. pose proof (sort_Permutation after l) as P.
  destruct (JsArray.sort after l) as [|x s] eqn:E.
  - apply Permutation_nil in P. congruence.
  - exists x. split; [reflexivity|]. apply (Permutation_in _ P). left. reflexivity.
Qed.

Section LeaderProperties.
Context {host : Host}.

Lemma groupByCategory_not_nil (rows : list Row) :
  rows <> [] -> groupByCategory rows <> [].
Proof.
  unfold groupByCategory. destruct rows as [|row rows]; [congruence|]. intros _.
  cbn [fold_left].
  match goal with
  | |- JsMap.values (fold_left ?f rows ?init) <> [] =>
      assert (G : forall acc, acc <> [] -> fold_left f rows acc <> [])
  end.
  { induction rows as [|r rows IH]; intros acc Hacc; cbn [fold_left];
      [exact Hacc|]. apply IH. apply smap_set_not_nil. }
  intros H. unfold JsMap.values in H. apply map_eq_nil in H.
  revert H. apply G. apply smap_set_not_nil.
Qed.

Lemma length_trend_actions (t : option Trend) :
  (List.length (actions (trendInsights t)) <= 1)%nat.
Proof.
  destruct t as [t|]; cbn; [|lia]. destruct (trendAction t); cbn; lia.
Qed.

Lemma length_topProducts_findings (total : float) (a b : list ProductAgg.t) :
  (List.length (findings (topProducts total a b)) <= 2)%nat.
Proof.
  unfold topProducts. rewrite findings_pushAll, length_app.
  destruct a; destruct (_ && _); cbn; lia.
Qed.

Lemma length_volumeMismatch (total totalQ : float) (l : list ProductAgg.t) :
  (List.length (findings (volumeMismatch total totalQ l)) <= 1)%nat
  /\ (List.length (actions (volumeMismatch total totalQ l)) <= 1)%nat.
Proof. unfold volumeMismatch. destruct (find _ l); cbn; lia. Qed.

(** X7. For an array of at least 3 rows the actions are never empty: they
    hold "Restock and promote" for the first product by revenue and "Focus
    on category" for the first category by revenue, and the findings hold
    the sentence of that top category.  None of the three is lost to the
    dedupe or to the caps at 6 findings and 5 actions. *)
Theorem leaders_are_always_reported (rows : list Row) :
  (MIN_ROWS_FOR_INSIGHTS <= List.length rows)%nat ->
  let out := generateInsights (RowArray rows) in
  exists p c,
    (topProduct rows = Some p /\ In p (groupByProduct rows))
    /\ (topCategory rows = Some c /\ In c (groupByCategory rows))
    /\ In ("Restock and promote: " ++ ProductAgg.product p ++ ".")%string
          (actions out)
    /\ In (CategoryAgg.category c ++ " is your top category ($"
           ++ formatCurrency (CategoryAgg.revenue c) ++ " revenue).")%string
          (findings out)
    /\ In ("Focus on category " ++ Str.dquote ++ CategoryAgg.category c
           ++ Str.dquote ++ ", it drives the most revenue.")%string
          (actions out).
Proof.
  intros Hlen out.
  assert (Hne : rows <> []) by (destruct rows; [unfold MIN_ROWS_FOR_INSIGHTS in Hlen; cbn in Hlen; lia | discriminate]).
  destruct (hd_error_sort
              (fun y x => (0 <? ProductAgg.revenue x - ProductAgg.revenue y)%float)
              (groupByProduct_not_nil Hne)) as (p & Hp & Hpin).
  destruct (hd_error_sort
              (fun y x => (0 <? CategoryAgg.revenue x - CategoryAgg.revenue y)%float)
              (groupByCategory_not_nil Hne)) as (c & Hc & Hcin).
  exists p, c. split; [split; assumption|]. split; [split; assumption|].
  unfold out, generateInsights.
  replace (List.length rows <? MIN_ROWS_FOR_INSIGHTS)%nat with false
    by (symmetry; apply Nat.ltb_ge; exact Hlen).
  unfold finalize. cbn [findings actions].
  unfold collectInsights. cbn [fold_left].
  rewrite !findings_pushAll, !actions_pushAll.
  cbn [findings actions noInsights qualityWarnings app].
  set (t := trend rows _ _).
  pose proof (length_trend_findings t) as Ltf.
  pose proof (length_trend_actions t) as Lta.
  set (total := fold_left (fun sum r => (sum + getRevenue r)%float) rows 0%float).
  set (totalQ := fold_left (fun sum r => (sum + getQuantity r)%float) rows 0%float).
  pose proof (length_topProducts_findings total
                (firstn 3 (sortByRevenue (groupByProduct rows)))
                (firstn 3 (sortByQuantity (groupByProduct rows)))) as Ltop.
  destruct (length_volumeMismatch total totalQ (groupByProduct rows)) as [Lvf Lva].
  assert (Ecl : categoryLeader (groupByCategory rows)
                = {| findings :=
                       [(CategoryAgg.category c ++ " is your top category ($"
                         ++ formatCurrency (CategoryAgg.revenue c) ++ " revenue).")%string];
                     actions :=
                       [("Focus on category " ++ Str.dquote ++ CategoryAgg.category c
                         ++ Str.dquote ++ ", it drives the most revenue.")%string];
                     warnings := [] |}).
  { unfold categoryLeader.
    destruct (JsArray.sort _ (groupByCategory rows)) as [|c' s]; [discriminate Hc|].
    injection Hc as ->. reflexivity. }
  assert (Etop : actions (topProducts total
                            (firstn 3 (sortByRevenue (groupByProduct rows)))
                            (firstn 3 (sortByQuantity (groupByProduct rows))))
                 = [("Restock and promote: " ++ ProductAgg.product p ++ ".")%string]).
  { unfold topProducts. rewrite actions_pushAll. unfold sortByRevenue in *.
    destruct (JsArray.sort _ (groupByProduct rows)) as [|p' s]; [discriminate Hp|].
    injection Hp as ->. cbn [firstn actions].
    destruct (_ && _); reflexivity. }
  rewrite Ecl, Etop. cbn [findings actions].
  split; [|split].
  - rewrite <- !app_assoc. cbn [app]. apply uniq_keeps_early. lia.
  - match goal with
    | |- In ?x (firstn 6 (uniq (((((((((?a ++ ?b) ++ ?c) ++ [?x]) ++ ?d) ++ ?e) ++ ?f) ++ ?g) ++ ?h) ++ ?i))) =>
        replace (((((((((a ++ b) ++ c) ++ [x]) ++ d) ++ e) ++ f) ++ g) ++ h) ++ i)
          with (((a ++ b) ++ c) ++ x :: (d ++ e ++ f ++ g ++ h ++ i))
          by (rewrite <- !app_assoc; reflexivity)
    end.
    apply uniq_keeps_early. rewrite !length_app. lia.
  - match goal with
    | |- In ?x (firstn 5 (uniq (((((((((?a ++ ?b) ++ ?c) ++ [?x]) ++ ?d) ++ ?e) ++ ?f) ++ ?g) ++ ?h) ++ ?i))) =>
        replace (((((((((a ++ b) ++ c) ++ [x]) ++ d) ++ e) ++ f) ++ g) ++ h) ++ i)
          with (((a ++ b) ++ c) ++ x :: (d ++ e ++ f ++ g ++ h ++ i))
          by (rewrite <- !app_assoc; reflexivity)
    end.
    apply uniq_keeps_early. rewrite !length_app. cbn [List.length]. lia.
Qed.

End LeaderProperties.

Section LeaderExample.
#[local] Existing Instance exampleHost.

Lemma leaders_are_always_reported_witness :
  In "Restock and promote: A."%string
     (actions (generateInsights (RowArray twoMonths)))
  /\ In "X is your top category ($300 revenue)."%string
        (findings (generateInsights (RowArray twoMonths))).
Proof.
  destruct (@leaders_are_always_reported exampleHost twoMonths)
    as (p & c & (Hp & _) & (Hc & _) & Hr & Hf & _).
  - vm_compute. repeat constructor.
  - vm_compute in Hp. injection Hp as <-.
    vm_compute in Hc. injection Hc as <-.
    split; [exact Hr | exact Hf].
Defined.

End LeaderExample.

(* ================================================================== *)
(** * More properties: the data-quality step *)

Lemma length_uniq_snoc (l : list string) (x : string) :
  List.length (uniq (l ++ [x]))
  = if JsSet.has String.eqb x (uniq l) then List.length (uniq l)
    else S (List.length (uniq l)).
Proof.
  unfold uniq, JsSet.of_list. rewrite fold_left_app. cbn [fold_left].
  unfold JsSet.add. destruct (JsSet.has String.eqb x _); [reflexivity|].
  rewrite length_app. cbn [List.length]. lia.
Qed.

Section QualityProperties.
Context {host : Host}.

Lemma parseDate_falsy (v : value) : Js.truthy v = false -> parseDate v = None.
Proof.
  destruct v as [| |b|x|s]; try reflexivity. cbn [Js.truthy parseDate].
  destruct s; [reflexivity | discriminate].
Qed.

Lemma no_date_test (r : Row) :
  negb (Js.truthy (date r))
  || match parseDate (date r) with None => true | Some _ => false end
  = hasNoDate r.
Proof.
  unfold hasNoDate. destruct (Js.truthy (date r)) eqn:E; [reflexivity|].
  rewrite (parseDate_falsy _ E). reflexivity.
Qed.

Lemma countRows_snoc (f : Row -> bool) (l : list Row) (r : Row) :
  countRows f (l ++ [r]) = if f r then S (countRows f l) else countRows f l.
Proof.
  unfold countRows. rewrite filter_app, length_app. cbn [filter].
  destruct (f r); cbn [List.length]; lia.
Qed.

Lemma qualityScan_scanned (rows : list Row) : qualityScan rows = scanned rows.
Proof.
  unfold qualityScan.
  change {| missingDates := 0; invalidQty := 0; invalidPrice := 0;
            seenKeys := []; duplicateCount := 0 |} with (scanned []).
  rewrite <- (app_nil_l rows) at 2. generalize (@nil Row) as done.
  induction rows as [|r rows IH]; intros done; cbn [fold_left].
  - rewrite app_nil_r. reflexivity.
  - replace (done ++ r :: rows) with ((done ++ [r]) ++ rows)
      by (rewrite <- app_assoc; reflexivity).
    rewrite <- IH. f_equal.
    unfold scanned. cbn [missingDates invalidQty invalidPrice seenKeys duplicateCount].
    rewrite no_date_test, !countRows_snoc, map_app. cbn [map].
    fold (rowKey r). fold (hasInvalidQuantity r). fold (hasNegativePrice r).
    pose proof (uniq_length (map rowKey done)) as Hle. rewrite length_map in Hle.
    rewrite length_uniq_snoc, length_app. cbn [List.length].
    f_equal.
    + unfold uniq, JsSet.of_list. rewrite fold_left_app. reflexivity.
    + destruct (JsSet.has String.eqb (rowKey r) (uniq (map rowKey done))); lia.
Qed.

Lemma quality_warnings_reach_the_output (rows : list Row) (w : string) :
  (MIN_ROWS_FOR_INSIGHTS <= List.length rows)%nat ->
  In w (warnings (qualityWarnings rows)) ->
  In w (warnings (generateInsights (RowArray rows))).
Proof.
  intros Hlen Hw. unfold generateInsights.
  replace (List.length rows <? MIN_ROWS_FOR_INSIGHTS)%nat with false
    by (symmetry; apply Nat.ltb_ge; exact Hlen).
  unfold finalize. cbn [warnings]. apply uniq_In.
  unfold collectInsights. cbn [fold_left]. rewrite !warnings_pushAll.
  cbn [warnings noInsights app]. rewrite <- !app_assoc.
  apply in_or_app. left. exact Hw.
Qed.

(** X8. The counters of the data-quality step are counts of rows: rows
    whose date does not parse (which covers an empty or missing date), rows
    with a quantity that is not positive although [units] or [quantity] is
    given, rows with a finite negative price; the duplicates are the rows
    less the distinct row keys.  For an array of at least 3 rows each counter
    above 0 puts its warning, with the count, in the result. *)
Theorem quality_counts_are_row_counts (rows : list Row) :
  let q := qualityScan rows in
  let out := generateInsights (RowArray rows) in
  (missingDates q = countRows hasNoDate rows
   /\ invalidQty q = countRows hasInvalidQuantity rows
   /\ invalidPrice q = countRows hasNegativePrice rows)
  /\ (seenKeys q = uniq (map rowKey rows)
      /\ (duplicateCount q + List.length (uniq (map rowKey rows)))%nat
         = List.length rows)
  /\ (forall r, Js.truthy (date r) = false -> hasNoDate r = true)
  /\ ((MIN_ROWS_FOR_INSIGHTS <= List.length rows)%nat ->
      ((0 < missingDates q)%nat ->
       In (natToString (missingDates q)
           ++ " row(s) have missing or invalid dates. Check your data.")%string
          (warnings out))
      /\ ((0 < invalidQty q)%nat ->
          In (natToString (invalidQty q)
              ++ " row(s) have zero or invalid quantity.")%string
             (warnings out))
      /\ ((0 < invalidPrice q)%nat ->
          In (natToString (invalidPrice q) ++ " row(s) have negative price.")%string
             (warnings out))
      /\ ((0 < duplicateCount q)%nat ->
          In (natToString (duplicateCount q)
              ++ " possible duplicate row(s). Review for data entry errors.")%string
             (warnings out))).
Proof.
  intros q out. split; [|split; [|split]].
  - unfold q. rewrite qualityScan_scanned. repeat split.
  - unfold q. rewrite qualityScan_scanned. cbn [scanned seenKeys duplicateCount].
    split; [reflexivity|].
    pose proof (uniq_length (map rowKey rows)) as Hle. rewrite length_map in Hle.
    lia.
  - intros r E. unfold hasNoDate. rewrite (parseDate_falsy _ E). reflexivity.
  - intros Hlen.
    repeat split; intros Hpos; apply (@quality_warnings_reach_the_output _ _ Hlen);
      unfold qualityWarnings; cbn [warnings]; fold q;
      apply Nat.ltb_lt in Hpos; rewrite Hpos; rewrite ?in_app_iff; cbn [In]; tauto.
Qed.

End QualityProperties.

(* ================================================================== *)
(** * More properties: the top products *)

Section TopProductProperties.
Context {host : Host}.

Lemma top3_of_sorted (after : ProductAgg.t -> ProductAgg.t -> bool)
  (rows : list Row) :
  let top3 := firstn 3 (JsArray.sort after (groupByProduct rows)) in
  List.length top3 = Nat.min 3 (List.length (uniq (map productName rows)))
  /\ NoDup (map ProductAgg.product top3)
  /\ (forall a, In a top3 ->
        In a (groupByProduct rows)
        /\ exists r, In r rows /\ productName r = ProductAgg.product a).
Proof.
  intros top3. unfold top3.
  pose proof (sort_Permutation after (groupByProduct rows)) as P.
  split; [|split].
  - rewrite length_firstn, length_sort, <- groupByProduct_products, length_map.
    reflexivity.
  - rewrite <- firstn_map. apply NoDup_firstn.
    apply (Permutation_NoDup (Permutation_sym (Permutation_map ProductAgg.product P))).
    rewrite groupByProduct_products. apply uniq_NoDup.
  - intros a Ha. apply in_firstn in Ha. apply (Permutation_in _ P) in Ha.
    split; [exact Ha|].
    assert (Hn : In (ProductAgg.product a) (uniq (map productName rows))).
    { rewrite <- groupByProduct_products. apply in_map. exact Ha. }
    apply (proj1 (uniq_In _ _)) in Hn. apply in_map_iff in Hn.
    destruct Hn as (r & E & Hr). exists r. split; assumption.
Qed.

(** X9. The two top-3 lists hold min(3, number of distinct product names)
    aggregates each, with pairwise different names, each one an aggregate of
    [groupByProduct] and so the name of some row; sorting by revenue or by
    quantity only reorders the aggregates. *)
Theorem top_three_are_distinct_products_of_the_rows (rows : list Row) :
  let top3Revenue := firstn 3 (sortByRevenue (groupByProduct rows)) in
  let top3Qty := firstn 3 (sortByQuantity (groupByProduct rows)) in
  let distinct := List.length (uniq (map productName rows)) in
  (List.length top3Revenue = Nat.min 3 distinct
   /\ List.length top3Qty = Nat.min 3 distinct)
  /\ (NoDup (map ProductAgg.product top3Revenue)
      /\ NoDup (map ProductAgg.product top3Qty))
  /\ (forall a, In a top3Revenue \/ In a top3Qty ->
        In a (groupByProduct rows)
        /\ exists r, In r rows /\ productName r = ProductAgg.product a)
  /\ (Permutation (sortByRevenue (groupByProduct rows)) (groupByProduct rows)
      /\ Permutation (sortByQuantity (groupByProduct rows)) (groupByProduct rows)).
Proof.
  intros top3Revenue top3Qty distinct.
  destruct (top3_of_sorted
              (fun y x => (0 <? ProductAgg.revenue x - ProductAgg.revenue y)%float)
              rows) as (L1 & N1 & I1).
  destruct (top3_of_sorted
              (fun y x => (0 <? ProductAgg.quantity x - ProductAgg.quantity y)%float)
              rows) as (L2 & N2 & I2).
  split; [split; assumption|]. split; [split; assumption|].
  split; [intros a [Ha|Ha]; [apply I1 | apply I2]; exact Ha|].
  split; apply sort_Permutation.
Qed.

End TopProductProperties.

(* ================================================================== *)
(** * More properties: the names of months and days *)

Lemma string_app_nil_r (s : string) : (s ++ "")%string = s.
Proof. induction s as [|c s IH]; cbn [append]; [reflexivity | rewrite IH; reflexivity]. Qed.

Lemma string_app_assoc (a b c : string) :
  ((a ++ b) ++ c)%string = (a ++ (b ++ c))%string.
Proof. induction a as [|x a IH]; cbn [append]; [reflexivity | rewrite IH; reflexivity]. Qed.

(** [split("-")] on a text whose first dash comes after [s]. *)
Lemma split_dash_aux_prefix (cur s rest : string) :
  forallb (fun c => negb (Ascii.eqb c "-")) (list_ascii_of_string s) = true ->
  Str.split_dash_aux cur (s ++ String "-" rest)
  = (cur ++ s)%string :: Str.split_dash_aux "" rest.
Proof.
  revert cur. induction s as [|c s IH]; intros cur H;
    cbn [append Str.split_dash_aux list_ascii_of_string forallb] in *.
  - rewrite string_app_nil_r. reflexivity.
  - apply andb_true_iff in H. destruct H as [Hc Hs].
    apply negb_true_iff in Hc. rewrite Hc, (IH _ Hs), string_app_assoc.
    reflexivity.
Qed.

Lemma string_of_uint_no_dash (u : Decimal.uint) :
  forallb (fun c => negb (Ascii.eqb c "-"))
          (list_ascii_of_string (NilEmpty.string_of_uint u)) = true.
Proof.
  induction u; cbn [NilEmpty.string_of_uint list_ascii_of_string forallb];
    [reflexivity | rewrite IHu; reflexivity ..].
Qed.

Lemma of_Z_no_dash (y : Z) :
  0 <= y ->
  forallb (fun c => negb (Ascii.eqb c "-")) (list_ascii_of_string (Str.of_Z y))
  = true.
Proof.
  intros Hy. unfold Str.of_Z. destruct y as [|p|p]; [reflexivity| |lia].
  cbn [Z.to_int NilZero.string_of_int]. unfold NilZero.string_of_uint.
  pose proof (string_of_uint_no_dash (Pos.to_uint p)) as H.
  destruct (Pos.to_uint p); [reflexivity | exact H ..].
Qed.

Lemma monthLabel_of_key (y m : Z) :
  0 <= y -> 1 <= m <= 12 ->
  monthLabel (Str.of_Z y ++ "-" ++ Str.padStart0 2 (Str.of_Z m))
  = nth (Z.to_nat (m - 1)) MONTH_NAMES ""%string.
Proof.
  intros Hy Hm. unfold monthLabel, Str.split_dash.
  change ("-" ++ Str.padStart0 2 (Str.of_Z m))%string
    with (String "-" (Str.padStart0 2 (Str.of_Z m))).
  rewrite (split_dash_aux_prefix "" _ _ (of_Z_no_dash Hy)).
  assert (C : m = 1 \/ m = 2 \/ m = 3 \/ m = 4 \/ m = 5 \/ m = 6 \/ m = 7
              \/ m = 8 \/ m = 9 \/ m = 10 \/ m = 11 \/ m = 12) by lia.
  repeat (destruct C as [-> | C]); try subst m; reflexivity.
Qed.

Lemma nth_month_name (m : Z) :
  1 <= m <= 12 ->
  nameAt MONTH_NAMES (m - 1) = nth (Z.to_nat (m - 1)) MONTH_NAMES ""%string
  /\ In (nameAt MONTH_NAMES (m - 1)) MONTH_NAMES.
Proof.
  intros Hm.
  assert (C : m = 1 \/ m = 2 \/ m = 3 \/ m = 4 \/ m = 5 \/ m = 6 \/ m = 7
              \/ m = 8 \/ m = 9 \/ m = 10 \/ m = 11 \/ m = 12) by lia.
  repeat (destruct C as [-> | C]); try subst m; (split; [reflexivity|]);
    cbn; tauto.
Qed.

Lemma nth_day_name (k : Z) :
  0 <= k <= 6 -> In (nameAt DAY_NAMES k) DAY_NAMES.
Proof.
  intros Hk.
  assert (C : k = 0 \/ k = 1 \/ k = 2 \/ k = 3 \/ k = 4 \/ k = 5 \/ k = 6) by lia.
  repeat (destruct C as [-> | C]); try subst k; cbn; tauto.
Qed.

(** X10. For every date [parseDate] accepts, the label of its month key
    is the English name of its month, and the names read from [MONTH_NAMES]
    and [DAY_NAMES] by its month and its day of week exist: no sentence built
    from a parsed date says "undefined". *)
Theorem labels_of_a_parsed_date_are_real_names (v : value) (p : ParsedDate) :
  parseDate v = Some p ->
  (monthLabel (monthKey p) = nameAt MONTH_NAMES (month p - 1)
   /\ In (monthLabel (monthKey p)) MONTH_NAMES)
  /\ In (nameAt MONTH_NAMES (month p - 1)) MONTH_NAMES
  /\ (0 <= dayOfWeek p <= 6 /\ In (nameAt DAY_NAMES (dayOfWeek p)) DAY_NAMES).
Proof.
  intros Hp.
  destruct (parseDate_inv _ Hp) as (s & y & m & d & _ & [(Hy & _) _] & (Hm & _) & ->).
  cbn [parsed year month dayOfWeek]. unfold monthKey. cbn [parsed year month].
  rewrite (@monthLabel_of_key y m ltac:(lia) Hm).
  destruct (nth_month_name Hm) as [E Hin]. rewrite <- E.
  assert (Hd : 0 <= JsDate.getDay (JsDate.make y (m - 1) d) <= 6).
  { unfold JsDate.getDay.
    pose proof (Z.mod_pos_bound (JsDate.make y (m - 1) d + 4) 7). lia. }
  repeat split; try assumption; try lia. apply nth_day_name. exact Hd.
Qed.

Lemma labels_of_a_parsed_date_are_real_names_witness :
  monthLabel (monthKey (parsed 2025 3 15)) = "March"%string
  /\ nameAt DAY_NAMES (dayOfWeek (parsed 2025 3 15)) = "Saturday"%string.
Proof.
  pose proof (@labels_of_a_parsed_date_are_real_names
                (VString "15-03-2025") (parsed 2025 3 15) eq_refl) as H.
  destruct H as ((E & _) & _). split; [rewrite E|]; reflexivity.
Defined.

(* ================================================================== *)
(** * More properties: seasonality *)

Lemma in_keys_set_Z {V} (k k' : Z) (v : V) (m : JsMap.t Z V) :
  In k (JsMap.keys (JsMap.set Z.eqb k' v m)) -> k = k' \/ In k (JsMap.keys m).
Proof.
  unfold JsMap.keys.
  induction m as [|[k0 v0] m IH]; cbn [JsMap.set map fst In].
  - intros [<-|[]]. left. reflexivity.
  - destruct (Z.eqb k' k0) eqn:E; cbn [map fst In].
    + intros H. right. exact H.
    + intros [<-|H]; [right; left; reflexivity|].
      destruct (IH H) as [->|Hin]; [left; reflexivity | right; right; exact Hin].
Qed.

Lemma bestEntry_In (m : JsMap.t Z float) (e : Z * float) :
  bestEntry m = Some e -> In e m.
Proof.
  unfold bestEntry. intros H.
  pose proof (sort_Permutation (fun y x : Z * float => (0 <? snd x - snd y)%float) m) as P.
  destruct (JsArray.sort _ m) as [|e' s]; [discriminate H|].
  injection H as ->. apply (Permutation_in _ P). left. reflexivity.
Qed.

Section SeasonalityProperties.
Context {host : Host}.

Lemma keys_revenueBy (f : ParsedDate -> Z) (rows : list Row) (k : Z) :
  In k (JsMap.keys (revenueBy f rows)) ->
  exists row p, In row rows /\ parseDate (date row) = Some p /\ f p = k.
Proof.
  unfold revenueBy.
  assert (G : forall init,
             In k (JsMap.keys
                     (fold_left
                        (fun m r =>
                           match parseDate (date r) with
                           | None => m
                           | Some parsed =>
                               JsMap.set Z.eqb (f parsed)
                                 (getOrZero Z.eqb (f parsed) m + getRevenue r)%float m
                           end) rows init)) ->
             In k (JsMap.keys init)
             \/ exists row p, In row rows /\ parseDate (date row) = Some p /\ f p = k).
  { induction rows as [|r rows IH]; intros init; cbn [fold_left].
    - intros H. left. exact H.
    - intros H. destruct (IH _ H) as [Hin | (row & p & Hrow & Hp & Hk)].
      + destruct (parseDate (date r)) as [p|] eqn:E.
        * apply in_keys_set_Z in Hin. destruct Hin as [->|Hin]; [|left; exact Hin].
          right. exists r, p. split; [left; reflexivity|]. split; [exact E | reflexivity].
        * left. exact Hin.
      + right. exists row, p. split; [right; exact Hrow|]. split; assumption. }
  intros H. destruct (G [] H) as [[]|R]. exact R.
Qed.

(** X11. A sentence of the seasonality step names the day of the week, or
    the month, of a row of the input whose date parses; the name is one of
    the seven day names or of the twelve month names, and the sentence is
    there only when the rows cover at least 3 different days of the week, or
    3 different months. *)
Theorem seasonality_names_a_day_and_a_month_of_the_rows (rows : list Row)
  (s : string) :
  In s (findings (seasonality rows)) ->
  exists row p,
    In row rows /\ parseDate (date row) = Some p
    /\ ((s = ("Your best day for sales is " ++ nameAt DAY_NAMES (dayOfWeek p)
              ++ ".")%string
         /\ In (nameAt DAY_NAMES (dayOfWeek p)) DAY_NAMES
         /\ (3 <= JsMap.size (revenueBy dayOfWeek rows))%nat)
        \/ (s = ("Your best month for sales is "
                 ++ nameAt MONTH_NAMES (month p - 1) ++ ".")%string
            /\ In (nameAt MONTH_NAMES (month p - 1)) MONTH_NAMES
            /\ (3 <= JsMap.size (revenueBy month rows))%nat)).
Proof.
  unfold seasonality. rewrite findings_pushAll, in_app_iff. intros [H|H].
  - destruct (3 <=? JsMap.size (revenueBy dayOfWeek rows))%nat eqn:L; [|destruct H].
    apply Nat.leb_le in L.
    destruct (bestEntry (revenueBy dayOfWeek rows)) as [e|] eqn:B; [|destruct H].
    cbn [findings In] in H. destruct H as [<-|[]].
    apply bestEntry_In in B. apply (in_map fst) in B.
    destruct (keys_revenueBy _ _ _ B) as (row & p & Hrow & Hp & Hk).
    exists row, p. split; [exact Hrow|]. split; [exact Hp|]. left.
    rewrite Hk. split; [reflexivity|]. split; [|exact L].
    rewrite <- Hk.
    destruct (parseDate_inv _ Hp) as (t & y & m & d & _ & _ & _ & ->).
    cbn [parsed dayOfWeek]. apply nth_day_name. unfold JsDate.getDay.
    pose proof (Z.mod_pos_bound (JsDate.make y (m - 1) d + 4) 7). lia.
  - destruct (3 <=? JsMap.size (revenueBy month rows))%nat eqn:L; [|destruct H].
    apply Nat.leb_le in L.
    destruct (bestEntry (revenueBy month rows)) as [e|] eqn:B; [|destruct H].
    cbn [findings In] in H. destruct H as [<-|[]].
    apply bestEntry_In in B. apply (in_map fst) in B.
    destruct (keys_revenueBy _ _ _ B) as (row & p & Hrow & Hp & Hk).
    exists row, p. split; [exact Hrow|]. split; [exact Hp|]. right.
    rewrite Hk. split; [reflexivity|]. split; [|exact L].
    rewrite <- Hk.
    destruct (parseDate_inv _ Hp) as (t & y & m & d & _ & _ & (Hm & _) & ->).
    cbn [parsed month]. apply nth_month_name. exact Hm.
Qed.

End SeasonalityProperties.

Section SeasonalityExample.
#[local] Existing Instance exampleHost.

Lemma seasonality_names_a_day_and_a_month_of_the_rows_witness :
  let s := "Your best day for sales is Wednesday."%string in
  exists row p,
    In row twentyDays /\ parseDate (date row) = Some p
    /\ ((s = ("Your best day for sales is " ++ nameAt DAY_NAMES (dayOfWeek p)
              ++ ".")%string
         /\ In (nameAt DAY_NAMES (dayOfWeek p)) DAY_NAMES
         /\ (3 <= JsMap.size (revenueBy dayOfWeek twentyDays))%nat)
        \/ (s = ("Your best month for sales is "
                 ++ nameAt MONTH_NAMES (month p - 1) ++ ".")%string
            /\ In (nameAt MONTH_NAMES (month p - 1)) MONTH_NAMES
            /\ (3 <= JsMap.size (revenueBy month twentyDays))%nat)).
Proof.
  intros s.
  apply (@seasonality_names_a_day_and_a_month_of_the_rows exampleHost twentyDays s).
  vm_compute. left. reflexivity.
Defined.

End SeasonalityExample.

(* ================================================================== *)
(** * More properties: growth *)

Lemma SFcompare_refl (a : spec_float) :
  a <> S754_nan -> SFcompare a a = Some Eq.
Proof.
  destruct a as [s|s| |s m e]; intros H; try congruence.
  - destruct s; reflexivity.
  - destruct s; reflexivity.
  - unfold SFcompare. rewrite Z.compare_refl.
    destruct s; rewrite Pos.compare_cont_spec, Pos.compare_refl; reflexivity.
Qed.

(** A number that compares below or above another is not [NaN]. *)
Lemma float_ltb_not_nan (x y : float) :
  (x <? y)%float = true -> (x =? x)%float = true /\ (y =? y)%float = true.
Proof.
  rewrite ltb_spec, !eqb_spec. unfold SFltb, SFeqb. intros H.
  assert (Hx : Prim2SF x <> S754_nan).
  { intros E. rewrite E in H. cbn in H. discriminate H. }
  assert (Hy : Prim2SF y <> S754_nan).
  { intros E. rewrite E in H. destruct (Prim2SF x) as [[]|[]| |[] ? ?]; discriminate H. }
  rewrite (SFcompare_refl Hx), (SFcompare_refl Hy). split; reflexivity.
Qed.

Section GrowthInvariants.
Context {host : Host}.

(** X12. For all arguments, [NaN] and infinities included, the result of
    [computeGrowth] is coherent: the direction is "up" exactly when
    [pct > 0], "down" exactly when [pct < 0], "flat" exactly when [pct] is 0;
    [pct] is never [NaN], and the text is never empty. *)
Theorem computeGrowth_direction_agrees_with_pct (current previous : float) :
  let g := computeGrowth current previous in
  (direction g = Up <-> (0 <? pct g)%float = true)
  /\ (direction g = Down <-> (pct g <? 0)%float = true)
  /\ (direction g = Flat <-> pct g = 0%float)
  /\ (pct g =? pct g)%float = true
  /\ text g <> ""%string.
Proof.
  intros g. unfold g, computeGrowth.
  destruct (negb (Num.isFinite previous) || (previous =? 0)%float).
  - destruct (0 <? current)%float; cbn [direction pct text];
      repeat split; try intros H; try discriminate H; try reflexivity.
  - set (p := Num.round ((current - previous) / previous * 100)%float).
    destruct (0 <? p)%float eqn:HUp.
    + cbn [direction pct text].
      pose proof (float_ltb_asym HUp) as Hd.
      destruct (float_ltb_not_nan HUp) as [_ Hn].
      repeat split; try intros H; try discriminate H; try reflexivity;
        try congruence.
    + destruct (p <? 0)%float eqn:HDn.
      * cbn [direction pct text].
        destruct (float_ltb_not_nan HDn) as [Hn _].
        repeat split; try intros H; try discriminate H; try reflexivity;
          try congruence.
        * cbn [direction pct text].
        repeat split; try intros H; try discriminate H; try reflexivity.
Qed.

End GrowthInvariants.

(* ================================================================== *)
(** * More properties: category growth *)

Section CategoryGrowthProperties.
Context {host : Host}.

(** What the scan holds about a category it has picked. *)
Lemma categoryScan_sound (catMonthMap : JsMap.t string float)
  (lastKey prevKey : string) (cats : list string) :
  let st := categoryScan catMonthMap lastKey prevKey cats in
  let last c := getOrZero String.eqb (c ++ "__" ++ lastKey)%string catMonthMap in
  let prev c := getOrZero String.eqb (c ++ "__" ++ prevKey)%string catMonthMap in
  let g c := ((last c - prev c) / prev c * 100)%float in
  (forall c, fastestCat st = Some c ->
             In c cats /\ (0 <? prev c)%float = true
             /\ (prev c <? last c)%float = true /\ fastestGrowth st = g c)
  /\ (forall c, decliningCat st = Some c ->
                In c cats /\ (0 <? prev c)%float = true
                /\ (last c <? prev c)%float = true /\ decliningGrowth st = g c).
Proof.
  intros st last prev g.
  pose (P := fun (st : CategoryScan) (seen : list string) =>
    (forall c, fastestCat st = Some c ->
               In c seen /\ (0 <? prev c)%float = true
               /\ (prev c <? last c)%float = true /\ fastestGrowth st = g c)
    /\ (forall c, decliningCat st = Some c ->
                  In c seen /\ (0 <? prev c)%float = true
                  /\ (last c <? prev c)%float = true /\ decliningGrowth st = g c)).
  assert (Hmono : forall st seen x, P st seen -> P st (seen ++ [x])).
  { intros st0 seen x [H1 H2]. split; intros c Hc;
      [destruct (H1 c Hc) as (? & ? & ? & ?) | destruct (H2 c Hc) as (? & ? & ? & ?)];
      (split; [apply in_or_app; left; assumption | auto]). }
  assert (G : forall init seen,
             P init seen ->
             P (fold_left
                  (fun st cat =>
                     let last := getOrZero String.eqb (cat ++ "__" ++ lastKey)%string catMonthMap in
                     let prev := getOrZero String.eqb (cat ++ "__" ++ prevKey)%string catMonthMap in
                     if (0 <? prev)%float then
                       let g := ((last - prev) / prev * 100)%float in
                       let st :=
                         if (fastestGrowth st <? g)%float && (prev <? last)%float
                         then {| fastestCat := Some cat; fastestGrowth := g;
                                 decliningCat := decliningCat st;
                                 decliningGrowth := decliningGrowth st |}
                         else st in
                       if (g <? decliningGrowth st)%float && (last <? prev)%float
                       then {| fastestCat := fastestCat st;
                               fastestGrowth := fastestGrowth st;
                               decliningCat := Some cat; decliningGrowth := g |}
                       else st
                     else st) cats init) (seen ++ cats)).
  { induction cats as [|cat cats IH]; intros init seen HP; cbn [fold_left].
    - rewrite app_nil_r. exact HP.
    - replace (seen ++ cat :: cats) with ((seen ++ [cat]) ++ cats)
        by (rewrite <- app_assoc; reflexivity).
      apply IH. cbv zeta. fold (last cat) (prev cat) (g cat).
      pose proof (Hmono _ _ cat HP) as HP'.
      assert (Hcat : In cat (seen ++ [cat]))
        by (apply in_or_app; right; left; reflexivity).
      destruct (0 <? prev cat)%float eqn:Epos; [|exact HP'].
      destruct ((fastestGrowth init <? g cat)%float && (prev cat <? last cat)%float)
        eqn:Ef.
      + apply andb_true_iff in Ef. destruct Ef as [_ Ef].
        cbn [decliningGrowth fastestCat fastestGrowth decliningCat].
        destruct ((g cat <? decliningGrowth init)%float && (last cat <? prev cat)%float)
          eqn:Ed.
        * apply andb_true_iff in Ed. destruct Ed as [_ Ed].
          split; cbn [fastestCat fastestGrowth decliningCat decliningGrowth];
            intros c [= <-]; auto.
        * split; cbn [fastestCat fastestGrowth decliningCat decliningGrowth].
          -- intros c [= <-]; auto.
          -- apply HP'.
      + destruct ((g cat <? decliningGrowth init)%float && (last cat <? prev cat)%float)
          eqn:Ed.
        * apply andb_true_iff in Ed. destruct Ed as [_ Ed].
          split; cbn [fastestCat fastestGrowth decliningCat decliningGrowth].
          -- apply HP'.
          -- intros c [= <-]; auto.
        * exact HP'. }
  apply (G _ []). split; intros c H; discriminate H.
Qed.

(** X13. A sentence of the category-growth step is about a category of
    [byCategory] with a non-empty name whose revenue of the previous month
    is positive: "fastest-growing" only when the revenue of the last month
    is above it, "revenue is down" only when it is below and the change is
    under -10%; the percentage shown is the rounded change between the two
    months.  The step says nothing with fewer than 2 month keys. *)
Theorem category_growth_reports_real_changes (rows : list Row)
  (monthKeys : list string) (byCategory : list CategoryAgg.t) (s : string) :
  In s (findings (categoryGrowth rows monthKeys byCategory)) ->
  (2 <= List.length monthKeys)%nat
  /\ exists c,
       let last := getOrZero String.eqb (c ++ "__" ++ JsArray.fromEnd monthKeys 1)%string
                             (categoryMonthMap rows) in
       let prev := getOrZero String.eqb (c ++ "__" ++ JsArray.fromEnd monthKeys 2)%string
                             (categoryMonthMap rows) in
       let g := ((last - prev) / prev * 100)%float in
       In c (map CategoryAgg.category byCategory)
       /\ c <> ""%string
       /\ (0 <? prev)%float = true
       /\ ((s = (c ++ " is your fastest-growing category (up "
                 ++ Js.NumberToString (Num.round g) ++ "% vs last period).")%string
            /\ (prev <? last)%float = true)
           \/ (s = (c ++ " revenue is down "
                    ++ Js.NumberToString (Num.round (PrimFloat.abs g))
                    ++ "% vs last period.")%string
               /\ (last <? prev)%float = true /\ (g <? -10)%float = true)).
Proof.
  unfold categoryGrowth.
  destruct (2 <=? List.length monthKeys)%nat eqn:L; [|intros []].
  apply Nat.leb_le in L. cbv zeta.
  destruct (categoryScan_sound (categoryMonthMap rows)
              (JsArray.fromEnd monthKeys 1) (JsArray.fromEnd monthKeys 2)
              (JsSet.of_list String.eqb (map CategoryAgg.category byCategory)))
    as [HF HD].
  set (st := categoryScan _ _ _ _) in *.
  rewrite findings_pushAll, in_app_iff. intros [H|H]; (split; [exact L|]).
  - unfold nonEmpty in H. destruct (fastestCat st) as [c|] eqn:E; [|destruct H].
    destruct (String.eqb c "") eqn:Ec; [destruct H|].
    cbn [findings In] in H. destruct H as [<-|[]].
    destruct (HF c eq_refl) as (Hin & Hpos & Hup & Hg).
    exists c. cbv zeta. split; [apply (proj1 (uniq_In _ _)); exact Hin|].
    split; [apply String.eqb_neq; exact Ec|]. split; [exact Hpos|].
    left. rewrite Hg. split; [reflexivity | exact Hup].
  - unfold nonEmpty in H. destruct (decliningCat st) as [c|] eqn:E; [|destruct H].
    destruct (String.eqb c "") eqn:Ec; [destruct H|].
    destruct (decliningGrowth st <? -10)%float eqn:E10; [|destruct H].
    cbn [findings In] in H. destruct H as [<-|[]].
    destruct (HD c eq_refl) as (Hin & Hpos & Hdn & Hg).
    exists c. cbv zeta. split; [apply (proj1 (uniq_In _ _)); exact Hin|].
    split; [apply String.eqb_neq; exact Ec|]. split; [exact Hpos|].
    right. rewrite <- Hg. split; [reflexivity|]. split; [exact Hdn | exact E10].
Qed.

End CategoryGrowthProperties.

Section CategoryGrowthExample.
#[local] Existing Instance exampleHost.

Lemma category_growth_reports_real_changes_witness :
  let monthKeys := sortStrings (JsMap.keys (aggregateByMonth twoMonths)) in
  (2 <= List.length monthKeys)%nat
  /\ exists c,
       let last := getOrZero String.eqb (c ++ "__" ++ JsArray.fromEnd monthKeys 1)%string
                             (categoryMonthMap twoMonths) in
       let prev := getOrZero String.eqb (c ++ "__" ++ JsArray.fromEnd monthKeys 2)%string
                             (categoryMonthMap twoMonths) in
       let g := ((last - prev) / prev * 100)%float in
       In c (map CategoryAgg.category (groupByCategory twoMonths))
       /\ c <> ""%string
       /\ (0 <? prev)%float = true
       /\ (("X revenue is down 50% vs last period."%string
            = (c ++ " is your fastest-growing category (up "
                 ++ Js.NumberToString (Num.round g) ++ "% vs last period).")%string
            /\ (prev <? last)%float = true)
           \/ ("X revenue is down 50% vs last period."%string
               = (c ++ " revenue is down "
                    ++ Js.NumberToString (Num.round (PrimFloat.abs g))
                    ++ "% vs last period.")%string
               /\ (last <? prev)%float = true /\ (g <? -10)%float = true)).
Proof.
  intros monthKeys.
  apply (@category_growth_reports_real_changes exampleHost twoMonths monthKeys
           (groupByCategory twoMonths) "X revenue is down 50% vs last period.").
  vm_compute. left. reflexivity.
Defined.

End CategoryGrowthExample.

(* ================================================================== *)
(** * More properties: the date object and the week key *)

Lemma MakeDay_of_getters (t : JsDate.t) :
  JsDate.MakeDay (JsDate.getFullYear t) (JsDate.getMonth t) (JsDate.getDate t) = t.
Proof.
  pose proof (setDate_shift t (JsDate.getDate t)) as H.
  unfold JsDate.setDate in H. lia.
Qed.

Lemma getDate_range (t : JsDate.t) : 1 <= JsDate.getDate t <= 31.
Proof.
  unfold JsDate.getDate.
  pose proof (YearFromDay_spec t) as S. rewrite DayFromYear_succ in S.
  set (y := JsDate.YearFromDay t) in *.
  set (k := t - JsDate.DayFromYear y).
  assert (Hk : 0 <= k < JsDate.DaysInYear y) by (unfold k; lia).
  unfold JsDate.DaysInYear in Hk. clearbody k.
  unfold JsDate.MonthFromDay, JsDate.daysBeforeMonth.
  destruct (JsDate.isLeap y);
    repeat match goal with
           | |- context [if ?a <? ?b then _ else _] =>
               let E := fresh "E" in
               destruct (a <? b) eqn:E;
               [apply Z.ltb_lt in E | apply Z.ltb_ge in E]
           end; lia.
Qed.

(** Reading the date object of a parsed date gives its day and month back,
    and its year as the [Date] constructor took it. *)
Lemma dateObj_parsed (y m d : Z) :
  validDay y m d ->
  JsDate.getFullYear (JsDate.make y (m - 1) d) = constructorYear y
  /\ JsDate.getMonth (JsDate.make y (m - 1) d) = m - 1
  /\ JsDate.getDate (JsDate.make y (m - 1) d) = d.
Proof.
  intros (Hm & Hd & Hlen).
  change (JsDate.make y (m - 1) d) with (JsDate.MakeDay (constructorYear y) (m - 1) d).
  destruct (@MakeDay_round_trip (constructorYear y) m d Hm Hd) as [Hrt Hy].
  apply Hrt in Hlen. apply andb_true_iff in Hlen. destruct Hlen as [H1 H2].
  apply Z.eqb_eq in H1, H2. auto.
Qed.

(** The text [getISOWeekKey] writes for a day parses back to that day. *)
Lemma parseDate_isoDate (t : JsDate.t) :
  1000 <= JsDate.getFullYear t <= 9999 ->
  parseDate (VString (isoDate t))
  = Some (parsed (JsDate.getFullYear t) (JsDate.getMonth t + 1) (JsDate.getDate t))
  /\ JsDate.make (JsDate.getFullYear t) (JsDate.getMonth t) (JsDate.getDate t) = t.
Proof.
  intros Hy.
  pose proof (getDate_range t) as Hd.
  assert (Hm : 0 <= JsDate.getMonth t <= 11) by apply MonthFromDay_range.
  assert (Hmk : JsDate.make (JsDate.getFullYear t) (JsDate.getMonth t) (JsDate.getDate t) = t).
  { unfold JsDate.make.
    replace ((0 <=? JsDate.getFullYear t) && (JsDate.getFullYear t <=? 99)) with false
      by (symmetry; apply andb_false_iff; right; apply Z.leb_gt; lia).
    apply MakeDay_of_getters. }
  split; [|exact Hmk].
  assert (Hiso : isoDate t
                 = formatYMD (JsDate.getFullYear t) (JsDate.getMonth t + 1)
                             (JsDate.getDate t)).
  { unfold isoDate, formatYMD.
    rewrite of_Z_fourDigits by lia. rewrite !pad2_twoDigits by lia. reflexivity. }
  rewrite Hiso.
  rewrite (@parseDate_wellFormed _ (JsDate.getFullYear t) (JsDate.getMonth t + 1)
             (JsDate.getDate t)).
  - apply parseDate_ymd_valid. unfold validDay.
    assert (Hc : constructorYear (JsDate.getFullYear t) = JsDate.getFullYear t).
    { unfold constructorYear.
      replace ((0 <=? JsDate.getFullYear t) && (JsDate.getFullYear t <=? 99)) with false
        by (symmetry; apply andb_false_iff; right; apply Z.leb_gt; lia).
      reflexivity. }
    rewrite Hc. split; [lia|]. split; [lia|].
    destruct (@MakeDay_round_trip (JsDate.getFullYear t) (JsDate.getMonth t + 1)
                (JsDate.getDate t) ltac:(lia) ltac:(lia)) as [Hrt _].
    apply Hrt.
    replace (JsDate.getMonth t + 1 - 1) with (JsDate.getMonth t) by lia.
    rewrite MakeDay_of_getters, !Z.eqb_refl. reflexivity.
  - split; [lia|]. right. apply trim_formatYMD; lia.
Qed.

(** X14. The [Date] object of a parsed date reads back the day and the
    month of the text; its year is the year of the text from year 100 on,
    and 1900 + year for the years 0 to 99 (the rule of the [Date]
    constructor).  [dayOfWeek] (0 to 6) and [weekKey] are those of that
    object. *)
Theorem parsed_date_object_reads_back (v : value) (p : ParsedDate) :
  parseDate v = Some p ->
  (JsDate.getFullYear (dateObj p) = constructorYear (year p)
   /\ JsDate.getMonth (dateObj p) = month p - 1
   /\ JsDate.getDate (dateObj p) = day p)
  /\ (dayOfWeek p = JsDate.getDay (dateObj p) /\ 0 <= dayOfWeek p <= 6)
  /\ weekKey p = getISOWeekKey (dateObj p)
  /\ (100 <= year p -> JsDate.getFullYear (dateObj p) = year p)
  /\ (0 <= year p <= 99 -> JsDate.getFullYear (dateObj p) = 1900 + year p).
Proof.
  intros Hp.
  destruct (parseDate_inv _ Hp) as (s & y & m & d & _ & [(Hy & _) _] & Hv & ->).
  cbn [parsed year month day dateObj dayOfWeek weekKey].
  destruct (dateObj_parsed Hv) as (H1 & H2 & H3).
  split; [auto|]. split.
  { split; [reflexivity|]. unfold JsDate.getDay.
    pose proof (Z.mod_pos_bound (JsDate.make y (m - 1) d + 4) 7). lia. }
  split; [reflexivity|]. rewrite H1. unfold constructorYear.
  split; intros Hr.
  - replace ((0 <=? y) && (y <=? 99)) with false
      by (symmetry; apply andb_false_iff; right; apply Z.leb_gt; lia).
    reflexivity.
  - replace ((0 <=? y) && (y <=? 99)) with true
      by (symmetry; apply andb_true_iff; split; apply Z.leb_le; lia).
    reflexivity.
Qed.

Lemma parsed_date_object_reads_back_witness :
  JsDate.getFullYear (dateObj (parsed 2024 2 29)) = 2024
  /\ JsDate.getMonth (dateObj (parsed 2024 2 29)) = 1
  /\ JsDate.getDate (dateObj (parsed 2024 2 29)) = 29.
Proof.
  exact (proj1 (@parsed_date_object_reads_back (VString "29-02-2024")
                  (parsed 2024 2 29) eq_refl)).
Defined.

(** X15. A week key is itself a date [parseDate] accepts: when the day
    the key is written for lies in the years 1000 to 9999, parsing the key
    gives that day, which is a Monday, and its own week key is the same
    key. *)
Theorem week_key_parses_back_to_its_monday (v : value) (p : ParsedDate) :
  parseDate v = Some p ->
  let monday := dateObj p - dayOfWeek p + 1 in
  1000 <= JsDate.getFullYear monday <= 9999 ->
  exists q,
    parseDate (VString (weekKey p)) = Some q
    /\ dateObj q = monday
    /\ dayOfWeek q = 1
    /\ weekKey q = weekKey p.
Proof.
  intros Hp monday Hy.
  destruct (parseDate_inv _ Hp) as (s & y & m & d & _ & _ & _ & ->).
  cbn [parsed dateObj dayOfWeek weekKey] in *.
  rewrite getISOWeekKey_shift. fold monday.
  destruct (@parseDate_isoDate monday Hy) as [E Hmk].
  eexists. split; [exact E|].
  cbn [parsed dateObj dayOfWeek weekKey].
  replace (JsDate.getMonth monday + 1 - 1) with (JsDate.getMonth monday) by lia.
  rewrite Hmk.
  assert (Hd : JsDate.getDay monday = 1).
  { unfold monday, JsDate.getDay. Z.div_mod_to_equations. lia. }
  split; [reflexivity|]. split; [exact Hd|].
  rewrite getISOWeekKey_shift, Hd. f_equal. lia.
Qed.

Lemma week_key_parses_back_to_its_monday_witness :
  exists q,
    parseDate (VString (weekKey (parsed 2025 1 5))) = Some q
    /\ dateObj q = dateObj (parsed 2025 1 5) - dayOfWeek (parsed 2025 1 5) + 1
    /\ dayOfWeek q = 1
    /\ weekKey q = weekKey (parsed 2025 1 5).
Proof.
  apply (@week_key_parses_back_to_its_monday (VString "05-01-2025")
           (parsed 2025 1 5) eq_refl).
  vm_compute. split; intros C; discriminate C.
Defined.

(* ================================================================== *)
(** * More properties: the anomaly step *)

Section AnomalyStepProperties.
Context {host : Host}.

Lemma anomalyInsights_lists (anomalies : list Anomaly.t) :
  findings (anomalyInsights anomalies)
  = flat_map (fun a =>
                match Anomaly.type a with
                | Spike =>
                    [("Unusual revenue spike in " ++ Anomaly.period a ++ " ($"
                      ++ formatCurrency (Anomaly.value a) ++ " vs avg $"
                      ++ formatCurrency (Anomaly.average a)
                      ++ "). Check for bulk orders or data errors.")%string]
                | Drop => []
                end) anomalies
  /\ warnings (anomalyInsights anomalies)
     = flat_map (fun a =>
                   match Anomaly.type a with
                   | Spike => []
                   | Drop =>
                       [("Revenue dropped in " ++ Anomaly.period a
                         ++ ". Confirm if real or a data issue.")%string]
                   end) anomalies
  /\ actions (anomalyInsights anomalies) = [].
Proof.
  unfold anomalyInsights.
  match goal with
  | |- context [fold_left ?f anomalies noInsights] =>
      assert (G : forall init,
                 findings (fold_left f anomalies init)
                 = findings init
                   ++ flat_map (fun a =>
                        match Anomaly.type a with
                        | Spike =>
                            [("Unusual revenue spike in " ++ Anomaly.period a ++ " ($"
                              ++ formatCurrency (Anomaly.value a) ++ " vs avg $"
                              ++ formatCurrency (Anomaly.average a)
                              ++ "). Check for bulk orders or data errors.")%string]
                        | Drop => []
                        end) anomalies
                 /\ warnings (fold_left f anomalies init)
                    = warnings init
                      ++ flat_map (fun a =>
                           match Anomaly.type a with
                           | Spike => []
                           | Drop =>
                               [("Revenue dropped in " ++ Anomaly.period a
                                 ++ ". Confirm if real or a data issue.")%string]
                           end) anomalies
                 /\ actions (fold_left f anomalies init) = actions init)
  end.
  { induction anomalies as [|a l IH]; intros init; cbn [fold_left flat_map].
    - rewrite !app_nil_r. repeat split.
    - destruct (IH (pushAll init
                      match Anomaly.type a with
                      | Spike =>
                          {| findings :=
                               [("Unusual revenue spike in " ++ Anomaly.period a ++ " ($"
                                 ++ formatCurrency (Anomaly.value a) ++ " vs avg $"
                                 ++ formatCurrency (Anomaly.average a)
                                 ++ "). Check for bulk orders or data errors.")%string];
                             actions := []; warnings := [] |}
                      | Drop =>
                          {| findings := []; actions := [];
                             warnings :=
                               [("Revenue dropped in " ++ Anomaly.period a
                                 ++ ". Confirm if real or a data issue.")%string] |}
                      end)) as (F & W & A).
      rewrite F, W, A. unfold pushAll.
      destruct (Anomaly.type a); cbn [findings warnings actions];
        rewrite <- ?app_assoc, ?app_nil_r; repeat split. }
  destruct (G noInsights) as (F & W & A). rewrite F, W, A. repeat split.
Qed.

Lemma periodValuesOf_monthly (rows : list Row) :
  let byMonth := aggregateByMonth rows in
  let monthKeys := sortStrings (JsMap.keys byMonth) in
  (2 <= List.length monthKeys)%nat ->
  periodValuesOf rows byMonth monthKeys
  = map (fun k => entry (monthLabel k)
                        (sumOf getRevenue (rowsOf (dateKey monthKey) k rows)))
        monthKeys.
Proof.
  intros byMonth monthKeys Hlen. unfold periodValuesOf.
  replace (2 <=? List.length monthKeys)%nat with true
    by (symmetry; apply Nat.leb_le; exact Hlen).
  apply map_ext_in. intros k Hk. unfold entry. f_equal.
  apply revenueAt_aggregateBy.
  apply (Permutation_in _ (sortStrings_Permutation _)). exact Hk.
Qed.

(** X16. The anomaly step reads, with at least two month keys, one entry
    per month key in sorted order: the name of the month and the sum of
    [getRevenue] over the rows of the month.  It pushes a finding exactly for
    the entries [detectAnomalies] flags as a spike, with the period, its
    value and the average in the sentence, a warning exactly for the entries
    flagged as a drop, and no action. *)
Theorem anomaly_sentences_are_for_flagged_periods (rows : list Row) :
  let byMonth := aggregateByMonth rows in
  let monthKeys := sortStrings (JsMap.keys byMonth) in
  let periodValues := periodValuesOf rows byMonth monthKeys in
  let avg := mean (validValues periodValues) in
  let std := stdDev (validValues periodValues) in
  let out := anomalyInsights (detectAnomalies periodValues) in
  ((2 <= List.length monthKeys)%nat ->
   periodValues
   = map (fun k => entry (monthLabel k)
                         (sumOf getRevenue (rowsOf (dateKey monthKey) k rows)))
         monthKeys)
  /\ (forall s,
        In s (findings out) <->
        (2 <= List.length (validValues periodValues))%nat
        /\ exists pv,
             In pv periodValues
             /\ Num.isFinite (PeriodValue.value pv) = true
             /\ flaggedSpike avg std (PeriodValue.value pv)
             /\ s = ("Unusual revenue spike in " ++ PeriodValue.period pv ++ " ($"
                     ++ formatCurrency (PeriodValue.value pv) ++ " vs avg $"
                     ++ formatCurrency avg
                     ++ "). Check for bulk orders or data errors.")%string)
  /\ (forall w,
        In w (warnings out) <->
        (2 <= List.length (validValues periodValues))%nat
        /\ exists pv,
             In pv periodValues
             /\ Num.isFinite (PeriodValue.value pv) = true
             /\ flaggedDrop avg std (PeriodValue.value pv)
             /\ w = ("Revenue dropped in " ++ PeriodValue.period pv
                     ++ ". Confirm if real or a data issue.")%string)
  /\ actions out = [].
Proof.
  intros byMonth monthKeys periodValues avg std out.
  split; [apply periodValuesOf_monthly|].
  destruct (anomalyInsights_lists (detectAnomalies periodValues)) as (F & W & A).
  fold out in F, W, A. rewrite F, W, A. clear F W A.
  assert (D : forall a,
             In a (detectAnomalies periodValues) <->
             (2 <= List.length (validValues periodValues))%nat
             /\ exists pv, In pv periodValues /\ In a (anomaliesOf avg std pv)).
  { intros a. unfold detectAnomalies.
    destruct (List.length (validValues periodValues) <? 2)%nat eqn:L.
    - apply Nat.ltb_lt in L. split; [intros [] | intros [H _]; lia].
    - apply Nat.ltb_ge in L. fold avg std. rewrite in_flat_map. tauto. }
  split; [|split; [|reflexivity]].
  - intros s. rewrite in_flat_map. split.
    + intros (a & Ha & Hs). apply D in Ha. destruct Ha as (L & pv & Hpv & Ha).
      split; [exact L|]. exists pv. split; [exact Hpv|].
      apply in_anomaliesOf in Ha.
      destruct Ha as (Hfin & [(-> & Hflag) | (-> & Hflag)]);
        cbn [spikeOf dropOf Anomaly.type Anomaly.period Anomaly.value
             Anomaly.average In] in Hs; [|destruct Hs].
      destruct Hs as [<-|[]]. auto.
    + intros (L & pv & Hpv & Hfin & Hflag & ->).
      exists (spikeOf avg pv). split.
      * apply D. split; [exact L|]. exists pv. split; [exact Hpv|].
        apply in_anomaliesOf. auto.
      * left. reflexivity.
  - intros w. rewrite in_flat_map. split.
    + intros (a & Ha & Hs). apply D in Ha. destruct Ha as (L & pv & Hpv & Ha).
      split; [exact L|]. exists pv. split; [exact Hpv|].
      apply in_anomaliesOf in Ha.
      destruct Ha as (Hfin & [(-> & Hflag) | (-> & Hflag)]);
        cbn [spikeOf dropOf Anomaly.type Anomaly.period Anomaly.value
             Anomaly.average In] in Hs; [destruct Hs|].
      destruct Hs as [<-|[]]. auto.
    + intros (L & pv & Hpv & Hfin & Hflag & ->).
      exists (dropOf avg pv). split.
      * apply D. split; [exact L|]. exists pv. split; [exact Hpv|].
        apply in_anomaliesOf. auto.
      * left. reflexivity.
Qed.

End AnomalyStepProperties.

(* ================================================================== *)
(** * More properties: steady demand *)

Section SteadyDemandProperties.
Context {host : Host}.

Lemma productPeriodsOf_groupFold (useWeekly : bool) (rows : list Row) :
  productPeriodsOf useWeekly rows
  = groupFold datedProduct (fun _ _ => []) (periodStep useWeekly) rows [].
Proof.
  unfold productPeriodsOf, groupFold.
  match goal with
  | |- fold_left ?f rows [] = fold_left ?g rows [] =>
      assert (G : forall init, fold_left f rows init = fold_left g rows init)
  end.
  { induction rows as [|row rows IH]; intros init; cbn [fold_left]; [reflexivity|].
    rewrite IH. unfold datedProduct, periodStep.
    destruct (parseDate (date row)); reflexivity. }
  apply G.
Qed.

Lemma fold_periodStep (useWeekly : bool) (rows : list Row) (init : JsSet.t string) :
  fold_left (periodStep useWeekly) rows init
  = fold_left (fun s k => JsSet.add String.eqb k s)
              (keysOf (dateKey (periodKeyOf useWeekly)) rows) init.
Proof.
  revert init. induction rows as [|row rows IH]; intros init;
    cbn [fold_left keysOf flat_map]; [reflexivity|].
  rewrite fold_left_app, IH. unfold periodStep, dateKey.
  destruct (parseDate (date row)); reflexivity.
Qed.

(** X17. The product the steady-demand step names has a row whose date
    parses, and the rows of that product with such a date lie in at least
    min(3, periodCount) different periods (weeks or months); the step says
    nothing when there are fewer than 2 periods. *)
Theorem steady_demand_names_a_product_of_many_periods (useWeekly : bool)
  (rows : list Row) (monthKeys : list string) (s : string) :
  In s (findings (steadyDemand useWeekly rows monthKeys
                               (productPeriodsOf useWeekly rows))) ->
  let periodCount := if useWeekly then distinctWeeks rows
                     else List.length monthKeys in
  exists name,
    s = (name ++ " sells in many periods " ++ Str.emdash ++ " steady demand.")%string
    /\ (2 <= periodCount)%nat
    /\ (Nat.min 3 periodCount
        <= List.length (periodsOfProduct useWeekly name rows))%nat
    /\ exists row, In row rows /\ datedProduct row = Some name.
Proof.
  unfold steadyDemand. cbv zeta.
  set (periodCount := if useWeekly then distinctWeeks rows else List.length monthKeys).
  destruct (2 <=? periodCount)%nat eqn:L; [|intros []]. apply Nat.leb_le in L.
  destruct (map fst (filter _ (productPeriodsOf useWeekly rows)))
    as [|name others] eqn:E; [intros []|].
  cbn [findings In]. intros [<-|[]]. exists name. split; [reflexivity|].
  split; [exact L|].
  assert (Hin : In name (map fst (filter
                 (fun entry => (Nat.min 3 periodCount <=? JsSet.size (snd entry))%nat)
                 (productPeriodsOf useWeekly rows))))
    by (rewrite E; left; reflexivity).
  apply in_map_iff in Hin. destruct Hin as ([k set] & Hk & Hf).
  cbn [fst] in Hk. subst k. apply filter_In in Hf. destruct Hf as [Hentry Hsize].
  cbn [snd] in Hsize. apply Nat.leb_le in Hsize.
  rewrite productPeriodsOf_groupFold in Hentry.
  destruct (entry_groupFold _ _ _ _ _ _ Hentry) as (first & rest & Hrows & ->).
  rewrite fold_periodStep in Hsize. split.
  - unfold periodsOfProduct. rewrite Hrows. exact Hsize.
  - exists first.
    assert (Hfirst : In first (rowsOf datedProduct name rows))
      by (rewrite Hrows; left; reflexivity).
    unfold rowsOf in Hfirst. apply filter_In in Hfirst.
    destruct Hfirst as [Hr Hk]. split; [exact Hr|].
    destruct (datedProduct first) as [k|]; [|discriminate Hk].
    apply String.eqb_eq in Hk. rewrite Hk. reflexivity.
Qed.

End SteadyDemandProperties.

Section SteadyDemandExample.
#[local] Existing Instance exampleHost.

Lemma steady_demand_names_a_product_of_many_periods_witness :
  exists name,
    ("A sells in many periods " ++ Str.emdash ++ " steady demand.")%string
    = (name ++ " sells in many periods " ++ Str.emdash ++ " steady demand.")%string
    /\ (2 <= distinctWeeks threeWeeksOfJanuary)%nat
    /\ (Nat.min 3 (distinctWeeks threeWeeksOfJanuary)
        <= List.length (periodsOfProduct true name threeWeeksOfJanuary))%nat
    /\ exists row, In row threeWeeksOfJanuary /\ datedProduct row = Some name.
Proof.
  apply (@steady_demand_names_a_product_of_many_periods exampleHost true
           threeWeeksOfJanuary ["2025-01"]
           ("A sells in many periods " ++ Str.emdash ++ " steady demand.")%string).
  vm_compute. left. reflexivity.
Defined.

End SteadyDemandExample.

(* ================================================================== *)
(** * More properties: [trim] and the comparison of numbers *)

Lemma trimStart_head (s : string) :
  match Str.trimStart s with
  | EmptyString => True
  | String c _ => Str.is_space c = false
  end.
Proof.
  induction s as [|c s IH]; cbn [Str.trimStart]; [exact I|].
  destruct (Str.is_space c) eqn:E; [exact IH | exact E].
Qed.

Lemma trimEnd_head (c : ascii) (s : string) :
  Str.is_space c = false -> exists t, Str.trimEnd (String c s) = String c t.
Proof.
  intros E. cbn [Str.trimEnd]. rewrite E.
  destruct (Str.trimEnd s); eexists; reflexivity.
Qed.

Lemma trimEnd_idem (s : string) : Str.trimEnd (Str.trimEnd s) = Str.trimEnd s.
Proof.
  induction s as [|c s IH]; [reflexivity|]. cbn [Str.trimEnd].
  destruct (Str.trimEnd s) as [|d t] eqn:E.
  - destruct (Str.is_space c) eqn:Ec; [reflexivity|].
    cbn [Str.trimEnd]. rewrite Ec. reflexivity.
  - cbn [Str.trimEnd]. cbn [Str.trimEnd] in IH. rewrite IH. reflexivity.
Qed.

Lemma trim_idem (s : string) : Str.trim (Str.trim s) = Str.trim s.
Proof.
  unfold Str.trim. pose proof (trimStart_head s) as H.
  destruct (Str.trimStart s) as [|c t]; [reflexivity|].
  destruct (@trimEnd_head c t H) as [u E]. rewrite E.
  cbn [Str.trimStart]. rewrite H, <- E. apply trimEnd_idem.
Qed.

(** A property of every character of a text. *)
Lemma allChars_trimStart (P : ascii -> bool) (s : string) :
  forallb P (list_ascii_of_string s) = true ->
  forallb P (list_ascii_of_string (Str.trimStart s)) = true.
Proof.
  induction s as [|c s IH]; cbn [Str.trimStart]; [trivial|].
  destruct (Str.is_space c); [|trivial].
  cbn [list_ascii_of_string forallb]. intros H.
  apply andb_true_iff in H. apply IH, H.
Qed.

Lemma allChars_trimEnd (P : ascii -> bool) (s : string) :
  forallb P (list_ascii_of_string s) = true ->
  forallb P (list_ascii_of_string (Str.trimEnd s)) = true.
Proof.
  induction s as [|c s IH]; [trivial|].
  cbn [list_ascii_of_string forallb Str.trimEnd]. intros H.
  apply andb_true_iff in H. destruct H as [Hc Hs]. specialize (IH Hs).
  destruct (Str.trimEnd s) as [|d t].
  - destruct (Str.is_space c); [reflexivity|].
    cbn [list_ascii_of_string forallb]. rewrite Hc. reflexivity.
  - cbn [list_ascii_of_string forallb] in *. rewrite Hc. exact IH.
Qed.

Lemma allChars_trim (P : ascii -> bool) (s : string) :
  forallb P (list_ascii_of_string s) = true ->
  forallb P (list_ascii_of_string (Str.trim s)) = true.
Proof. intros H. apply allChars_trimEnd, allChars_trimStart, H. Qed.

Lemma allChars_snoc (P : ascii -> bool) (s : string) (c : ascii) :
  forallb P (list_ascii_of_string s) = true -> P c = true ->
  forallb P (list_ascii_of_string (s ++ String c "")) = true.
Proof.
  intros Hs Hc. induction s as [|d s IH];
    cbn [append list_ascii_of_string forallb] in *.
  - rewrite Hc. reflexivity.
  - apply andb_true_iff in Hs. destruct Hs as [Hd Hs]. rewrite Hd, (IH Hs).
    reflexivity.
Qed.

(** A number that passed a check against 0. *)

Lemma SFcompare_None (a b : spec_float) :
  SFcompare a b = None -> a = S754_nan \/ b = S754_nan.
Proof.
  destruct a as [s|s| |s m e], b as [s'|s'| |s' m' e']; cbn; intros H;
    try discriminate H; auto.
Qed.

Lemma is_nan_false (x : float) :
  PrimFloat.is_nan x = false -> Prim2SF x <> S754_nan.
Proof.
  unfold PrimFloat.is_nan. rewrite eqb_spec. unfold SFeqb. intros H E.
  rewrite E in H. discriminate H.
Qed.

Lemma float_not_leb_ltb (x y : float) :
  PrimFloat.is_nan x = false -> PrimFloat.is_nan y = false ->
  (x <=? y)%float = false -> (y <? x)%float = true.
Proof.
  intros Hx Hy. apply is_nan_false in Hx, Hy.
  rewrite leb_spec, ltb_spec. unfold SFleb, SFltb.
  rewrite (SFcompare_antisym (Prim2SF x) (Prim2SF y)).
  destruct (SFcompare (Prim2SF x) (Prim2SF y)) as [[| |]|] eqn:E; cbn;
    intros H; try discriminate H; try reflexivity.
  apply SFcompare_None in E. tauto.
Qed.

Lemma float_not_ltb_leb (x y : float) :
  PrimFloat.is_nan x = false -> PrimFloat.is_nan y = false ->
  (x <? y)%float = false -> (y <=? x)%float = true.
Proof.
  intros Hx Hy. apply is_nan_false in Hx, Hy.
  rewrite leb_spec, ltb_spec. unfold SFleb, SFltb.
  rewrite (SFcompare_antisym (Prim2SF x) (Prim2SF y)).
  destruct (SFcompare (Prim2SF x) (Prim2SF y)) as [[| |]|] eqn:E; cbn;
    intros H; try discriminate H; try reflexivity.
  apply SFcompare_None in E. tauto.
Qed.

Lemma float_leb_not_ltb (x y : float) :
  (x <=? y)%float = true -> (y <? x)%float = false.
Proof.
  rewrite leb_spec, ltb_spec. unfold SFleb, SFltb.
  rewrite (SFcompare_antisym (Prim2SF x) (Prim2SF y)).
  destruct (SFcompare (Prim2SF x) (Prim2SF y)) as [[| |]|]; cbn;
    intros H; try discriminate H; reflexivity.
Qed.

Lemma float_ltb_not_leb (x y : float) :
  (x <? y)%float = true -> (y <=? x)%float = false.
Proof.
  rewrite leb_spec, ltb_spec. unfold SFleb, SFltb.
  rewrite (SFcompare_antisym (Prim2SF x) (Prim2SF y)).
  destruct (SFcompare (Prim2SF x) (Prim2SF y)) as [[| |]|]; cbn;
    intros H; try discriminate H; reflexivity.
Qed.


(* ================================================================== *)
(** * More properties: the date field of the entry form *)

Lemma allDigits_digitsOnly (s : string) : allDigits (FormCard.digitsOnly s) = true.
Proof.
  unfold allDigits. induction s as [|c s IH]; cbn [FormCard.digitsOnly];
    [reflexivity|].
  destruct (Str.is_digit c) eqn:E; [|exact IH].
  cbn [list_ascii_of_string forallb]. rewrite E, IH. reflexivity.
Qed.

Lemma allDigits_take (n : nat) (s : string) :
  allDigits s = true -> allDigits (FormCard.take n s) = true.
Proof.
  unfold allDigits. revert s. induction n as [|n IH]; intros s H;
    [destruct s; reflexivity|].
  destruct s as [|c s]; [reflexivity|].
  cbn [FormCard.take list_ascii_of_string forallb] in *.
  apply andb_true_iff in H. destruct H as [Hc Hs]. rewrite Hc, (IH _ Hs).
  reflexivity.
Qed.

Lemma length_take (n : nat) (s : string) :
  String.length (FormCard.take n s) = Nat.min n (String.length s).
Proof.
  revert s. induction n as [|n IH]; intros s; [destruct s; reflexivity|].
  destruct s as [|c s]; [reflexivity|].
  cbn [FormCard.take String.length Nat.min]. rewrite IH. reflexivity.
Qed.

Lemma take_all (n : nat) (s : string) :
  (String.length s <= n)%nat -> FormCard.take n s = s.
Proof.
  revert s. induction n as [|n IH]; intros s H.
  - destruct s; [reflexivity | cbn in H; lia].
  - destruct s as [|c s]; [reflexivity|]. cbn [FormCard.take].
    rewrite IH; [reflexivity | cbn in H; lia].
Qed.

(** The digits the form keeps: at most 8, and digits only. *)
Lemma kept_digits (s : string) :
  let digits := FormCard.take 8 (FormCard.digitsOnly s) in
  allDigits digits = true
  /\ String.length digits = Nat.min 8 (String.length (FormCard.digitsOnly s)).
Proof.
  split; [apply allDigits_take, allDigits_digitsOnly | apply length_take].
Qed.

Ltac split_digits H :=
  unfold allDigits in H; cbn [list_ascii_of_string forallb] in H;
  repeat match type of H with
         | (_ && _) = true =>
             let D := fresh "D" in
             apply andb_true_iff in H; destruct H as [D H]
         end.

Ltac use_digits :=
  repeat match goal with
         | D : Str.is_digit ?a = true |- context [Str.is_digit ?a] => rewrite D
         end.

(** What [formatDate] makes of the digits it keeps, by their number. *)
Lemma formatDate_cases (s : string) :
  let digits := FormCard.take 8 (FormCard.digitsOnly s) in
  FormCard.digitsOnly (FormCard.formatDate s) = digits
  /\ (String.length (FormCard.formatDate s) <= 10)%nat
  /\ (String.length (FormCard.formatDate s) = 10%nat
      <-> String.length digits = 8%nat)
  /\ (String.length digits = 8%nat ->
      exists d m y, (0 <= d <= 99 /\ 0 <= m <= 99 /\ 0 <= y <= 9999)
                    /\ FormCard.formatDate s = formatDMY d m y).
Proof.
  intros digits. destruct (kept_digits s) as [Hd Hl]. fold digits in Hd, Hl.
  assert (Hle : (String.length digits <= 8)%nat) by lia. clear Hl.
  unfold FormCard.formatDate. fold digits. clearbody digits.
  do 9 (destruct digits as [|? digits];
        [split_digits Hd;
         cbn [String.length Nat.leb FormCard.slice FormCard.take FormCard.drop
              Nat.sub append FormCard.digitsOnly];
         use_digits;
         repeat split; try reflexivity; try lia; try discriminate|]).
  all: try (cbn in Hle; lia).
  all: intros _.
  all: match goal with
       | D1 : Str.is_digit ?a1 = true, D2 : Str.is_digit ?a2 = true,
         D3 : Str.is_digit ?a3 = true, D4 : Str.is_digit ?a4 = true,
         D5 : Str.is_digit ?a5 = true, D6 : Str.is_digit ?a6 = true,
         D7 : Str.is_digit ?a7 = true, D8 : Str.is_digit ?a8 = true
         |- exists d m y, _ /\
              String ?a1 (String ?a2 (String _ (String ?a3 (String ?a4
                (String _ (String ?a5 (String ?a6 (String ?a7
                   (String ?a8 _))))))))) = _ =>
           destruct (twoDigits_of_chars _ _ D1 D2) as [R1 E1];
           destruct (twoDigits_of_chars _ _ D3 D4) as [R2 E2];
           destruct (fourDigits_of_chars _ _ _ _ D5 D6 D7 D8) as [R3 E3];
           eexists _, _, _; split; [split; [apply R1 | split; [apply R2 | apply R3]]|];
           unfold formatDMY; rewrite <- E1, <- E2, <- E3; reflexivity
       end.
Qed.

Lemma length_formatDMY_10 (d m y : Z) : String.length (formatDMY d m y) = 10%nat.
Proof. reflexivity. Qed.

(** X18. [formatDate] is idempotent: formatting a formatted text changes
    nothing.  Its result has at most 10 characters, its digits are the first
    8 digits of the input, it is a text of the pattern DD-MM-YYYY exactly
    when the input has at least 8 digits, and a text of that pattern is left
    as it is. *)
Theorem formatDate_shapes_the_date_text (s : string) :
  FormCard.formatDate (FormCard.formatDate s) = FormCard.formatDate s
  /\ (String.length (FormCard.formatDate s) <= 10)%nat
  /\ FormCard.digitsOnly (FormCard.formatDate s)
     = FormCard.take 8 (FormCard.digitsOnly s)
  /\ ((exists d m y, (0 <= d <= 99 /\ 0 <= m <= 99 /\ 0 <= y <= 9999)
                     /\ FormCard.formatDate s = formatDMY d m y)
      <-> (8 <= String.length (FormCard.digitsOnly s))%nat)
  /\ (forall d m y, 0 <= d <= 99 -> 0 <= m <= 99 -> 0 <= y <= 9999 ->
                    FormCard.formatDate (formatDMY d m y) = formatDMY d m y).
Proof.
  destruct (formatDate_cases s) as (Hdig & Hlen & H10 & Hfull).
  destruct (kept_digits s) as [_ Hl]. cbv zeta in *.
  split; [|split; [exact Hlen|split; [exact Hdig|split]]].
  - unfold FormCard.formatDate at 1. rewrite Hdig.
    rewrite (@take_all 8 (FormCard.take 8 (FormCard.digitsOnly s))) by lia.
    reflexivity.
  - split.
    + intros (d & m & y & _ & E).
      assert (L : String.length (FormCard.formatDate s) = 10%nat)
        by (rewrite E; apply length_formatDMY_10).
      apply H10 in L. lia.
    + intros H8. apply Hfull. lia.
  - intros d m y Hd Hm Hy.
    destruct (digit_quot_bounds Hd) as [? ?]. destruct (digit_quot_bounds Hm) as [? ?].
    destruct (digit_quot_bounds4 Hy) as (? & ? & ? & ?). digit_facts.
    unfold FormCard.formatDate, formatDMY, twoDigits, fourDigits.
    cbn [append FormCard.digitsOnly]. use_digit_facts.
    replace (Str.is_digit "-") with false by reflexivity.
    cbn [FormCard.digitsOnly]. use_digit_facts. reflexivity.
Qed.

Lemma digits_value_twoDigits (n : Z) :
  0 <= n <= 99 -> FormCard.numberOfDigits (twoDigits n) = n.
Proof.
  intros Hn. destruct (digit_quot_bounds Hn) as [Ha Hb]. digit_facts.
  unfold FormCard.numberOfDigits, twoDigits. cbn [Str.digits_value].
  use_digit_facts. Z.div_mod_to_equations. lia.
Qed.

Lemma digits_value_fourDigits (n : Z) :
  0 <= n <= 9999 -> FormCard.numberOfDigits (fourDigits n) = n.
Proof.
  intros Hn. destruct (digit_quot_bounds4 Hn) as (Ha & Hb & Hc & Hd). digit_facts.
  unfold FormCard.numberOfDigits, fourDigits. cbn [Str.digits_value].
  use_digit_facts. Z.div_mod_to_equations. lia.
Qed.

Lemma split_dash_formatDMY (d m y : Z) :
  0 <= d <= 99 -> 0 <= m <= 99 -> 0 <= y <= 9999 ->
  Str.split_dash (formatDMY d m y) = [twoDigits d; twoDigits m; fourDigits y].
Proof.
  intros Hd Hm Hy.
  destruct (digit_quot_bounds Hd) as [? ?]. destruct (digit_quot_bounds Hm) as [? ?].
  destruct (digit_quot_bounds4 Hy) as (? & ? & ? & ?). digit_facts.
  unfold Str.split_dash, formatDMY, twoDigits, fourDigits.
  cbn [append Str.split_dash_aux]. use_digit_facts.
  cbn [Ascii.eqb Bool.eqb append]. use_digit_facts.
  cbn [append Str.split_dash_aux]. use_digit_facts. reflexivity.
Qed.

(** What [isValidDate] computes on a text of the pattern. *)
Lemma isValidDate_formatDMY (d m y : Z) :
  0 <= d <= 99 -> 0 <= m <= 99 -> 0 <= y <= 9999 ->
  FormCard.isValidDate (formatDMY d m y)
  = ((1 <=? d) && (d <=? 31)) && ((1 <=? m) && (m <=? 12))
    && ((2000 <=? y) && (y <=? 2100)).
Proof.
  intros Hd Hm Hy. unfold FormCard.isValidDate.
  rewrite (match_2_2_4_formatDMY Hd Hm Hy), (split_dash_formatDMY Hd Hm Hy).
  cbn [map]. rewrite !digits_value_twoDigits, digits_value_fourDigits by assumption.
  rewrite !Z.gtb_ltb, !Z.ltb_antisym.
  destruct (1 <=? m), (m <=? 12), (1 <=? d), (d <=? 31), (2000 <=? y),
    (y <=? 2100); reflexivity.
Qed.

Lemma isValidDate_true_iff (s : string) :
  FormCard.isValidDate s = true <->
  exists d m y, s = formatDMY d m y
                /\ 1 <= d <= 31 /\ 1 <= m <= 12 /\ 2000 <= y <= 2100.
Proof.
  split.
  - intros H. unfold FormCard.isValidDate in H.
    destruct (match_2_2_4 s) as [[[g1 g2] g3]|] eqn:M; [|discriminate H].
    destruct (match_2_2_4_inv _ M) as (d & m & y & Hd & Hm & Hy & -> & _).
    assert (V : FormCard.isValidDate (formatDMY d m y) = true).
    { unfold FormCard.isValidDate. rewrite M. exact H. }
    rewrite (isValidDate_formatDMY Hd Hm Hy) in V.
    repeat rewrite andb_true_iff in V. rewrite !Z.leb_le in V.
    exists d, m, y. split; [reflexivity | lia].
  - intros (d & m & y & -> & Hd & Hm & Hy).
    rewrite isValidDate_formatDMY by lia.
    repeat rewrite andb_true_iff. rewrite !Z.leb_le. lia.
Qed.

(** [parseDate] on a text the form accepts: a day that is not in the
    calendar is rejected, and what is accepted is a day of the calendar. *)
Lemma parseDate_of_form_date (d m y : Z) :
  1 <= d <= 31 -> 1 <= m <= 12 -> 2000 <= y <= 2100 ->
  (daysInMonth y m < d -> parseDate (VString (formatDMY d m y)) = None)
  /\ (forall p, parseDate (VString (formatDMY d m y)) = Some p ->
                p = parsed y m d /\ d <= daysInMonth y m).
Proof.
  intros Hd Hm Hy.
  assert (W : wellFormed (Str.trim (formatDMY d m y)) y m d).
  { split; [lia|]. left. apply trim_formatDMY; lia. }
  rewrite (parseDate_wellFormed _ W).
  assert (C : constructorYear y = y).
  { unfold constructorYear.
    replace ((0 <=? y) && (y <=? 99)) with false
      by (symmetry; apply andb_false_iff; right; apply Z.leb_gt; lia).
    reflexivity. }
  split.
  - intros G. destruct (parseDate_ymd y m d) as [p|] eqn:E; [|reflexivity].
    apply parseDate_ymd_inv in E. destruct E as [(_ & _ & L) _].
    rewrite C in L. lia.
  - intros p E. apply parseDate_ymd_inv in E. destruct E as [(_ & _ & L) ->].
    rewrite C in L. split; [reflexivity|exact L].
Qed.

(** X19. [isValidDate] accepts exactly the texts DD-MM-YYYY with a day
    from 1 to 31, a month from 1 to 12 and a year from 2000 to 2100.  It
    does not look at the calendar: of the texts it accepts, [parseDate]
    rejects those whose day does not exist in the month, and what
    [parseDate] accepts of them is a day of the calendar, returned with the
    same day, month and year; every text of the pattern that [parseDate]
    accepts with a year from 2000 to 2100 is accepted. *)
Theorem isValidDate_checks_ranges_not_the_calendar (s : string) :
  (FormCard.isValidDate s = true <->
   exists d m y, s = formatDMY d m y
                 /\ 1 <= d <= 31 /\ 1 <= m <= 12 /\ 2000 <= y <= 2100)
  /\ (forall d m y,
        s = formatDMY d m y -> 1 <= d <= 31 -> 1 <= m <= 12 -> 2000 <= y <= 2100 ->
        (daysInMonth y m < d -> parseDate (VString s) = None)
        /\ (forall p, parseDate (VString s) = Some p ->
                      year p = y /\ month p = m /\ day p = d
                      /\ d <= daysInMonth y m))
  /\ (forall p, match_2_2_4 s <> None -> parseDate (VString s) = Some p ->
                2000 <= year p <= 2100 -> FormCard.isValidDate s = true).
Proof.
  split; [apply isValidDate_true_iff|]. split.
  - intros d m y -> Hd Hm Hy.
    destruct (parseDate_of_form_date Hd Hm Hy) as [HN HS].
    split; [exact HN|]. intros p Hp.
    destruct (HS p Hp) as [-> L]. repeat split; exact L.
  - intros p HM Hp Hy.
    destruct (match_2_2_4 s) as [[[g1 g2] g3]|] eqn:M; [|congruence].
    destruct (match_2_2_4_inv _ M) as (d & m & y & Hd & Hm & Hy' & -> & _).
    assert (W : wellFormed (Str.trim (formatDMY d m y)) y m d).
    { split; [lia|]. left. apply trim_formatDMY; lia. }
    rewrite (parseDate_wellFormed _ W) in Hp.
    apply parseDate_ymd_inv in Hp. destruct Hp as [(Vm & Vd & _) ->].
    cbn [parsed year] in Hy.
    rewrite isValidDate_formatDMY by lia.
    repeat rewrite andb_true_iff. rewrite !Z.leb_le. lia.
Qed.

Lemma digitsOnly_formatDMY (d m y : Z) :
  0 <= d <= 99 -> 0 <= m <= 99 -> 0 <= y <= 9999 ->
  FormCard.digitsOnly (formatDMY d m y)
  = (twoDigits d ++ twoDigits m ++ fourDigits y)%string.
Proof.
  intros Hd Hm Hy.
  destruct (digit_quot_bounds Hd) as [? ?]. destruct (digit_quot_bounds Hm) as [? ?].
  destruct (digit_quot_bounds4 Hy) as (? & ? & ? & ?). digit_facts.
  unfold formatDMY, twoDigits, fourDigits.
  cbn [append FormCard.digitsOnly]. use_digit_facts.
  replace (Str.is_digit "-") with false by reflexivity.
  cbn [FormCard.digitsOnly]. use_digit_facts. reflexivity.
Qed.

(** X20. The date field holds [formatDate] of what was typed, and
    [isValidDate] accepts it exactly when the first 8 digits typed, read as
    DDMMYYYY, give a day from 1 to 31, a month from 1 to 12 and a year from
    2000 to 2100; whatever else was typed between or after them does not
    matter. *)
Theorem a_typed_date_is_valid_by_its_first_eight_digits (v : string) :
  FormCard.isValidDate (FormCard.formatDate v) = true <->
  exists d m y,
    FormCard.take 8 (FormCard.digitsOnly v)
    = (twoDigits d ++ twoDigits m ++ fourDigits y)%string
    /\ FormCard.formatDate v = formatDMY d m y
    /\ 1 <= d <= 31 /\ 1 <= m <= 12 /\ 2000 <= y <= 2100.
Proof.
  rewrite isValidDate_true_iff. split.
  - intros (d & m & y & E & Hd & Hm & Hy). exists d, m, y.
    split; [|auto].
    destruct (formatDate_cases v) as (Hdig & _). cbv zeta in Hdig.
    rewrite <- Hdig, E. apply digitsOnly_formatDMY; lia.
  - intros (d & m & y & _ & E & Hd & Hm & Hy). exists d, m, y. auto.
Qed.

Section FormProperties.
Context {host : Host}.

Lemma is_finite_not_nan (x : float) :
  Num.isFinite x = true -> PrimFloat.is_nan x = false.
Proof.
  unfold Num.isFinite, PrimFloat.is_finite. intros H.
  apply negb_true_iff, orb_false_iff in H. apply H.
Qed.

(** X21. A row [handleSubmit] passes on has a date text DD-MM-YYYY within
    the ranges of [isValidDate], which the engine counts as a missing or
    invalid date when the day does not exist in the month (a date it does
    not count is a day of the calendar); its product is the trimmed text of
    the field, not empty, and is the name the engine groups by; its category
    is the trimmed text, not empty; its price is finite and not negative, so
    the row never counts as a negative price; its units are
    [Number(units)], unchecked. *)
Theorem submitted_rows_have_a_checked_date_product_and_price
  (st : FormCard.State) (r : Row) :
  FormCard.handleSubmit st = FormCard.Submit r ->
  (exists d m y,
      FormCard.saleDate st = formatDMY d m y
      /\ date r = VString (formatDMY d m y)
      /\ (1 <= d <= 31 /\ 1 <= m <= 12 /\ 2000 <= y <= 2100)
      /\ ((daysInMonth y m < d -> hasNoDate r = true)
          /\ (hasNoDate r = false -> d <= daysInMonth y m)))
  /\ (product r = VString (Str.trim (FormCard.productText st))
      /\ productName r = Str.trim (FormCard.productText st)
      /\ productName r <> ""%string)
  /\ (category r = VString (Str.trim (FormCard.categoryText st))
      /\ Str.trim (FormCard.categoryText st) <> ""%string)
  /\ (exists pr, price r = VNumber pr /\ Num.isFinite pr = true
                 /\ (0 <=? pr)%float = true)
  /\ hasNegativePrice r = false
  /\ units r = VNumber (Js.ToNumber (FormCard.unitsValue st))
  /\ (quantity r = VUndefined /\ revenue r = VUndefined).
Proof.
  unfold FormCard.handleSubmit. cbv zeta.
  destruct (String.eqb (Str.trim (FormCard.productText st)) "") eqn:Ep;
    [discriminate|].
  destruct (FormCard.isValidDate (FormCard.saleDate st)) eqn:Ed;
    cbn [negb]; [|discriminate].
  destruct (String.eqb (Str.trim (FormCard.categoryText st)) "") eqn:Ec;
    [discriminate|].
  set (pr := StringToNumber (FormCard.replaceComma (FormCard.priceText st))).
  destruct (negb (Num.isFinite pr) || (pr <? 0)%float) eqn:Epr; [discriminate|].
  intros [= <-]. cbn [date product category units quantity price revenue].
  apply orb_false_iff in Epr. destruct Epr as [Hfin Hneg].
  apply negb_false_iff in Hfin.
  apply String.eqb_neq in Ep, Ec.
  apply isValidDate_true_iff in Ed. destruct Ed as (d & m & y & Es & Hd & Hm & Hy).
  split; [|split; [|split; [|split; [|split; [|split]]]]].
  - exists d, m, y. split; [exact Es|]. split; [rewrite Es; reflexivity|].
    split; [auto|]. unfold hasNoDate. cbn [date]. rewrite Es.
    destruct (parseDate_of_form_date Hd Hm Hy) as [HN HS]. split.
    + intros G. rewrite (HN G). reflexivity.
    + intros H. destruct (Z_le_gt_dec d (daysInMonth y m)) as [L|G]; [exact L|].
      rewrite (HN ltac:(lia)) in H. discriminate H.
  - assert (N : productName
                  {| date := VString (FormCard.saleDate st);
                     product := VString (Str.trim (FormCard.productText st));
                     category := VString (Str.trim (FormCard.categoryText st));
                     units := VNumber (Js.ToNumber (FormCard.unitsValue st));
                     quantity := VUndefined; price := VNumber pr;
                     revenue := VUndefined |}
                = Str.trim (FormCard.productText st)).
    { unfold productName. cbn [product Js.nullish Js.ToString].
      rewrite trim_idem. apply String.eqb_neq in Ep. rewrite Ep. reflexivity. }
    rewrite N. auto.
  - auto.
  - exists pr. split; [reflexivity|]. split; [exact Hfin|].
    apply float_not_ltb_leb;
      [apply is_finite_not_nan, Hfin | reflexivity | exact Hneg].
  - unfold hasNegativePrice. cbn [price Js.ToNumber]. rewrite Hneg.
    apply andb_false_r.
  - reflexivity.
  - auto.
Qed.

End FormProperties.

Section FormExample.
#[local] Existing Instance exampleHost.

Lemma submitted_rows_have_a_checked_date_product_and_price_witness :
  let st := {| FormCard.productText := " Printer ";
               FormCard.categoryText := "Electronics";
               FormCard.unitsValue := VNumber 1;
               FormCard.priceText := "120";
               FormCard.saleDate := "31-02-2025" |} in
  let r := enteredRow "31-02-2025" "Printer" "Electronics" 1 120 in
  hasNegativePrice r = false.
Proof.
  intros st r.
  assert (H : FormCard.handleSubmit st = FormCard.Submit r)
    by (vm_compute; reflexivity).
  exact (proj1 (proj2 (proj2 (proj2 (proj2
           (@submitted_rows_have_a_checked_date_product_and_price
              exampleHost st r H)))))).
Defined.

End FormExample.

(* ================================================================== *)
(** * More properties: the CSV import *)

(** ** The values of a line *)

Lemma stripQuotes_without_quotes (s : string) :
  forallb (fun c => negb (Ascii.eqb c ImportCard.quote)) (list_ascii_of_string s)
  = true ->
  ImportCard.stripQuotes s = s.
Proof.
  unfold ImportCard.stripQuotes. intros H.
  assert (L : ImportCard.dropLeadingQuote s = s).
  { destruct s as [|c s]; [reflexivity|].
    cbn [list_ascii_of_string forallb] in H. apply andb_true_iff in H.
    destruct H as [Hc _]. apply negb_true_iff in Hc.
    cbn [ImportCard.dropLeadingQuote]. rewrite Hc. reflexivity. }
  rewrite L. clear L.
  induction s as [|c s IH]; [reflexivity|].
  cbn [list_ascii_of_string forallb] in H. apply andb_true_iff in H.
  destruct H as [Hc Hs]. apply negb_true_iff in Hc.
  cbn [ImportCard.dropTrailingQuote]. destruct s as [|d s].
  - rewrite Hc. reflexivity.
  - rewrite (IH Hs). reflexivity.
Qed.

Lemma fields_aux_clean (inQuotes : bool) (current line f : string) :
  forallb (fun c => negb (Ascii.eqb c ImportCard.quote))
          (list_ascii_of_string current) = true ->
  In f (ImportCard.fields_aux inQuotes current line) ->
  Str.trim f = f
  /\ forallb (fun c => negb (Ascii.eqb c ImportCard.quote))
             (list_ascii_of_string f) = true.
Proof.
  revert inQuotes current.
  induction line as [|c rest IH]; intros inQuotes current Hcur;
    cbn [ImportCard.fields_aux].
  - intros [<-|[]]. split; [apply trim_idem | apply allChars_trim, Hcur].
  - destruct (Ascii.eqb c ImportCard.quote) eqn:Eq; [apply IH, Hcur|].
    destruct (Ascii.eqb c "," && negb inQuotes).
    + intros [<-|Hin].
      * split; [apply trim_idem | apply allChars_trim, Hcur].
      * apply (IH inQuotes ""%string eq_refl Hin).
    + apply IH. apply allChars_snoc; [exact Hcur | rewrite Eq; reflexivity].
Qed.

(** A value read from a line is the empty text or a value of the line,
    trimmed and without double quotes: [replace] and [trim] leave it as it
    is. *)
Lemma fieldAt_clean (line : string) (idx : option nat) :
  let f := ImportCard.fieldAt (ImportCard.fields line) idx in
  f = ""%string
  \/ (In f (ImportCard.fields line) /\ Str.trim f = f
      /\ forallb (fun c => negb (Ascii.eqb c ImportCard.quote))
                 (list_ascii_of_string f) = true).
Proof.
  unfold ImportCard.fieldAt. destruct idx as [i|]; [|left; reflexivity].
  destruct (nth_error (ImportCard.fields line) i) as [v|] eqn:E;
    [|left; reflexivity].
  apply nth_error_In in E.
  destruct (@fields_aux_clean false ""%string line v eq_refl E) as [Ht Hq].
  right. cbv zeta. rewrite (stripQuotes_without_quotes _ Hq). auto.
Qed.

(** ** The rows of [parseCSV] *)

Section ImportProperties.
Context {host : Host}.

Lemma fieldAt_not_empty (line : string) (idx : option nat) :
  let f := ImportCard.fieldAt (ImportCard.fields line) idx in
  String.eqb f "" = false -> f <> ""%string /\ Str.trim f = f.
Proof.
  intros f E. apply String.eqb_neq in E. split; [exact E|].
  destruct (fieldAt_clean line idx) as [H|(_ & H & _)]; [contradiction | exact H].
Qed.

Lemma parseRows_checked (cols : ImportCard.Columns) (lines : list string) :
  forall (i : nat) (rows : list Row),
    ImportCard.parseRows cols i lines = ImportCard.Rows rows ->
    Forall checkedRow rows /\ (List.length rows <= List.length lines)%nat.
Proof.
  induction lines as [|line rest IH]; intros i rows; cbn [ImportCard.parseRows].
  - intros [= <-]. split; [constructor | cbn; lia].
  - destruct (ImportCard.blank line).
    { intros H. destruct (IH _ _ H). split; [assumption | cbn; lia]. }
    cbv zeta.
    set (date := ImportCard.fieldAt (ImportCard.fields line) (ImportCard.dateIdx cols)).
    set (product := ImportCard.fieldAt (ImportCard.fields line) (ImportCard.productIdx cols)).
    set (category := ImportCard.fieldAt (ImportCard.fields line) (ImportCard.categoryIdx cols)).
    set (units := ImportCard.fieldAt (ImportCard.fields line) (ImportCard.unitsIdx cols)).
    set (price := ImportCard.fieldAt (ImportCard.fields line) (ImportCard.priceIdx cols)).
    destruct (String.eqb date "" || String.eqb product "" || String.eqb category ""
              || String.eqb units "" || String.eqb price "") eqn:Eempty.
    { intros H. destruct (IH _ _ H). split; [assumption | cbn; lia]. }
    repeat rewrite orb_false_iff in Eempty.
    destruct Eempty as [[[[_ Ep] Ec] _] _].
    destruct (match_2_2_4 date) as [[[g1 g2] g3]|] eqn:M; [|discriminate].
    destruct (PrimFloat.is_nan (StringToNumber units)
              || (StringToNumber units <=? 0)%float) eqn:Eu; [discriminate|].
    destruct (PrimFloat.is_nan (StringToNumber price)
              || (StringToNumber price <? 0)%float) eqn:Epr; [discriminate|].
    destruct (ImportCard.parseRows cols (S i) rest) as [rows'|msg] eqn:R;
      [|discriminate].
    intros [= <-]. destruct (IH _ _ R) as [Hrows Hlen].
    split; [|cbn; lia]. constructor; [|exact Hrows].
    apply orb_false_iff in Eu, Epr. destruct Eu as [Un Ul], Epr as [Pn Pl].
    destruct (match_2_2_4_inv _ M) as (d & m & y & Hd & Hm & Hy & Edate & _).
    destruct (fieldAt_not_empty line (ImportCard.productIdx cols) Ep) as [Np Tp].
    destruct (fieldAt_not_empty line (ImportCard.categoryIdx cols) Ec) as [Nc Tc].
    fold product in Np, Tp. fold category in Nc, Tc.
    exists d, m, y, product, category, (StringToNumber units), (StringToNumber price).
    split.
    { unfold enteredRow. rewrite Tp, Tc, Edate, trim_formatDMY by lia.
      reflexivity. }
    split; [lia|]. split; [split; assumption|]. split; [split; assumption|].
    split.
    + apply float_not_leb_ltb; [exact Un | reflexivity | exact Ul].
    + apply float_not_ltb_leb; [exact Pn | reflexivity | exact Pl].
Qed.

Lemma parseCSV_checked (text : string) (rows : list Row) :
  ImportCard.parseCSV text = ImportCard.Rows rows ->
  rows <> []
  /\ Forall checkedRow rows
  /\ (List.length rows < List.length (ImportCard.split ImportCard.LF text))%nat.
Proof.
  unfold ImportCard.parseCSV.
  pose proof (filter_length_le (fun line => negb (ImportCard.blank line))
                (ImportCard.split ImportCard.LF text)) as Hf.
  destruct (filter _ (ImportCard.split ImportCard.LF text)) as [|header data];
    [discriminate|].
  cbv zeta.
  destruct (negb (List.length _ =? 0)%nat); [discriminate|].
  match goal with
  | |- context [ImportCard.parseRows ?cols 1 data] =>
      destruct (ImportCard.parseRows cols 1 data) as [rows'|msg] eqn:R
  end; [|discriminate].
  destruct (parseRows_checked _ _ _ R) as [Hrows Hlen].
  destruct rows' as [|r rows']; [discriminate|].
  intros [= <-]. split; [discriminate|]. split; [exact Hrows|].
  cbn [List.length] in *. lia.
Qed.

(** X22. When [parseCSV] returns, it returns at least one row, fewer rows
    than the text has lines, and every row has been checked: its date is a
    text of the pattern DD-MM-YYYY, its product and its category are not
    empty and have no white space around them, its units are a number above
    0 and its price a number that is not negative (neither is [NaN]). *)
Theorem parseCSV_returns_checked_rows (text : string) (rows : list Row) :
  ImportCard.parseCSV text = ImportCard.Rows rows ->
  rows <> []
  /\ Forall checkedRow rows
  /\ (List.length rows < List.length (ImportCard.split ImportCard.LF text))%nat.
Proof. apply parseCSV_checked. Qed.

Lemma countRows_none (f : Row -> bool) (rows : list Row) :
  (forall r, In r rows -> f r = false) -> countRows f rows = 0%nat.
Proof.
  unfold countRows. induction rows as [|r rows IH]; intros H; [reflexivity|].
  cbn [filter]. rewrite (H r (or_introl eq_refl)). apply IH.
  intros r' Hr'. apply H. right. exact Hr'.
Qed.

(** What the engine reads from a checked row. *)
Lemma checkedRow_quality (r : Row) :
  checkedRow r ->
  hasNegativePrice r = false
  /\ hasInvalidQuantity r = negb (Num.isFinite (Js.ToNumber (units r)))
  /\ VString (productName r) = product r
  /\ (exists d m y, date r = VString (formatDMY d m y)
                    /\ (daysInMonth (constructorYear y) m < d ->
                        hasNoDate r = true)
                    /\ (hasNoDate r = false -> validDay y m d)).
Proof.
  intros (d & m & y & p & c & u & pr & -> & (Hd & Hm & Hy) & (Np & Tp) & _ & Hu & Hpr).
  unfold enteredRow. split; [|split; [|split]].
  - unfold hasNegativePrice. cbn [price Js.ToNumber].
    rewrite (float_leb_not_ltb Hpr). apply andb_false_r.
  - unfold hasInvalidQuantity, getQuantity.
    cbn [units quantity Js.nullish Js.ToNumber Js.is_defined orb].
    rewrite andb_true_r.
    destruct (Num.isFinite u); cbn [negb];
      [apply float_ltb_not_leb, Hu | reflexivity].
  - unfold productName. cbn [product Js.nullish Js.ToString]. rewrite Tp.
    apply String.eqb_neq in Np. rewrite Np. reflexivity.
  - exists d, m, y. split; [reflexivity|].
    unfold hasNoDate. cbn [date].
    assert (W : wellFormed (Str.trim (formatDMY d m y)) y m d).
    { split; [lia|]. left. apply trim_formatDMY; lia. }
    rewrite (parseDate_wellFormed _ W).
    destruct (parseDate_ymd y m d) as [q|] eqn:E.
    + apply parseDate_ymd_inv in E. destruct E as [V _]. split.
      * intros G. destruct V as (_ & _ & L). lia.
      * intros _. exact V.
    + split; [reflexivity | discriminate].
Qed.

(** X23. The rows [parseCSV] returns, as the data-quality step of
    [generateInsights] sees them: no row counts as a negative price; a row
    counts as an invalid quantity exactly when its units are not finite
    (so none does when all units are finite); the product name the engine
    groups by is the product text of the row; and a row counts as a missing
    or invalid date when its day does not exist in the calendar, which
    [parseCSV] does not check (a date that is not counted is a day of the
    calendar, with month 1-12 and day 1-31). *)
Theorem imported_rows_in_the_quality_checks (text : string) (rows : list Row) :
  ImportCard.parseCSV text = ImportCard.Rows rows ->
  (forall r, In r rows ->
     hasNegativePrice r = false
     /\ hasInvalidQuantity r = negb (Num.isFinite (Js.ToNumber (units r)))
     /\ VString (productName r) = product r
     /\ (exists d m y, date r = VString (formatDMY d m y)
                       /\ (daysInMonth (constructorYear y) m < d ->
                           hasNoDate r = true)
                       /\ (hasNoDate r = false -> validDay y m d)))
  /\ invalidPrice (qualityScan rows) = 0%nat
  /\ ((forall r, In r rows -> Num.isFinite (Js.ToNumber (units r)) = true) ->
      invalidQty (qualityScan rows) = 0%nat).
Proof.
  intros H. destruct (parseCSV_checked _ H) as (_ & Hrows & _).
  rewrite Forall_forall in Hrows.
  split; [intros r Hr; apply checkedRow_quality, Hrows, Hr|].
  rewrite qualityScan_scanned. cbn [scanned invalidPrice invalidQty]. split.
  - apply countRows_none. intros r Hr.
    apply (checkedRow_quality (Hrows r Hr)).
  - intros Hfin. apply countRows_none. intros r Hr.
    destruct (checkedRow_quality (Hrows r Hr)) as (_ & E & _).
    rewrite E, (Hfin r Hr). reflexivity.
Qed.

End ImportProperties.

Section ImportExample.
#[local] Existing Instance exampleHost.

Lemma parseCSV_returns_checked_rows_witness :
  let text := ("date,product,category,units,price"
               ++ String ImportCard.LF "01-01-2025,A,X,2,10")%string in
  let rows := [enteredRow "01-01-2025" "A" "X" 2 10] in
  rows <> []
  /\ Forall checkedRow rows
  /\ (List.length rows < List.length (ImportCard.split ImportCard.LF text))%nat.
Proof.
  intros text rows.
  apply (@parseCSV_returns_checked_rows exampleHost text rows).
  vm_compute. reflexivity.
Defined.

Lemma imported_rows_in_the_quality_checks_witness :
  let text := ("date,product,category,units,price"
               ++ String ImportCard.LF "31-02-2025,A,X,2,10")%string in
  let rows := [enteredRow "31-02-2025" "A" "X" 2 10] in
  invalidPrice (qualityScan rows) = 0%nat.
Proof.
  intros text rows.
  assert (H : ImportCard.parseCSV text = ImportCard.Rows rows)
    by (vm_compute; reflexivity).
  exact (proj1 (proj2 (@imported_rows_in_the_quality_checks exampleHost text rows H))).
Defined.

End ImportExample.

(* ================================================================== *)
(** * Properties: dates in the time zone of the host *)

(** ** Days and time values *)

Lemma Day_MakeDate D w :
  0 <= w < LocalDate.msPerDay -> LocalDate.Day (LocalDate.MakeDate D w) = D.
Proof.
  unfold LocalDate.Day, LocalDate.MakeDate, LocalDate.msPerDay. intros H.
  Z.div_mod_to_equations. lia.
Qed.

Lemma TimeWithinDay_range tv :
  0 <= LocalDate.TimeWithinDay tv < LocalDate.msPerDay.
Proof.
  unfold LocalDate.TimeWithinDay, LocalDate.msPerDay.
  Z.div_mod_to_equations. lia.
Qed.

Lemma TimeClip_in_range tv :
  Z.abs tv <= 8640000000000000 -> LocalDate.TimeClip tv = Some tv.
Proof.
  intros H. unfold LocalDate.TimeClip.
  replace (Z.abs tv <=? 8640000000000000) with true
    by (symmetry; apply Z.leb_le; exact H).
  reflexivity.
Qed.

Lemma TimeClip_inv tv tv' : LocalDate.TimeClip tv = Some tv' -> tv' = tv.
Proof.
  unfold LocalDate.TimeClip.
  destruct (Z.abs tv <=? 8640000000000000); [|discriminate].
  intros [= <-]. reflexivity.
Qed.

(** With offsets of less than a day, a local time taken to UTC and back is
    at most two days off. *)
Lemma Day_round_trip_near zone tl :
  LocalDate.bounded zone ->
  LocalDate.Day tl - 2
  <= LocalDate.Day (LocalDate.LocalTime zone (LocalDate.UTC zone tl))
  <= LocalDate.Day tl + 2.
Proof.
  intros B. unfold LocalDate.LocalTime, LocalDate.UTC.
  pose proof (B tl false) as B1.
  pose proof (B (tl - LocalDate.LocalTZA zone tl false) true) as B2.
  set (o1 := LocalDate.LocalTZA zone tl false) in *.
  set (o2 := LocalDate.LocalTZA zone (tl - o1) true) in *.
  clearbody o1 o2. unfold LocalDate.Day, LocalDate.msPerDay in *.
  Z.div_mod_to_equations. lia.
Qed.

Lemma UTC_bounds zone tl :
  LocalDate.bounded zone ->
  tl - LocalDate.msPerDay < LocalDate.UTC zone tl < tl + LocalDate.msPerDay.
Proof.
  intros B. unfold LocalDate.UTC. pose proof (B tl false). lia.
Qed.

Lemma daysBeforeMonth_range leap m :
  0 <= JsDate.daysBeforeMonth leap m <= 335.
Proof.
  unfold JsDate.daysBeforeMonth.
  destruct leap;
    repeat match goal with
           | |- context [match ?x with _ => _ end] => destruct x
           end; lia.
Qed.

Lemma MakeDay_month_index y mi e :
  0 <= mi <= 11 ->
  JsDate.MakeDay y mi e
  = JsDate.DayFromYear y + JsDate.daysBeforeMonth (JsDate.isLeap y) mi + e - 1.
Proof.
  intros H. unfold JsDate.MakeDay.
  replace (mi / 12) with 0 by (Z.div_mod_to_equations; lia).
  replace (mi mod 12) with mi by (Z.div_mod_to_equations; lia).
  rewrite Z.add_0_r. reflexivity.
Qed.

Lemma MakeDay_bounds y mi e :
  0 <= y <= 9999 -> 0 <= mi <= 11 -> -40 <= e <= 40 ->
  -1000000 <= JsDate.MakeDay y mi e <= 3000000.
Proof.
  intros Hy Hm He. rewrite MakeDay_month_index by exact Hm.
  pose proof (daysBeforeMonth_range (JsDate.isLeap y) mi).
  unfold JsDate.DayFromYear. Z.div_mod_to_equations. lia.
Qed.

Lemma constructorYear_range y : 0 <= y <= 9999 -> 0 <= constructorYear y <= 9999.
Proof.
  intros H. unfold constructorYear.
  destruct ((0 <=? y) && (y <=? 99)) eqn:E; [|exact H].
  apply andb_true_iff in E. destruct E as [E1 E2]. apply Z.leb_le in E1, E2. lia.
Qed.

(** ** The month a day near a month falls in *)

(** A day counted from the start of month [mi] (0-11) of year [y] that is
    not a day of that month, and not more than two days off, lies in
    another month. *)
Lemma getMonth_off_month y mi e :
  0 <= mi <= 11 -> -1 <= e <= 33 ->
  ~ (1 <= e <= monthDays (JsDate.isLeap y) (mi + 1)) ->
  JsDate.getMonth (JsDate.MakeDay y mi e) <> mi.
Proof.
  intros Hm He Hn. rewrite MakeDay_month_index by exact Hm.
  pose proof (DayFromYear_succ y) as S1.
  pose proof (DayFromYear_succ (y - 1)) as S0.
  replace (y - 1 + 1) with y in S0 by lia.
  pose proof (DayFromYear_succ (y + 1)) as S2.
  unfold JsDate.DaysInYear in S0, S1, S2.
  unfold JsDate.getMonth.
  assert (Hcase : e <= 0 \/ monthDays (JsDate.isLeap y) (mi + 1) < e) by lia.
  clear Hn.
  destruct (Z.eq_dec mi 0) as [M0|M0];
    [destruct (Z_le_gt_dec e 0) as [E0|E0] | ].
  - (* before the first of January: December of the year before *)
    subst mi. cbn [JsDate.daysBeforeMonth].
    rewrite (@YearFromDay_unique (y - 1))
      by (replace (y - 1 + 1) with y by lia;
          destruct (JsDate.isLeap (y - 1)); lia).
    unfold JsDate.MonthFromDay.
    destruct (JsDate.isLeap (y - 1)); decide_ltb; lia.
  - (* after the end of January *)
    subst mi. cbn [JsDate.daysBeforeMonth].
    destruct Hcase as [Hc|Hc]; [lia|]. cbn in Hc.
    replace (monthDays (JsDate.isLeap y) 1) with 31 in Hc
      by (destruct (JsDate.isLeap y); reflexivity).
    rewrite (@YearFromDay_unique y) by (destruct (JsDate.isLeap y); lia).
    unfold JsDate.MonthFromDay.
    destruct (JsDate.isLeap y); decide_ltb; lia.
  - destruct (Z.eq_dec mi 11) as [M11|M11];
      [destruct (Z_le_gt_dec e 31) as [E31|E31] | ].
    + (* before the first of December *)
      subst mi. cbn [JsDate.daysBeforeMonth].
      destruct Hcase as [Hc|Hc];
        [|replace (monthDays (JsDate.isLeap y) (11 + 1)) with 31 in Hc
            by (destruct (JsDate.isLeap y); reflexivity); lia].
      rewrite (@YearFromDay_unique y) by (destruct (JsDate.isLeap y); lia).
      unfold JsDate.MonthFromDay.
      destruct (JsDate.isLeap y); decide_ltb; lia.
    + (* after the end of December: January of the next year *)
      subst mi. cbn [JsDate.daysBeforeMonth].
      rewrite (@YearFromDay_unique (y + 1))
        by (destruct (JsDate.isLeap y); destruct (JsDate.isLeap (y + 1)); lia).
      unfold JsDate.MonthFromDay.
      destruct (JsDate.isLeap y); destruct (JsDate.isLeap (y + 1));
        decide_ltb; lia.
    + (* February to November: the same year *)
      assert (Hy : JsDate.YearFromDay
                     (JsDate.DayFromYear y
                      + JsDate.daysBeforeMonth (JsDate.isLeap y) mi + e - 1) = y).
      { apply YearFromDay_unique.
        month_cases mi; try lia; destruct (JsDate.isLeap y);
          cbn [JsDate.daysBeforeMonth]; lia. }
      rewrite Hy.
      replace (JsDate.DayFromYear y
               + JsDate.daysBeforeMonth (JsDate.isLeap y) mi + e - 1
               - JsDate.DayFromYear y)
        with (JsDate.daysBeforeMonth (JsDate.isLeap y) mi + e - 1) by lia.
      clear Hy S0 S1 S2.
      destruct Hcase as [Hc|Hc];
        month_cases mi; try lia; destruct (JsDate.isLeap y); cbn in Hc;
          unfold JsDate.MonthFromDay, JsDate.daysBeforeMonth;
          decide_ltb; lia.
Qed.

(** The calendar round trip in a zone.  The day [new Date(y, m - 1, d)]
    reads back has the date [d] and the month [m - 1] exactly when [d] is a
    day of that month and the zone keeps its local midnight on the day. *)
Lemma read_back_iff zone y m d :
  LocalDate.bounded zone -> 1 <= m <= 12 -> 1 <= d <= 31 ->
  let D' := LocalDate.Day (LocalDate.LocalTime zone
              (LocalDate.UTC zone (LocalDate.localMidnight y m d))) in
  (JsDate.getDate D' = d /\ JsDate.getMonth D' = m - 1)
  <-> (d <= daysInMonth (constructorYear y) m
       /\ LocalDate.keepsDay zone (LocalDate.localMidnight y m d)).
Proof.
  intros B Hm Hd D'. unfold LocalDate.keepsDay. fold D'.
  pose proof (@Day_round_trip_near zone (LocalDate.localMidnight y m d) B) as N.
  fold D' in N.
  assert (E0 : LocalDate.Day (LocalDate.localMidnight y m d)
               = JsDate.MakeDay (constructorYear y) (m - 1) d).
  { apply Day_MakeDate. unfold LocalDate.msPerDay. lia. }
  rewrite E0 in *.
  set (cy := constructorYear y) in *.
  assert (Ek : D' = JsDate.MakeDay cy (m - 1) (d + (D' - JsDate.MakeDay cy (m - 1) d))).
  { rewrite !MakeDay_month_index by lia. lia. }
  set (k := D' - JsDate.MakeDay cy (m - 1) d) in *.
  assert (Hk : -2 <= k <= 2) by (unfold k; lia).
  clearbody k D'. clear N E0.
  split.
  - intros [G1 G2].
    destruct (Z_le_gt_dec 1 (d + k)) as [L1|L1];
      [destruct (Z_le_gt_dec (d + k) (daysInMonth cy m)) as [L2|L2] | ].
    + pose proof (daysInMonth_le_31 cy m) as H31.
      destruct (@MakeDay_round_trip cy m (d + k) Hm ltac:(lia)) as [Hrt _].
      apply (proj2 Hrt) in L2. apply andb_true_iff in L2.
      destruct L2 as [L2 _]. apply Z.eqb_eq in L2.
      rewrite <- Ek, G1 in L2.
      assert (k = 0) by lia. subst k.
      rewrite Z.add_0_r in Ek.
      split; [|exact Ek].
      destruct (@MakeDay_round_trip cy m d Hm Hd) as [Hrt' _].
      apply Hrt'. rewrite <- Ek, G1, G2, !Z.eqb_refl. reflexivity.
    + exfalso. rewrite Ek in G2.
      apply (@getMonth_off_month cy (m - 1) (d + k)); [lia|lia| |exact G2].
      replace (m - 1 + 1) with m by lia. unfold daysInMonth in L2. lia.
    + exfalso. rewrite Ek in G2.
      apply (@getMonth_off_month cy (m - 1) (d + k)); [lia|lia| |exact G2].
      lia.
  - intros [L K]. rewrite K.
    destruct (@MakeDay_round_trip cy m d Hm Hd) as [Hrt _].
    apply (proj2 Hrt) in L. apply andb_true_iff in L.
    destruct L as [L1 L2]. apply Z.eqb_eq in L1, L2. auto.
Qed.

(** ** [new Date(year, monthIndex, day)] in a zone *)

Lemma make_localMidnight zone y m d :
  LocalDate.make zone y (m - 1) d
  = LocalDate.TimeClip (LocalDate.UTC zone (LocalDate.localMidnight y m d)).
Proof.
  unfold LocalDate.make, LocalDate.localMidnight, constructorYear. reflexivity.
Qed.

Lemma localMidnight_make y m d :
  LocalDate.localMidnight y m d
  = LocalDate.MakeDate (JsDate.make y (m - 1) d) 0.
Proof.
  unfold LocalDate.localMidnight, JsDate.make, constructorYear. reflexivity.
Qed.

Lemma make_bounds y m d :
  0 <= y <= 9999 -> 1 <= m <= 12 -> 1 <= d <= 31 ->
  -1000000 <= JsDate.make y (m - 1) d <= 3000000.
Proof.
  intros Hy Hm Hd.
  change (JsDate.make y (m - 1) d)
    with (JsDate.MakeDay (constructorYear y) (m - 1) d).
  apply MakeDay_bounds; [apply constructorYear_range, Hy|lia|lia].
Qed.

Lemma make_in_range zone y m d :
  LocalDate.bounded zone -> 0 <= y <= 9999 -> 1 <= m <= 12 -> 1 <= d <= 31 ->
  LocalDate.make zone y (m - 1) d
  = Some (LocalDate.UTC zone (LocalDate.localMidnight y m d)).
Proof.
  intros B Hy Hm Hd. rewrite make_localMidnight. apply TimeClip_in_range.
  rewrite localMidnight_make.
  pose proof (@UTC_bounds zone (LocalDate.MakeDate (JsDate.make y (m - 1) d) 0) B)
    as U.
  pose proof (@make_bounds y m d Hy Hm Hd) as Hb.
  generalize dependent (JsDate.make y (m - 1) d). intros D U Hb.
  unfold LocalDate.MakeDate, LocalDate.msPerDay in U |- *. lia.
Qed.

(** ** [parseDate] in a zone *)

(** What [parseDate] returns in a zone for the integers (y, m, d) when it
    accepts them. *)
Lemma parseDate_ymd_zone_inv zone y m d p :
  LocalDate.parseDate_ymd zone y m d = Some p ->
  (1 <= m <= 12 /\ 1 <= d <= 31)
  /\ (LocalDate.getDate zone (LocalDate.make zone y (m - 1) d) = Some d
      /\ LocalDate.getMonth zone (LocalDate.make zone y (m - 1) d) = Some (m - 1))
  /\ (LocalDate.year p = y /\ LocalDate.month p = m /\ LocalDate.day p = d
      /\ LocalDate.dateObj p = LocalDate.make zone y (m - 1) d
      /\ LocalDate.getDay zone (LocalDate.dateObj p) = Some (LocalDate.dayOfWeek p)
      /\ LocalDate.weekKey p = LocalDate.getISOWeekKey zone (LocalDate.dateObj p)).
Proof.
  unfold LocalDate.parseDate_ymd.
  destruct ((m <? 1) || (m >? 12) || (d <? 1) || (d >? 31)) eqn:E; [discriminate|].
  repeat rewrite orb_false_iff in E. destruct E as [[[E1 E2] E3] E4].
  apply Z.ltb_ge in E1, E3. rewrite Z.gtb_ltb in E2, E4. apply Z.ltb_ge in E2, E4.
  cbv zeta. generalize (LocalDate.make zone y (m - 1) d). intros d0.
  destruct (LocalDate.getDate zone d0) as [dd|] eqn:G1; [|discriminate].
  destruct (LocalDate.getMonth zone d0) as [mm|] eqn:G2; [|discriminate].
  destruct (LocalDate.getDay zone d0) as [wd|] eqn:G3; [|discriminate].
  destruct (negb (dd =? d) || negb (mm =? m - 1)) eqn:E; [discriminate|].
  apply orb_false_iff in E. destruct E as [Ea Eb].
  apply negb_false_iff, Z.eqb_eq in Ea, Eb. subst dd mm.
  intros [= <-].
  cbn [LocalDate.year LocalDate.month LocalDate.day LocalDate.dateObj
       LocalDate.dayOfWeek LocalDate.weekKey].
  rewrite G3. repeat split; lia.
Qed.

Lemma parseDate_ymd_zone_accepts zone y m d :
  1 <= m <= 12 -> 1 <= d <= 31 ->
  LocalDate.getDate zone (LocalDate.make zone y (m - 1) d) = Some d ->
  LocalDate.getMonth zone (LocalDate.make zone y (m - 1) d) = Some (m - 1) ->
  exists p, LocalDate.parseDate_ymd zone y m d = Some p
            /\ LocalDate.year p = y /\ LocalDate.month p = m
            /\ LocalDate.day p = d.
Proof.
  intros Hm Hd. unfold LocalDate.parseDate_ymd.
  rewrite !Z.gtb_ltb.
  replace (m <? 1) with false by (symmetry; apply Z.ltb_ge; lia).
  replace (12 <? m) with false by (symmetry; apply Z.ltb_ge; lia).
  replace (d <? 1) with false by (symmetry; apply Z.ltb_ge; lia).
  replace (31 <? d) with false by (symmetry; apply Z.ltb_ge; lia).
  cbn [orb]. cbv zeta.
  generalize (LocalDate.make zone y (m - 1) d). intros d0 G1 G2.
  rewrite G1, G2.
  destruct (LocalDate.getDay zone d0) as [wd|] eqn:G3.
  - rewrite !Z.eqb_refl. cbn [negb orb]. eexists. split; [reflexivity|].
    cbn [LocalDate.year LocalDate.month LocalDate.day]. repeat split.
  - exfalso. unfold LocalDate.getDay, LocalDate.getDate in *.
    destruct (LocalDate.localDay zone d0); discriminate.
Qed.

Lemma parseDate_zone_wellFormed zone s y m d :
  wellFormed (Str.trim s) y m d ->
  LocalDate.parseDate zone (VString s) = LocalDate.parseDate_ymd zone y m d.
Proof.
  intros [(Hy & Hm & Hd) Hs]. unfold LocalDate.parseDate.
  destruct (String.eqb s "") eqn:E.
  { apply String.eqb_eq in E. subst s. destruct Hs as [Hs|Hs]; discriminate Hs. }
  destruct Hs as [Hs|Hs]; rewrite Hs.
  - rewrite (match_2_2_4_formatDMY Hd Hm Hy).
    rewrite !parseInt10_twoDigits, parseInt10_fourDigits by assumption. reflexivity.
  - rewrite (match_2_2_4_formatYMD Hd Hm Hy), (match_4_2_2_formatYMD Hd Hm Hy).
    rewrite !parseInt10_twoDigits, parseInt10_fourDigits by assumption. reflexivity.
Qed.

Lemma parseDate_zone_inv zone v p :
  LocalDate.parseDate zone v = Some p ->
  exists s y m d, v = VString s /\ wellFormed (Str.trim s) y m d
                  /\ LocalDate.parseDate_ymd zone y m d = Some p.
Proof.
  unfold LocalDate.parseDate. destruct v as [| | |n|s]; try discriminate.
  destruct (String.eqb s ""); [discriminate|].
  destruct (match_2_2_4 (Str.trim s)) as [[[g1 g2] g3]|] eqn:M1.
  - destruct (match_2_2_4_inv _ M1) as (d & m & y & Hd & Hm & Hy & Hs & -> & -> & ->).
    rewrite !parseInt10_twoDigits, parseInt10_fourDigits by assumption.
    intros H. exists s, y, m, d. split; [reflexivity|]. split; [|exact H].
    split; [lia|left; exact Hs].
  - destruct (match_4_2_2 (Str.trim s)) as [[[g1 g2] g3]|] eqn:M2; [|discriminate].
    destruct (match_4_2_2_inv _ M2) as (y & m & d & Hd & Hm & Hy & Hs & -> & -> & ->).
    rewrite !parseInt10_twoDigits, parseInt10_fourDigits by assumption.
    intros H. exists s, y, m, d. split; [reflexivity|]. split; [|exact H].
    split; [lia|right; exact Hs].
Qed.

(** In a zone with offsets of less than a day, [parseDate] accepts the
    integers of a text exactly when the day is in the calendar and the zone
    keeps its local midnight on the day. *)
Lemma parseDate_ymd_zone_iff zone y m d :
  LocalDate.bounded zone -> 0 <= y <= 9999 ->
  ((exists p, LocalDate.parseDate_ymd zone y m d = Some p)
   <-> (validDay y m d
        /\ LocalDate.keepsDay zone (LocalDate.localMidnight y m d))).
Proof.
  intros B Hy. split.
  - intros (p & Hp).
    destruct (parseDate_ymd_zone_inv _ _ _ _ Hp) as ((Hm & Hd) & (G1 & G2) & _).
    rewrite (make_in_range B Hy Hm Hd) in G1, G2.
    unfold LocalDate.getDate, LocalDate.getMonth, LocalDate.localDay in G1, G2.
    cbn [option_map] in G1, G2. injection G1 as G1. injection G2 as G2.
    destruct (proj1 (@read_back_iff zone y m d B Hm Hd) (conj G1 G2)) as [L K].
    split; [|exact K]. unfold validDay. auto.
  - intros [(Hm & Hd & L) K].
    destruct (proj2 (@read_back_iff zone y m d B Hm Hd) (conj L K)) as [G1 G2].
    destruct (@parseDate_ymd_zone_accepts zone y m d Hm Hd) as (p & Hp & _).
    + rewrite (make_in_range B Hy Hm Hd).
      unfold LocalDate.getDate, LocalDate.localDay. cbn [option_map].
      rewrite G1. reflexivity.
    + rewrite (make_in_range B Hy Hm Hd).
      unfold LocalDate.getMonth, LocalDate.localDay. cbn [option_map].
      rewrite G2. reflexivity.
    + exists p. exact Hp.
Qed.

(** ** The two example zones *)

Lemma bounded_utc : LocalDate.bounded LocalDate.utc.
Proof. intros tv b. cbn. unfold LocalDate.msPerDay. lia. Qed.

Lemma bounded_apia : LocalDate.bounded LocalDate.apia.
Proof.
  intros tv b. unfold LocalDate.apia. cbn [LocalDate.LocalTZA].
  unfold LocalDate.msPerDay, LocalDate.msPerHour.
  destruct b; match goal with |- context [if ?c then _ else _] => destruct c end;
    lia.
Qed.

Lemma keepsDay_utc tl : LocalDate.keepsDay LocalDate.utc tl.
Proof.
  unfold LocalDate.keepsDay, LocalDate.LocalTime, LocalDate.UTC. cbn.
  rewrite Z.sub_0_r, Z.add_0_r. reflexivity.
Qed.

(** A local time that exists is kept on its day. *)
Lemma keepsDay_of_existing zone tl :
  LocalDate.LocalTime zone (LocalDate.UTC zone tl) = tl ->
  LocalDate.keepsDay zone tl.
Proof. unfold LocalDate.keepsDay. intros ->. reflexivity. Qed.

(** Friday 30 December 2011 was skipped in Pacific/Apia: its local midnight
    is read as midnight of Saturday 31 December. *)
Lemma apia_skips_30_December_2011 :
  ~ LocalDate.keepsDay LocalDate.apia (LocalDate.localMidnight 2011 12 30)
  /\ LocalDate.Day (LocalDate.LocalTime LocalDate.apia
       (LocalDate.UTC LocalDate.apia (LocalDate.localMidnight 2011 12 30)))
     = JsDate.MakeDay 2011 11 31.
Proof. split; [intros H; vm_compute in H; discriminate H | vm_compute; reflexivity]. Qed.

(** ** The zones in which a [Date] is a calendar day *)

Section KeepingZone.
Variable zone : LocalDate.Zone.
Hypothesis zone_bounded : LocalDate.bounded zone.
Hypothesis zone_keeps : forall tl, LocalDate.keepsDay zone tl.

Lemma localDay_of_local D w :
  -1100000 <= D <= 3100000 -> 0 <= w < LocalDate.msPerDay ->
  LocalDate.TimeClip (LocalDate.UTC zone (LocalDate.MakeDate D w))
  = Some (LocalDate.UTC zone (LocalDate.MakeDate D w))
  /\ LocalDate.Day (LocalDate.LocalTime zone
       (LocalDate.UTC zone (LocalDate.MakeDate D w))) = D.
Proof.
  intros HD Hw. split.
  - apply TimeClip_in_range.
    pose proof (@UTC_bounds zone (LocalDate.MakeDate D w) zone_bounded) as U.
    unfold LocalDate.MakeDate, LocalDate.msPerDay in *. lia.
  - rewrite zone_keeps. apply Day_MakeDate, Hw.
Qed.

Lemma getDay_range D : 0 <= JsDate.getDay D <= 6.
Proof. unfold JsDate.getDay. Z.div_mod_to_equations. lia. Qed.

(** [getISOWeekKey] in such a zone is [getISOWeekKey] of the local day. *)
Lemma getISOWeekKey_zone tv :
  Z.abs tv <= 8640000000000000 ->
  -1000000 <= LocalDate.Day (LocalDate.LocalTime zone tv) <= 3000000 ->
  LocalDate.getISOWeekKey zone (Some tv)
  = getISOWeekKey (LocalDate.Day (LocalDate.LocalTime zone tv)).
Proof.
  intros Htv HD. set (D := LocalDate.Day (LocalDate.LocalTime zone tv)) in *.
  destruct (@localDay_of_local D 0 ltac:(lia) ltac:(unfold LocalDate.msPerDay; lia))
    as [C1 L1].
  set (tv1 := LocalDate.UTC zone (LocalDate.MakeDate D 0)) in *.
  assert (E1 : LocalDate.setHours0 zone (LocalDate.copy (Some tv)) = Some tv1).
  { unfold LocalDate.copy. rewrite (TimeClip_in_range _ Htv).
    unfold LocalDate.setHours0. fold D. exact C1. }
  assert (D1 : LocalDate.localDay zone (Some tv1) = Some D).
  { unfold LocalDate.localDay. rewrite L1. reflexivity. }
  assert (Mn : match LocalDate.getDate zone (Some tv1),
                     LocalDate.getDay zone (Some tv1) with
               | Some a, Some b => Some (a - b + 1)
               | _, _ => None
               end = Some (JsDate.getDate D - JsDate.getDay D + 1)).
  { unfold LocalDate.getDate, LocalDate.getDay. rewrite D1. reflexivity. }
  unfold LocalDate.getISOWeekKey, getISOWeekKey. cbv zeta. rewrite E1, Mn.
  remember (JsDate.getDate D - JsDate.getDay D + 1) as n eqn:En.
  assert (RM : -1100000 <= JsDate.setDate D n <= 3100000).
  { rewrite setDate_shift. pose proof (getDay_range D). lia. }
  clear En.
  destruct (@localDay_of_local (JsDate.setDate D n)
              (LocalDate.TimeWithinDay (LocalDate.LocalTime zone tv1))
              RM (TimeWithinDay_range _)) as [C2 L2].
  assert (E2 : LocalDate.setDate zone (Some tv1) (Some n)
               = Some (LocalDate.UTC zone
                   (LocalDate.MakeDate (JsDate.setDate D n)
                      (LocalDate.TimeWithinDay (LocalDate.LocalTime zone tv1))))).
  { unfold LocalDate.setDate. cbv zeta. rewrite L1. exact C2. }
  rewrite E2.
  unfold LocalDate.getFullYear, LocalDate.getMonth, LocalDate.getDate,
    LocalDate.localDay.
  rewrite L2. cbn [option_map LocalDate.numberText]. reflexivity.
Qed.

Lemma parseDate_ymd_zone_agrees y m d :
  0 <= y <= 9999 ->
  sameParsedDate zone (LocalDate.parseDate_ymd zone y m d) (parseDate_ymd y m d).
Proof.
  intros Hy. unfold LocalDate.parseDate_ymd, parseDate_ymd.
  destruct ((m <? 1) || (m >? 12) || (d <? 1) || (d >? 31)) eqn:E;
    [exact I|].
  repeat rewrite orb_false_iff in E. destruct E as [[[E1 E2] E3] E4].
  apply Z.ltb_ge in E1, E3. rewrite Z.gtb_ltb in E2, E4. apply Z.ltb_ge in E2, E4.
  cbv zeta.
  rewrite (@make_in_range zone y m d zone_bounded Hy ltac:(lia) ltac:(lia)).
  rewrite localMidnight_make.
  pose proof (@make_bounds y m d Hy ltac:(lia) ltac:(lia)) as RD.
  pose proof (@UTC_bounds zone (LocalDate.MakeDate (JsDate.make y (m - 1) d) 0)
                zone_bounded) as U.
  generalize dependent (JsDate.make y (m - 1) d). intros D RD U.
  destruct (@localDay_of_local D 0 ltac:(lia) ltac:(unfold LocalDate.msPerDay; lia))
    as [C L].
  unfold LocalDate.getDate, LocalDate.getMonth, LocalDate.getDay,
    LocalDate.localDay.
  rewrite L. cbn [option_map].
  destruct (negb (JsDate.getDate D =? d) || negb (JsDate.getMonth D =? m - 1));
    [exact I|].
  cbn [sameParsedDate LocalDate.year LocalDate.month LocalDate.day
       LocalDate.dateObj LocalDate.dayOfWeek LocalDate.weekKey
       year month day dateObj dayOfWeek weekKey LocalDate.localDay].
  rewrite L. repeat split.
  rewrite getISOWeekKey_zone.
  - rewrite L. reflexivity.
  - unfold LocalDate.MakeDate, LocalDate.msPerDay in U |- *. lia.
  - rewrite L. exact RD.
Qed.

(** In a zone that moves no local time to another day, with offsets of less
    than a day, [parseDate] is the function [parseDate] over calendar days:
    the engine reads only the year, month, day, day of week and week key of
    its result. *)
Lemma parseDate_zone_agrees v :
  sameParsedDate zone (LocalDate.parseDate zone v) (parseDate v).
Proof.
  unfold LocalDate.parseDate, parseDate. destruct v as [| | |n|s]; try exact I.
  destruct (String.eqb s ""); [exact I|].
  destruct (match_2_2_4 (Str.trim s)) as [[[g1 g2] g3]|] eqn:M1.
  - destruct (match_2_2_4_inv _ M1) as (d & m & y & Hd & Hm & Hy & Hs & -> & -> & ->).
    rewrite !parseInt10_twoDigits, parseInt10_fourDigits by assumption.
    apply parseDate_ymd_zone_agrees, Hy.
  - destruct (match_4_2_2 (Str.trim s)) as [[[g1 g2] g3]|] eqn:M2; [|exact I].
    destruct (match_4_2_2_inv _ M2) as (y & m & d & Hd & Hm & Hy & Hs & -> & -> & ->).
    rewrite !parseInt10_twoDigits, parseInt10_fourDigits by assumption.
    apply parseDate_ymd_zone_agrees, Hy.
Qed.

End KeepingZone.

(** ** The validation of [parseDate] *)

Lemma parseDate_zone_accepts zone s y m d :
  LocalDate.bounded zone ->
  wellFormed (Str.trim s) y m d -> validDay y m d ->
  LocalDate.keepsDay zone (LocalDate.localMidnight y m d) ->
  exists p, LocalDate.parseDate zone (VString s) = Some p
            /\ LocalDate.year p = y /\ LocalDate.month p = m
            /\ LocalDate.day p = d.
Proof.
  intros B Hw Hv K. rewrite (parseDate_zone_wellFormed zone s Hw).
  assert (Hy : 0 <= y <= 9999) by (destruct Hw as [(Hy & _) _]; exact Hy).
  destruct (proj2 (@parseDate_ymd_zone_iff zone y m d B Hy) (conj Hv K))
    as (p & Hp).
  exists p. split; [exact Hp|].
  destruct (parseDate_ymd_zone_inv _ _ _ _ Hp) as (_ & _ & (E1 & E2 & E3 & _)).
  auto.
Qed.

Lemma parseDate_zone_sound zone v p :
  LocalDate.parseDate zone v = Some p ->
  exists s,
    v = VString s
    /\ wellFormed (Str.trim s) (LocalDate.year p) (LocalDate.month p)
         (LocalDate.day p)
    /\ (1 <= LocalDate.month p <= 12 /\ 1 <= LocalDate.day p <= 31)
    /\ LocalDate.getDate zone (LocalDate.dateObj p) = Some (LocalDate.day p)
    /\ LocalDate.getMonth zone (LocalDate.dateObj p)
       = Some (LocalDate.month p - 1)
    /\ (LocalDate.bounded zone ->
        validDay (LocalDate.year p) (LocalDate.month p) (LocalDate.day p)
        /\ LocalDate.keepsDay zone
             (LocalDate.localMidnight (LocalDate.year p) (LocalDate.month p)
                (LocalDate.day p))).
Proof.
  intros H. destruct (parseDate_zone_inv _ _ H) as (s & y & m & d & -> & Hw & Hp).
  destruct (parseDate_ymd_zone_inv _ _ _ _ Hp)
    as (R & (G1 & G2) & (E1 & E2 & E3 & E4 & _)).
  exists s. rewrite E1, E2, E3, E4.
  split; [reflexivity|]. split; [exact Hw|]. split; [exact R|].
  split; [exact G1|]. split; [exact G2|].
  intros B. apply (@parseDate_ymd_zone_iff zone y m d B).
  - destruct Hw as [(Hy & _) _]. exact Hy.
  - exists p. exact Hp.
Qed.

(** C7 (amended). [parseDate] is total and returns [null] exactly when the
    input fails validation.  In a host whose time zone has offsets of less
    than a day it accepts exactly the strings whose text, once surrounding
    white space is trimmed, is DD-MM-YYYY or YYYY-MM-DD with month in 1-12,
    day in 1-31, a day that exists in that month, and a local midnight that
    the zone keeps on that day (the calendar round trip through
    [new Date(year, month - 1, day)]); the result carries the year, month
    and day of the text, and its date reads back that day and month.  So a
    calendar date of the years 0001 to 9999, in either format, is accepted
    with its own components exactly when the zone keeps its local midnight
    on the day, as it does when that midnight exists: 30-12-2011, a day
    Pacific/Apia skipped, is rejected there and accepted in UTC, where the
    padded text " 15-03-2025" is accepted too.
    31-02-2025, day 32, month 13, a non-numeric text and the empty string
    are rejected, and so is 29-02-0000, which the [Date] constructor reads
    in 1900.  In a zone that moves no local time to another day the
    result is the one over calendar days. *)
Theorem parseDate_validation :
  (forall zone v,
      LocalDate.bounded zone ->
      (LocalDate.parseDate zone v = None <->
       ~ (exists s y m d,
             v = VString s /\ wellFormed (Str.trim s) y m d /\ validDay y m d
             /\ LocalDate.keepsDay zone (LocalDate.localMidnight y m d))))
  /\ (forall zone s y m d,
        LocalDate.bounded zone ->
        wellFormed (Str.trim s) y m d -> validDay y m d ->
        LocalDate.keepsDay zone (LocalDate.localMidnight y m d) ->
        exists p, LocalDate.parseDate zone (VString s) = Some p
                  /\ LocalDate.year p = y /\ LocalDate.month p = m
                  /\ LocalDate.day p = d)
  /\ (forall zone v p,
        LocalDate.parseDate zone v = Some p ->
        exists s,
          v = VString s
          /\ wellFormed (Str.trim s) (LocalDate.year p) (LocalDate.month p)
               (LocalDate.day p)
          /\ (1 <= LocalDate.month p <= 12 /\ 1 <= LocalDate.day p <= 31)
          /\ LocalDate.getDate zone (LocalDate.dateObj p)
             = Some (LocalDate.day p)
          /\ LocalDate.getMonth zone (LocalDate.dateObj p)
             = Some (LocalDate.month p - 1)
          /\ (LocalDate.bounded zone ->
              validDay (LocalDate.year p) (LocalDate.month p) (LocalDate.day p)
              /\ LocalDate.keepsDay zone
                   (LocalDate.localMidnight (LocalDate.year p)
                      (LocalDate.month p) (LocalDate.day p))))
  /\ (forall zone y m d s,
        LocalDate.bounded zone ->
        1 <= y <= 9999 -> 1 <= m <= 12 -> 1 <= d <= daysInMonth y m ->
        s = formatDMY d m y \/ s = formatYMD y m d ->
        ((exists p, LocalDate.parseDate zone (VString s) = Some p
                    /\ LocalDate.year p = y /\ LocalDate.month p = m
                    /\ LocalDate.day p = d)
         <-> LocalDate.keepsDay zone (LocalDate.localMidnight y m d))
        /\ (LocalDate.parseDate zone (VString s) = None
            <-> ~ LocalDate.keepsDay zone (LocalDate.localMidnight y m d))
        /\ (LocalDate.LocalTime zone
              (LocalDate.UTC zone (LocalDate.localMidnight y m d))
            = LocalDate.localMidnight y m d ->
            LocalDate.keepsDay zone (LocalDate.localMidnight y m d)))
  /\ (forall zone,
        (LocalDate.bounded zone ->
         LocalDate.parseDate zone (VString "31-02-2025") = None
         /\ LocalDate.parseDate zone (VString "29-02-0000") = None)
        /\ LocalDate.parseDate zone (VString "32-01-2025") = None
        /\ LocalDate.parseDate zone (VString "15-13-2025") = None
        /\ LocalDate.parseDate zone (VString "not-a-date") = None
        /\ LocalDate.parseDate zone (VString "") = None)
  /\ (LocalDate.bounded LocalDate.apia
      /\ 30 <= daysInMonth 2011 12
      /\ LocalDate.parseDate LocalDate.apia (VString "30-12-2011") = None
      /\ LocalDate.bounded LocalDate.utc
      /\ (exists p, LocalDate.parseDate LocalDate.utc (VString "30-12-2011") = Some p
                    /\ LocalDate.year p = 2011 /\ LocalDate.month p = 12
                    /\ LocalDate.day p = 30)
      /\ (exists p, LocalDate.parseDate LocalDate.utc (VString " 15-03-2025") = Some p
                    /\ LocalDate.year p = 2025 /\ LocalDate.month p = 3
                    /\ LocalDate.day p = 15))
  /\ (forall zone,
        LocalDate.bounded zone ->
        (forall tl, LocalDate.keepsDay zone tl) ->
        forall v, sameParsedDate zone (LocalDate.parseDate zone v) (parseDate v)).
Proof.
  assert (N : forall zone v,
             LocalDate.bounded zone ->
             (LocalDate.parseDate zone v = None <->
              ~ (exists s y m d,
                    v = VString s /\ wellFormed (Str.trim s) y m d
                    /\ validDay y m d
                    /\ LocalDate.keepsDay zone (LocalDate.localMidnight y m d)))).
  { intros zone v B. split.
    - intros HN (s & y & m & d & -> & Hw & Hv & K).
      destruct (@parseDate_zone_accepts zone s y m d B Hw Hv K) as (p & Hp & _).
      congruence.
    - intros HN. destruct (LocalDate.parseDate zone v) as [p|] eqn:E; [|reflexivity].
      exfalso. apply HN.
      destruct (parseDate_zone_sound _ _ E) as (s & -> & Hw & _ & _ & _ & HB).
      destruct (HB B) as [Hv K].
      exists s, (LocalDate.year p), (LocalDate.month p), (LocalDate.day p).
      auto. }
  split; [exact N|].
  split; [intros zone s y m d; apply parseDate_zone_accepts|].
  split; [exact parseDate_zone_sound|].
  split; [|split; [|split]].
  - intros zone y m d s B Hy Hm Hd Hs.
    pose proof (daysInMonth_le_31 y m) as H31.
    assert (Hw : wellFormed (Str.trim s) y m d).
    { split; [lia|]. destruct Hs as [-> | ->];
        [rewrite trim_formatDMY by lia; left | rewrite trim_formatYMD by lia; right];
        reflexivity. }
    assert (Hv : validDay y m d).
    { unfold validDay. unfold daysInMonth in *.
      rewrite isLeap_constructorYear by lia. lia. }
    assert (A : (exists p, LocalDate.parseDate zone (VString s) = Some p
                           /\ LocalDate.year p = y /\ LocalDate.month p = m
                           /\ LocalDate.day p = d)
                <-> LocalDate.keepsDay zone (LocalDate.localMidnight y m d)).
    { split.
      - intros (p & Hp & _).
        rewrite (parseDate_zone_wellFormed zone s Hw) in Hp.
        apply (@parseDate_ymd_zone_iff zone y m d B ltac:(lia)).
        exists p. exact Hp.
      - intros K. apply (@parseDate_zone_accepts zone s y m d B Hw Hv K). }
    split; [exact A|]. split; [|apply keepsDay_of_existing].
    split.
    + intros HN K. destruct (proj2 A K) as (p & Hp & _). congruence.
    + intros HK.
      destruct (LocalDate.parseDate zone (VString s)) as [p|] eqn:E; [|reflexivity].
      exfalso. apply HK.
      rewrite (parseDate_zone_wellFormed zone s Hw) in E.
      apply (@parseDate_ymd_zone_iff zone y m d B ltac:(lia)).
      exists p. exact E.
  - intros zone. split; [|repeat split; vm_compute; reflexivity].
    intros B. split.
    + destruct (LocalDate.parseDate zone (VString "31-02-2025")) as [p|] eqn:E;
        [|reflexivity].
      exfalso.
      assert (Hw : wellFormed (Str.trim "31-02-2025") 2025 2 31).
      { split; [lia|]. left. reflexivity. }
      rewrite (parseDate_zone_wellFormed zone "31-02-2025" Hw) in E.
      assert (V : validDay 2025 2 31 /\ LocalDate.keepsDay zone
                    (LocalDate.localMidnight 2025 2 31)).
      { apply (@parseDate_ymd_zone_iff zone 2025 2 31 B ltac:(lia)).
        exists p. exact E. }
      destruct V as [(_ & _ & V) _]. vm_compute in V. apply V. reflexivity.
    + destruct (LocalDate.parseDate zone (VString "29-02-0000")) as [p|] eqn:E;
        [|reflexivity].
      exfalso.
      assert (Hw : wellFormed (Str.trim "29-02-0000") 0 2 29).
      { split; [lia|]. left. reflexivity. }
      rewrite (parseDate_zone_wellFormed zone "29-02-0000" Hw) in E.
      assert (V : validDay 0 2 29 /\ LocalDate.keepsDay zone
                    (LocalDate.localMidnight 0 2 29)).
      { apply (@parseDate_ymd_zone_iff zone 0 2 29 B ltac:(lia)).
        exists p. exact E. }
      destruct V as [(_ & _ & V) _]. vm_compute in V. apply V. reflexivity.
  - split; [exact bounded_apia|].
    split; [vm_compute; discriminate|].
    split; [vm_compute; reflexivity|].
    split; [exact bounded_utc|].
    split; eexists; (split; [vm_compute; reflexivity|]); repeat split.
  - intros zone B K v. apply parseDate_zone_agrees; assumption.
Qed.
